(** * platformio_api.libbuild: staging a library's examples and CI script

    A shallow embedding of [platformio_api/libbuild.py].  The module clones
    the per-library branch of the CI repository into a temporary directory,
    compares the staged [_version.json] with the requested version, rewrites
    the version marker, the [examples/] directory and [.travis.yml], commits
    and pushes.

    The Python code is effectful; it is embedded as functions in a state and
    exception monad over a [world] (file system, working directory, the
    remote repository, the index of the checkout, and a trace of the calls
    made to git, to the logger and to the registry, and of the calls that
    change the file system).  The pure parts
    (board tables, string templating, the test on git's error output) are
    plain functions. *)

From Stdlib Require Import ZArith Ascii String.
From stdpp Require Import base option list strings pretty gmap fin_maps.

Local Open Scope Z_scope.
Set Warnings "-register-all".

(** ** Python values *)

(** The values exchanged with the registry and stored in [_version.json] are
    JSON documents.  A Python [dict] is kept as the list of its items. *)
Inductive json : Type :=
  | JNull
  | JBool (b : bool)
  | JNum (z : Z)
  | JStr (s : string)
  | JArr (items : list json)
  | JObj (fields : list (string * json)).

(** [lib_id] is an integer ([think_of_name_later_by_id(75)]) or a string. *)
Inductive libid : Type :=
  | IdInt (n : Z)
  | IdStr (s : string).

Inductive errno : Type := ENOENT | EEXIST | ENOTDIR | EISDIR | EINVAL.

(** The exceptions the modelled operations raise.  All of them derive from
    [Exception]. *)
Inductive exn : Type :=
  | GitCommandError (status : Z) (stderr : option string)
  | RemoteBranchNotFound (branch : string)
  | IndexError
  | KeyError (key : string)
  | TypeError
  | ValueError
  | OSError (code : errno)
  | IOError (code : errno)
  | ShutilError
  | RequestException (what : string).

Inductive result (A : Type) : Type :=
  | Ok (a : A)
  | Raise (e : exn).
Arguments Ok {A} a.
Arguments Raise {A} e.

Definition rbind {A B} (r : result A) (f : A → result B) : result B :=
  match r with
  | Ok a => f a
  | Raise e => Raise e
  end.

Definition rmap {A B} (f : A → B) (r : result A) : result B :=
  rbind r (λ a, Ok (f a)).

Fixpoint rmapM {A B} (f : A → result B) (l : list A) : result (list B) :=
  match l with
  | [] => Ok []
  | x :: l' => rbind (f x) (λ y, rmap (cons y) (rmapM f l'))
  end.

(** ** Strings *)

Definition nl : string := String "010"%char EmptyString.
Definition dq : string := String "034"%char EmptyString.

(** [sep.join(items)] *)
Fixpoint py_join (sep : string) (items : list string) : string :=
  match items with
  | [] => EmptyString
  | x :: rest =>
      match rest with
      | [] => x
      | _ :: _ => x +:+ sep +:+ py_join sep rest
      end
  end.

(** [s.split(sep)] for a one-character separator: the pieces between the
    separators, so that a string ending in the separator has a last piece
    that is empty. *)
Fixpoint py_split (sep : ascii) (s : string) : list string :=
  match s with
  | EmptyString => [EmptyString]
  | String c s' =>
      if Ascii.eqb c sep then EmptyString :: py_split sep s'
      else match py_split sep s' with
           | piece :: pieces => String c piece :: pieces
           | [] => [String c EmptyString]
           end
  end.

(** [l[-2]] *)
Definition py_index_m2 {A} (l : list A) : result A :=
  match reverse l with
  | _ :: x :: _ => Ok x
  | _ => Raise IndexError
  end.

(** [str(lib_id)], also what [%s] and [{}] make of it. *)
Definition str_of_id (i : libid) : string :=
  match i with
  | IdInt n => pretty n
  | IdStr s => s
  end.

(** Truth value of a Python object. *)
Definition py_truthy (j : json) : bool :=
  match j with
  | JNull => false
  | JBool b => b
  | JNum z => negb (z =? 0)
  | JStr s => negb (String.eqb s EmptyString)
  | JArr l => match l with [] => false | _ => true end
  | JObj l => match l with [] => false | _ => true end
  end.

(** [d.get(k)] on the items of a dict. *)
Fixpoint assoc {A} (k : string) (items : list (string * A)) : option A :=
  match items with
  | [] => None
  | (k', v) :: rest => if String.eqb k k' then Some v else assoc k rest
  end.

(** Two lists compared item by item. *)
Definition all2 {A B} (f : A → B → bool) : list A → list B → bool :=
  fix go xs ys :=
    match xs, ys with
    | [], [] => true
    | x :: xs', y :: ys' => f x y && go xs' ys'
    | _, _ => false
    end.

(** [a == b] on JSON values: numbers and booleans compare by value
    ([True == 1]), lists item by item, dicts by their items whatever the
    order. *)
Fixpoint py_eq (a b : json) {struct a} : bool :=
  match a, b with
  | JNull, JNull => true
  | JBool x, JBool y => Bool.eqb x y
  | JBool x, JNum y => Z.b2z x =? y
  | JNum x, JBool y => x =? Z.b2z y
  | JNum x, JNum y => x =? y
  | JStr x, JStr y => String.eqb x y
  | JArr xs, JArr ys => all2 py_eq xs ys
  | JObj xs, JObj ys =>
      (length xs =? length ys)%nat &&
      forallb (λ kv, match assoc kv.1 ys with
                     | Some v' => py_eq kv.2 v'
                     | None => false
                     end) xs
  | _, _ => false
  end.

(** [v[key]] for a string key. *)
Definition py_getitem (v : json) (key : string) : result json :=
  match v with
  | JObj fields =>
      match assoc key fields with
      | Some x => Ok x
      | None => Raise (KeyError key)
      end
  | _ => Raise TypeError
  end.

(** Iterating over a value: the items of a list, the characters of a string,
    the keys of a dict; anything else is not iterable. *)
Definition py_iter (v : json) : result (list json) :=
  match v with
  | JArr items => Ok items
  | JStr s => Ok ((λ c, JStr (String c EmptyString)) <$> list_ascii_of_string s)
  | JObj fields => Ok ((λ kv, JStr kv.1) <$> fields)
  | _ => Raise TypeError
  end.

(** [sub in s] for two strings: [sub] is a substring of [s]. *)
Fixpoint starts_with (sub s : string) : bool :=
  match sub, s with
  | EmptyString, _ => true
  | String a sub', String b s' => Ascii.eqb a b && starts_with sub' s'
  | String _ _, EmptyString => false
  end.

Fixpoint occurs_in (sub s : string) : bool :=
  starts_with sub s ||
  match s with
  | EmptyString => false
  | String _ s' => occurs_in sub s'
  end.

(** [x in container]: an item of a list that equals [x]; in a string a
    substring, and only a string can be looked for; a key of a dict, and
    what is looked for has to be hashable; anything else cannot be
    searched. *)
Definition py_in (x container : json) : result bool :=
  match container with
  | JArr items => Ok (existsb (py_eq x) items)
  | JStr s =>
      match x with
      | JStr sub => Ok (occurs_in sub s)
      | _ => Raise TypeError
      end
  | JObj fields =>
      match x with
      | JStr key => Ok (bool_decide (is_Some (assoc key fields)))
      | JArr _ | JObj _ => Raise TypeError
      | _ => Ok false
      end
  | _ => Raise TypeError
  end.

(** ** Python's [str.format] with named fields

    The templates of this module only use fields of the form [{name}]. *)
Fixpoint py_format_go (t : string) (field : option string)
    (args : list (string * string)) : result string :=
  match t with
  | EmptyString =>
      match field with
      | None => Ok EmptyString
      | Some _ => Raise ValueError
      end
  | String c t' =>
      match field with
      | None =>
          if Ascii.eqb c "{"%char then py_format_go t' (Some EmptyString) args
          else if Ascii.eqb c "}"%char then Raise ValueError
          else rmap (String c) (py_format_go t' None args)
      | Some name =>
          if Ascii.eqb c "}"%char then
            match assoc name args with
            | Some v => rmap (String.append v) (py_format_go t' None args)
            | None => Raise (KeyError name)
            end
          else py_format_go t' (Some (name +:+ String c EmptyString)) args
      end
  end.

Definition py_format (t : string) (args : list (string * string)) : result string :=
  py_format_go t None args.

(** ** Module constants *)

Definition VERSION_FILENAME : string := "_version.json".
Definition TRAVIS_FILENAME : string := ".travis.yml".
Definition COMMIT_MESSAGE : string := "Update library to version {library_version}".

Definition unlines (ls : list string) : string :=
  foldr (λ l acc, l +:+ nl +:+ acc) EmptyString ls.

Definition TRAVIS_CONFIG_TEMPLATE : string :=
  Eval vm_compute in
    unlines
      [ "language: python";
        "python:";
        "    - " +:+ dq +:+ "2.7" +:+ dq;
        EmptyString;
        "sudo: false";
        EmptyString;
        "# Cache PlatformIO packages using Travis CI container-based infrastructure";
        "cache:";
        "    directories:";
        "        - " +:+ dq +:+ "~/.platformio" +:+ dq;
        EmptyString;
        "env:";
        "{envs}";
        EmptyString;
        "install:";
        "    - pip install -U platformio";
        EmptyString;
        "script:";
        "    - platformio --force lib install --version={library_version} {library_id}";
        "    - platformio --force ci {boards}" ].

Definition BOARDS : gmap string (list string) :=
  <["atmelavr" := ["uno"; "leonardo"; "megaatmega2560"]]>
    (<["teensy" := ["teensy20"; "teensy31"]]> ∅).

(** ** Paths and the file system *)

(** A path of the file system is the list of its components from the root.
    A Python path string is absolute or relative to the working directory. *)
Abbreviation path := (list string).

Inductive pypath : Type :=
  | AbsP (p : path)
  | RelP (p : path).

(** [os.path.join(a, b)] *)
Definition join (a b : pypath) : pypath :=
  match b with
  | AbsP _ => b
  | RelP q =>
      match a with
      | AbsP p => AbsP (p ++ q)
      | RelP p => RelP (p ++ q)
      end
  end.

Definition path_str (p : pypath) : string :=
  match p with
  | AbsP q => "/" +:+ py_join "/" q
  | RelP q => py_join "/" q
  end.

Definition resolve (cwd : path) (p : pypath) : path :=
  match p with
  | AbsP q => q
  | RelP q => cwd ++ q
  end.

Definition parent (p : path) : option path :=
  match reverse p with
  | [] => None
  | _ :: r => Some (reverse r)
  end.

Fixpoint child_name (d k : path) : option string :=
  match d, k with
  | [], [n] => Some n
  | x :: d', y :: k' => if decide (x = y) then child_name d' k' else None
  | _, _ => None
  end.

(** The proper, non-empty prefixes of a relative path: the directories that
    have to exist for the path to exist. *)
Fixpoint ancestors (p : path) : list path :=
  match p with
  | [] => []
  | x :: q =>
      match q with
      | [] => []
      | _ :: _ => [x] :: ((λ r, x :: r) <$> ancestors q)
      end
  end.

(** What a file holds: a JSON document, as [json.dump] writes it and
    [json.load] reads it back, or any other text. *)
Inductive content : Type :=
  | CJson (doc : json)
  | CText (text : string).

Inductive node : Type :=
  | NFile (c : content)
  | NDir.

Abbreviation tree := (gmap path node).

(** ** The world *)

Inductive event : Type :=
  | LogDebug (msg : string)
  | LogInfo (msg : string)
  | LogException (e : exn)
  | FsMkdtemp (d : path)
  | FsMkdir (d : path)
  | FsRmtree (d : path)
  | FsOpenW (f : path)
  | GitClone (url : string) (to : path) (branch : string)
      (single_branch : bool) (depth : Z)
  | GitCheckout (branch : string) (orphan : bool)
  | GitAdd (paths : list string)
  | GitCommit (msg : string)
  | GitPush (branch : string) (set_upstream : bool)
  | HttpGet (url : string).

Record world : Type := World {
  cwd : path;                   (* the working directory of the process *)
  fs : tree;                    (* the file system *)
  remote : gmap string tree;    (* the branches of the CI repository *)
  index : tree;                 (* the index of the checkout *)
  head : option tree;           (* the tree of the checked-out commit *)
  trace : list event            (* calls made so far, oldest first *)
}.

Definition set_cwd (d : path) (w : world) : world :=
  World d (fs w) (remote w) (index w) (head w) (trace w).
Definition set_fs (m : tree) (w : world) : world :=
  World (cwd w) m (remote w) (index w) (head w) (trace w).
Definition set_remote (r : gmap string tree) (w : world) : world :=
  World (cwd w) (fs w) r (index w) (head w) (trace w).
Definition set_index (i : tree) (w : world) : world :=
  World (cwd w) (fs w) (remote w) i (head w) (trace w).
Definition set_head (h : option tree) (w : world) : world :=
  World (cwd w) (fs w) (remote w) (index w) h (trace w).
Definition record (ev : event) (w : world) : world :=
  World (cwd w) (fs w) (remote w) (index w) (head w) (trace w ++ [ev]).

(** How a call to git fails: the command exits with an error, or it cannot
    be run at all. *)
Inductive git_failure : Type :=
  | GitFails (status : Z) (stderr : option string)
  | GitMissing.

Definition exn_of_git_failure (f : git_failure) : exn :=
  match f with
  | GitFails status stderr => GitCommandError status stderr
  | GitMissing => OSError ENOENT
  end.

Inductive push_result : Type :=
  | PushAccepted
  | PushRejected              (* reported in the return value, which is ignored *)
  | PushRaises (f : git_failure).

Record response : Type := Response { body : content }.

(** [get_boards()] of PlatformIO: board name to board description; the
    description is a dict of which only the key ["platform"] is read. *)
Definition board_registry : Type := list (string * list (string * string)).

(** What the module takes from its surroundings: configuration, the helper
    [get_libexample_dir], the name chosen by [mkdtemp], the interpreter's
    [repr], the failures of git and of the registry, and PlatformIO's
    [get_boards]. *)
Record env : Type := Env {
  LIBBUILD_REPO_URI : string;
  tempdir : path;
  temp_suffix : string;
  get_libexample_dir : libid → path;
  py_repr : json → string;
  clone_fault : string → option git_failure;
  checkout_fault : option git_failure;
  add_fault : option git_failure;
  commit_fault : option git_failure;
  push_outcome : push_result;
  requests_get : string → result response;
  get_boards : board_registry
}.

(** ** Board tables *)

(** [info.get("platform")]: the platform of a board, [None] when its
    description has none. *)
Definition info_platform (info : list (string * string)) : json :=
  match assoc "platform" info with
  | Some p => JStr p
  | None => JNull
  end.

(** [info.get("platform") in platforms] *)
Definition platform_in (info : list (string * string)) (platforms : json)
    : result bool :=
  py_in (info_platform info) platforms.

(** The loop of [get_all_boards_by_platforms] over the items of the
    registry. *)
Fixpoint boards_of_platforms (registry : board_registry) (platforms : json)
    : result (list string) :=
  match registry with
  | [] => Ok []
  | (board, info) :: rest =>
      rbind (platform_in info platforms) (λ found,
      rmap (λ board_names, if found : bool then board :: board_names
                           else board_names)
        (boards_of_platforms rest platforms))
  end.

Definition get_all_boards_by_platforms (e : env) (platforms : json)
    : result (list string) :=
  boards_of_platforms (get_boards e) platforms.

(** [BOARDS.get(p, [])]: the key has to be hashable; only a string can be a
    key of the table. *)
Definition BOARDS_get (p : json) : result (list string) :=
  match p with
  | JStr s => Ok (default [] (BOARDS !! s))
  | JArr _ | JObj _ => Raise TypeError
  | _ => Ok []
  end.

(** [get_boards_by_platforms]: the entries of the table for the items of
    [platforms], one after the other; the first item that cannot be a key
    stops the loop with its exception. *)
Definition get_boards_by_platforms (platforms : json) : result (list string) :=
  rbind (py_iter platforms) (λ ps,
  rmap (λ found : list (list string), concat found) (rmapM BOARDS_get ps)).

(** ** The monad of effects *)

Definition M (A : Type) : Type := world → result A * world.

Definition ret {A} (a : A) : M A := λ w, (Ok a, w).
Definition raise {A} (e : exn) : M A := λ w, (Raise e, w).
Definition bind {A B} (m : M A) (f : A → M B) : M B :=
  λ w, match m w with
       | (Ok a, w') => f a w'
       | (Raise e, w') => (Raise e, w')
       end.
Definition lift {A} (r : result A) : M A := λ w, (r, w).

Declare Scope py_scope.
Delimit Scope py_scope with py.
Notation "x <- m ;; k" := (bind m (λ x, k))
  (at level 100, m at next level, right associativity) : py_scope.
Notation "m ;; k" := (bind m (λ _, k))
  (at level 100, right associativity) : py_scope.
Local Open Scope py_scope.

(** [try: body except Exception as exc: handler(exc)] *)
Definition try_except {A} (body : M A) (handler : exn → M A) : M A :=
  λ w, match body w with
       | (Ok a, w') => (Ok a, w')
       | (Raise e, w') => handler e w'
       end.

(** [try: body finally: final] *)
Definition try_finally {A} (body : M A) (final : M unit) : M A :=
  λ w, match body w with
       | (r, w') =>
           match final w' with
           | (Ok _, w'') => (r, w'')
           | (Raise e, w'') => (Raise e, w'')
           end
       end.

(** *** Logging *)

Definition logger_debug (msg : string) : M unit :=
  λ w, (Ok (), record (LogDebug msg) w).
Definition logger_info (msg : string) : M unit :=
  λ w, (Ok (), record (LogInfo msg) w).
Definition logger_exception (e : exn) : M unit :=
  λ w, (Ok (), record (LogException e) w).

(** *** [os], [shutil], [tempfile], [json]

    The calls fail as the operating system makes them fail: on a path that
    is missing, that exists already, or that is of the wrong kind. *)

Definition getcwd : M pypath :=
  λ w, match fs w !! cwd w with
       | Some NDir => (Ok (AbsP (cwd w)), w)
       | _ => (Raise (OSError ENOENT), w)
       end.

Definition chdir (p : pypath) : M unit :=
  λ w, let d := resolve (cwd w) p in
       match fs w !! d with
       | Some NDir => (Ok (), set_cwd d w)
       | Some (NFile _) => (Raise (OSError ENOTDIR), w)
       | None => (Raise (OSError ENOENT), w)
       end.

Definition exists_ (p : pypath) : M bool :=
  λ w, (Ok (bool_decide (is_Some (fs w !! resolve (cwd w) p))), w).

Definition mkdtemp (e : env) (prefix : string) : M pypath :=
  λ w, let d := tempdir e ++ [prefix +:+ temp_suffix e] in
       let w1 := record (FsMkdtemp d) w in
       match fs w !! tempdir e, fs w !! d with
       | Some NDir, None => (Ok (AbsP d), set_fs (<[d := NDir]> (fs w)) w1)
       | Some NDir, Some _ => (Raise (IOError EEXIST), w1)
       | Some (NFile _), _ => (Raise (OSError ENOTDIR), w1)
       | None, _ => (Raise (OSError ENOENT), w1)
       end.

Definition mkdir (p : pypath) : M unit :=
  λ w, let d := resolve (cwd w) p in
       let w1 := record (FsMkdir d) w in
       match fs w !! d with
       | Some _ => (Raise (OSError EEXIST), w1)
       | None =>
           match parent d with
           | None => (Raise (OSError EEXIST), w1)
           | Some up =>
               match fs w !! up with
               | Some NDir => (Ok (), set_fs (<[d := NDir]> (fs w)) w1)
               | Some (NFile _) => (Raise (OSError ENOTDIR), w1)
               | None => (Raise (OSError ENOENT), w1)
               end
           end
       end.

Definition rmtree (p : pypath) : M unit :=
  λ w, let d := resolve (cwd w) p in
       let w1 := record (FsRmtree d) w in
       match fs w !! d with
       | Some NDir =>
           (Ok (), set_fs (filter (λ kv, ¬ d `prefix_of` kv.1) (fs w)) w1)
       | Some (NFile _) => (Raise (OSError ENOTDIR), w1)
       | None => (Raise (OSError ENOENT), w1)
       end.

Definition children (d : path) (m : tree) : list string :=
  omap (λ kv, child_name d kv.1) (map_to_list m).

Definition listdir (p : pypath) : M (list string) :=
  λ w, let d := resolve (cwd w) p in
       match fs w !! d with
       | Some NDir => (Ok (children d (fs w)), w)
       | Some (NFile _) => (Raise (OSError ENOTDIR), w)
       | None => (Raise (OSError ENOENT), w)
       end.

(** [open(p, "w")]: the file is created or emptied. *)
Definition open_w (p : pypath) : M path :=
  λ w, let f := resolve (cwd w) p in
       let w1 := record (FsOpenW f) w in
       match fs w !! f with
       | Some NDir => (Raise (IOError EISDIR), w1)
       | _ =>
           match parent f with
           | None => (Raise (IOError EISDIR), w1)
           | Some up =>
               match fs w !! up with
               | Some NDir =>
                   (Ok f, set_fs (<[f := NFile (CText EmptyString)]> (fs w)) w1)
               | Some (NFile _) => (Raise (IOError ENOTDIR), w1)
               | None => (Raise (IOError ENOENT), w1)
               end
           end
       end.

(** Writing to a file opened by [open_w]. *)
Definition write (f : path) (c : content) : M unit :=
  λ w, (Ok (), set_fs (<[f := NFile c]> (fs w)) w).

(** [with open(p, "r") as f: load(f)] *)
Definition json_load (p : pypath) : M json :=
  λ w, match fs w !! resolve (cwd w) p with
       | Some (NFile (CJson doc)) => (Ok doc, w)
       | Some (NFile (CText _)) => (Raise ValueError, w)
       | Some NDir => (Raise (IOError EISDIR), w)
       | None => (Raise (IOError ENOENT), w)
       end.

(** [shutil.copyfile(src, dst)] *)
Definition copyfile (src dst : pypath) : M unit :=
  λ w, let s := resolve (cwd w) src in
       let d := resolve (cwd w) dst in
       match fs w !! s with
       | None => (Raise (IOError ENOENT), w)
       | Some n =>
           if decide (s = d) then (Raise ShutilError, w)
           else match n with
                | NDir => (Raise (IOError EISDIR), w)
                | NFile c => (f <- open_w dst ;; write f c) w
                end
       end.

(** *** GitPython

    What is kept of a repository is the tree of its files.  After a clone
    the index and HEAD hold the tree of the branch; [index.add] puts files
    of the working tree into the index and takes none out; [index.commit]
    makes the index the tree of HEAD; a push that the remote accepts puts
    the tree of HEAD on the branch of the remote. *)

Record repo : Type := Repo { working_tree_dir : path }.

Record clone_options : Type := CloneOptions {
  opt_branch : string;
  opt_single_branch : bool;
  opt_depth : Z
}.

(** A tree placed under a directory. *)
Definition place (to : path) (t : tree) : tree := kmap (λ k, to ++ k) t.

(** What git writes on its error stream when the branch to clone is not on
    the remote. *)
Definition branch_not_found_stderr (to : path) (branch : string) : string :=
  "Cloning into '" +:+ path_str (AbsP to) +:+ "'..." +:+ nl +:+
  "fatal: Remote branch " +:+ branch +:+ " not found in upstream origin" +:+ nl.

(** [Repo.clone_from(url, to, **options)]: the files of the branch are
    checked out under [to], index and HEAD are those of the branch.
    [clone_fault] stands for every way git can fail; a clone that fails
    leaves the directory as it was. *)
Definition clone_from (e : env) (url : string) (to : pypath)
    (o : clone_options) : M repo :=
  λ w, let d := resolve (cwd w) to in
       let w1 := record (GitClone url d (opt_branch o) (opt_single_branch o)
                           (opt_depth o)) w in
       match clone_fault e (opt_branch o) with
       | Some f => (Raise (exn_of_git_failure f), w1)
       | None =>
           match remote w !! opt_branch o with
           | None =>
               (Raise (GitCommandError 128
                         (Some (branch_not_found_stderr d (opt_branch o)))), w1)
           | Some t =>
               (Ok (Repo d),
                set_head (Some t) (set_index t (set_fs (fs w ∪ place d t) w1)))
           end
       end.

(** [repo.git.checkout(branch, orphan=True)]: the new branch has no commit;
    index and working tree stay as they are. *)
Definition git_checkout_orphan (e : env) (branch : string) : M unit :=
  λ w, let w1 := record (GitCheckout branch true) w in
       match checkout_fault e with
       | Some f => (Raise (exn_of_git_failure f), w1)
       | None => (Ok (), set_head None w1)
       end.

Definition add_dirs (rel : path) (idx : tree) : tree :=
  foldr (λ d m, <[d := NDir]> m) idx (ancestors rel).

(** Paths given to [index.add] are relative to the working tree. *)
Fixpoint add_entries (wt : path) (files : tree) (paths : list pypath)
    (idx : tree) : result tree :=
  match paths with
  | [] => Ok idx
  | p :: rest =>
      match p with
      | AbsP _ => Raise ValueError
      | RelP rel =>
          match files !! (wt ++ rel) with
          | Some (NFile c) =>
              add_entries wt files rest (<[rel := NFile c]> (add_dirs rel idx))
          | _ => Raise (OSError ENOENT)
          end
      end
  end.

(** [repo.index.add(paths)] *)
Definition index_add (e : env) (r : repo) (paths : list pypath) : M unit :=
  λ w, let w1 := record (GitAdd (path_str <$> paths)) w in
       match add_fault e with
       | Some f => (Raise (exn_of_git_failure f), w1)
       | None =>
           match add_entries (working_tree_dir r) (fs w) paths (index w) with
           | Ok idx => (Ok (), set_index idx w1)
           | Raise exc => (Raise exc, w1)
           end
       end.

(** [repo.index.commit(message)] *)
Definition index_commit (e : env) (message : string) : M unit :=
  λ w, let w1 := record (GitCommit message) w in
       match commit_fault e with
       | Some f => (Raise (exn_of_git_failure f), w1)
       | None => (Ok (), set_head (Some (index w)) w1)
       end.

(** [repo.remote("origin").push(branch, set_upstream=True)]; the value it
    returns is not looked at. *)
Definition remote_push (e : env) (branch : string) : M unit :=
  λ w, let w1 := record (GitPush branch true) w in
       match push_outcome e with
       | PushRaises f => (Raise (exn_of_git_failure f), w1)
       | PushRejected => (Ok (), w1)
       | PushAccepted =>
           match head w with
           | Some t => (Ok (), set_remote (<[branch := t]> (remote w)) w1)
           | None => (Raise (GitCommandError 1 (Some "error: src refspec does not match any")), w1)
           end
       end.

(** *** [requests] *)

Definition http_get (e : env) (url : string) : M response :=
  λ w, (requests_get e url, record (HttpGet url) w).

(** [response.json()] *)
Definition response_json (r : response) : result json :=
  match body r with
  | CJson doc => Ok doc
  | CText _ => Raise ValueError
  end.

(** ** [shallow_clone_branch] *)

Definition expected_message (branch : string) : string :=
  "fatal: Remote branch " +:+ branch +:+ " not found in upstream origin".

(** [exc.stderr and exc.stderr.split("\n")[-2] == expected_message] *)
Definition reports_branch_not_found (stderr : option string) (branch : string)
    : result bool :=
  match stderr with
  | None => Ok false
  | Some s =>
      if String.eqb s EmptyString then Ok false
      else rmap (λ line, String.eqb line (expected_message branch))
             (py_index_m2 (py_split "010"%char s))
  end.

Definition shallow_clone_branch (e : env) (branch : string) (to : pypath)
    (url : string) : M repo :=
  try_except
    (clone_from e url to (CloneOptions branch true 1))
    (λ exc,
       match exc with
       | GitCommandError _ stderr =>
           found <- lift (reports_branch_not_found stderr branch) ;;
           if found : bool then raise (RemoteBranchNotFound branch)
           else raise exc
       | _ => raise exc
       end).

(** ** [think_of_name_later] *)

(** Lines 94 to 104: the checkout of the library's branch. *)
Definition clone_library_branch (e : env) (branch_name : string)
    (repo_directory : pypath) : M repo :=
  r <- try_except
         (logger_debug ("Cloning branch " +:+ branch_name) ;;
          shallow_clone_branch e branch_name repo_directory (LIBBUILD_REPO_URI e))
         (λ exc,
            match exc with
            | RemoteBranchNotFound _ =>
                logger_debug "Branch not found. Making one." ;;
                r <- shallow_clone_branch e "master" repo_directory
                       (LIBBUILD_REPO_URI e) ;;
                git_checkout_orphan e branch_name ;;
                ret r
            | _ => raise exc
            end) ;;
  logger_info ("Cloned into " +:+ path_str repo_directory) ;;
  ret r.

(** [kwargs.get("force")] as a truth value. *)
Definition force_flag (kwargs : list (string * json)) : bool :=
  match assoc "force" kwargs with
  | Some v => py_truthy v
  | None => false
  end.

Inductive gate : Type := Skip | Proceed.

(** Lines 110 to 117: is the requested version the staged one? *)
Definition staged_version_gate (version_filename : pypath) (version : json)
    (kwargs : list (string * json)) : M gate :=
  present <- exists_ version_filename ;;
  if present : bool then
    staged_version <- json_load version_filename ;;
    if py_eq version staged_version && negb (force_flag kwargs) then
      logger_info "Staged version is equal to current version. Update not required." ;;
      ret Skip
    else ret Proceed
  else ret Proceed.

Definition examples_directory : pypath := RelP ["examples"].

(** Lines 131 to 135: the loop that copies the examples. *)
Fixpoint copy_examples (saved_examples_directory : pypath)
    (names : list string) (example_files : list pypath) : M (list pypath) :=
  match names with
  | [] => ret example_files
  | example_filename :: rest =>
      let final_example_path := join examples_directory (RelP [example_filename]) in
      copyfile (join saved_examples_directory (RelP [example_filename]))
        final_example_path ;;
      copy_examples saved_examples_directory rest
        (example_files ++ [final_example_path])
  end.

(** Lines 121 to 135: [examples/] is cleared and filled again. *)
Definition stage_examples (e : env) (lib_id : libid) : M (list pypath) :=
  present <- exists_ examples_directory ;;
  (if present : bool then rmtree examples_directory else ret ()) ;;
  mkdir examples_directory ;;
  let saved_examples_directory := AbsP (get_libexample_dir e lib_id) in
  names <- listdir saved_examples_directory ;;
  copy_examples saved_examples_directory names [].

(** [str(v)] of a value put into a template. *)
Definition str_of_json (e : env) (v : json) : string :=
  match v with
  | JStr s => s
  | JNum z => pretty z
  | JBool true => "True"
  | JBool false => "False"
  | JNull => "None"
  | _ => py_repr e v
  end.

(** Line 138: the [--board] flags. *)
Definition board_flags (platforms : json) : result string :=
  rmap (λ names, py_join " " ((λ board_type, "--board=" +:+ board_type) <$> names))
    (get_boards_by_platforms platforms).

(** Line 140: the lines of the [env:] block. *)
Definition env_lines (example_files : list pypath) : string :=
  py_join nl ((λ p, "    - PLATFORMIO_CI_SRC=" +:+ path_str p) <$> example_files).

(** Lines 143 to 146: the text of [.travis.yml]. *)
Definition travis_config (e : env) (lib_id : libid) (version : json)
    (envs boards : string) : result string :=
  rbind (py_getitem version "name") (λ name,
  py_format TRAVIS_CONFIG_TEMPLATE
    [ ("envs", envs); ("boards", boards);
      ("library_version", str_of_json e name);
      ("library_id", str_of_id lib_id) ]).

(** Lines 137 to 146 *)
Definition write_travis_config (e : env) (lib_id : libid) (version platforms : json)
    (example_files : list pypath) : M unit :=
  boards <- lift (board_flags platforms) ;;
  let envs := env_lines example_files in
  travis_file <- open_w (RelP [TRAVIS_FILENAME]) ;;
  text <- lift (travis_config e lib_id version envs boards) ;;
  write travis_file (CText text).

(** Lines 148 to 152 *)
Definition commit_and_push (e : env) (r : repo) (branch_name : string)
    (version : json) (example_files : list pypath) : M unit :=
  index_add e r (example_files ++ [RelP [VERSION_FILENAME]; RelP [TRAVIS_FILENAME]]) ;;
  name <- lift (py_getitem version "name") ;;
  message <- lift (py_format COMMIT_MESSAGE [("library_version", str_of_json e name)]) ;;
  index_commit e message ;;
  remote_push e branch_name.

(** Lines 118 to 152: what is done once the gate is passed. *)
Definition stage_and_push (e : env) (r : repo) (lib_id : libid)
    (branch_name : string) (version_filename : pypath)
    (version platforms : json) : M unit :=
  version_file <- open_w version_filename ;;
  write version_file (CJson version) ;;
  example_files <- stage_examples e lib_id ;;
  write_travis_config e lib_id version platforms example_files ;;
  commit_and_push e r branch_name version example_files.

(** Lines 107 to 152: what is done in the checkout. *)
Definition update_checkout (e : env) (r : repo) (lib_id : libid)
    (branch_name : string) (repo_directory : pypath) (version platforms : json)
    (kwargs : list (string * json)) : M unit :=
  chdir (AbsP (working_tree_dir r)) ;;
  let version_filename := join repo_directory (RelP [VERSION_FILENAME]) in
  g <- staged_version_gate version_filename version kwargs ;;
  match g with
  | Skip => ret ()
  | Proceed =>
      stage_and_push e r lib_id branch_name version_filename version platforms
  end.

(** Lines 94 to 152: the body of the outer [try]. *)
Definition publish_body (e : env) (lib_id : libid) (branch_name : string)
    (repo_directory : pypath) (version platforms : json)
    (kwargs : list (string * json)) : M unit :=
  r <- clone_library_branch e branch_name repo_directory ;;
  update_checkout e r lib_id branch_name repo_directory version platforms kwargs.

Definition think_of_name_later (e : env) (lib_id : libid)
    (version platforms : json) (kwargs : list (string * json)) : M unit :=
  original_working_directory <- getcwd ;;
  let branch_name := "library-" +:+ str_of_id lib_id in
  repo_directory <- mkdtemp e ("pioapi-libbuild-" +:+ str_of_id lib_id +:+ "-") ;;
  try_finally
    (try_except
       (publish_body e lib_id branch_name repo_directory version platforms kwargs)
       (λ exc, logger_exception exc))
    (chdir original_working_directory ;;
     rmtree repo_directory).

(** ** [think_of_name_later_by_id] *)

Definition info_url (lib_id : libid) : string :=
  "http://api.platformio.org/lib/info/" +:+ str_of_id lib_id.

Definition think_of_name_later_by_id (e : env) (lib_id : libid) : M unit :=
  resp <- http_get e (info_url lib_id) ;;
  info <- lift (response_json resp) ;;
  version <- lift (py_getitem info "version") ;;
  platforms <- lift (py_getitem info "platforms") ;;
  think_of_name_later e lib_id version platforms [].

(** * Vocabulary of the properties *)

(** The entry of the static table for a platform name, [[]] when the
    platform is not in the table. *)
Definition static_boards (p : string) : list string := default [] (BOARDS !! p).

Definition board_flag (board_type : string) : string := "--board=" +:+ board_type.

Definition env_line (p : pypath) : string := "    - PLATFORMIO_CI_SRC=" +:+ path_str p.

(** [s] has [sub] as a substring; [occurs_in] is the same as a test. *)
Definition contains (s sub : string) : Prop := ∃ pre post, s = pre +:+ sub +:+ post.

(** The fixed text of [.travis.yml] before the lines of the [env:] block. *)
Definition travis_head : string :=
  Eval vm_compute in
    unlines
      [ "language: python";
        "python:";
        "    - " +:+ dq +:+ "2.7" +:+ dq;
        EmptyString;
        "sudo: false";
        EmptyString;
        "# Cache PlatformIO packages using Travis CI container-based infrastructure";
        "cache:";
        "    directories:";
        "        - " +:+ dq +:+ "~/.platformio" +:+ dq;
        EmptyString;
        "env:" ].

(** The fixed text between the [env:] block and the version given to the
    install command. *)
Definition travis_install : string :=
  Eval vm_compute in
    nl +:+
    unlines
      [ EmptyString;
        "install:";
        "    - pip install -U platformio";
        EmptyString;
        "script:" ] +:+
    "    - platformio --force lib install --version=".

(** The build command, up to its flags. *)
Definition travis_build : string := "    - platformio --force ci ".

Definition travis_text (envs library_version library_id boards : string) : string :=
  travis_head +:+ envs +:+ travis_install +:+ library_version +:+ " " +:+
  library_id +:+ nl +:+ travis_build +:+ boards +:+ nl.

(** The registry replaced by another one. *)
Definition with_get_boards (registry : board_registry) (e : env) : env :=
  Env (LIBBUILD_REPO_URI e) (tempdir e) (temp_suffix e) (get_libexample_dir e)
    (py_repr e) (clone_fault e) (checkout_fault e) (add_fault e)
    (commit_fault e) (push_outcome e) (requests_get e) registry.

(** The file systems considered are trees: whatever exists lies in a
    directory that exists. *)
Definition parent_is_dir (m : tree) (p : path) : bool :=
  match parent p with
  | None => true
  | Some up => match m !! up with Some NDir => true | _ => false end
  end.

Definition fs_wf (m : tree) : Prop :=
  map_Forall (λ p _, parent_is_dir m p = true) m.

Global Instance fs_wf_dec (m : tree) : Decision (fs_wf m).
Proof. unfold fs_wf. apply _. Defined.

Definition strictly_under (d p : path) : Prop := d `prefix_of` p ∧ p ≠ d.


(** [m'] is [m] except on the paths in [S]. *)
Definition same_except (S : path → Prop) (m m' : tree) : Prop :=
  ∀ p, ¬ S p → m' !! p = m !! p.

(** Events of the file system and of the logger. *)
Definition local_event (ev : event) : bool :=
  match ev with
  | LogDebug _ | LogInfo _ | LogException _
  | FsMkdtemp _ | FsMkdir _ | FsRmtree _ | FsOpenW _ => true
  | _ => false
  end.

(** Events that change the branch: staging in the index, commit, push. *)
Definition changes_branch (ev : event) : bool :=
  match ev with
  | GitAdd _ | GitCommit _ | GitPush _ _ => true
  | _ => false
  end.

(** [w'] extends the trace of [w] by events that satisfy [P]. *)
Definition extends_trace (P : event → bool) (w w' : world) : Prop :=
  ∃ evs, trace w' = trace w ++ evs ∧ Forall (λ ev, P ev = true) evs.

(** The events recorded between [w] and [w']. *)
Definition events_since (w w' : world) : list event :=
  drop (length (trace w)) (trace w').

(** A step that only changes files in [S] and only logs: working directory,
    remote, index and HEAD are as before. *)
Definition fs_only (S : path → Prop) (w w' : world) : Prop :=
  cwd w' = cwd w ∧ remote w' = remote w ∧ index w' = index w ∧
  head w' = head w ∧ same_except S (fs w) (fs w') ∧
  extends_trace local_event w w'.

(** The same for code run in the working directory [c]. *)
Definition fs_only_in (c : path) (S : path → Prop) (w w' : world) : Prop :=
  cwd w = c → fs_only S w w'.

(** Every run of [m] relates the world before to the world after, whether
    [m] returns or raises. *)
Definition steps (R : relation world) {A} (m : M A) : Prop :=
  ∀ w, R w (m w).2.

(** The files of [w'] are those of [w] except strictly under [d]. *)
Definition within (d : path) (w w' : world) : Prop :=
  same_except (strictly_under d) (fs w) (fs w').

(** The trace of [w'] continues that of [w]. *)
Definition grows (w w' : world) : Prop := ∃ evs, trace w' = trace w ++ evs.

(** Code run in the directory [d] that stays there and only changes files
    strictly under it. *)
Definition stays_within (d : path) (w w' : world) : Prop :=
  cwd w = d → cwd w' = d ∧ within d w w' ∧ grows w w'.

(** Events other than those that change the branch. *)
Definition keeps_branch (ev : event) : bool := negb (changes_branch ev).

(** Cloning into the existing directory [d]: files appear strictly under
    [d]; working directory and remote stay; nothing is recorded that
    changes the branch. *)
Definition clones_into (d : path) (w w' : world) : Prop :=
  is_Some (fs w !! d) →
  cwd w' = cwd w ∧ within d w w' ∧ remote w' = remote w ∧
  extends_trace keeps_branch w w'.

(** Git reports a missing branch only when the branch is missing. *)
Definition honest (e : env) : Prop :=
  ∀ b status stderr, clone_fault e b = Some (GitFails status stderr) →
    reports_branch_not_found stderr b ≠ Ok true.

(** The tree that the checkout of a branch starts from: the branch's, or
    that of [master] when the branch is not on the remote. *)
Definition cloned_tree (r : gmap string tree) (branch : string) : option tree :=
  match r !! branch with
  | Some t => Some t
  | None => r !! "master"
  end.

(** The directory made by [mkdtemp] for a library. *)
Definition checkout_dir (e : env) (lib_id : libid) : path :=
  tempdir e ++ [("pioapi-libbuild-" +:+ str_of_id lib_id +:+ "-") +:+ temp_suffix e].

Definition branch_of (lib_id : libid) : string := "library-" +:+ str_of_id lib_id.

(** The world in which the body of [think_of_name_later] starts. *)
Definition at_entry (e : env) (lib_id : libid) (w : world) : world :=
  set_fs (<[checkout_dir e lib_id := NDir]> (fs w))
    (record (FsMkdtemp (checkout_dir e lib_id)) w).

(** [getcwd] and [mkdtemp] succeed: the working directory exists, so does
    the directory for temporary files, and the name chosen is free. *)
Definition entry_ok (e : env) (lib_id : libid) (w : world) : Prop :=
  fs w !! cwd w = Some NDir ∧ fs w !! tempdir e = Some NDir ∧
  fs w !! checkout_dir e lib_id = None.

(** What the handler of the outer [try] records. *)
Definition logged (r : result ()) : list event :=
  match r with
  | Ok _ => []
  | Raise exc => [LogException exc]
  end.

(** ** A sample world

    A machine with a home directory, a directory for temporary files and
    the saved examples of library 75; a CI repository with [master] and,
    in the second world, a branch staged for version 0.9 of the library. *)
Definition sample_fs : tree :=
  list_to_map
    [ ([], NDir); (["tmp"], NDir); (["home"], NDir); (["data"], NDir);
      (["data"; "75"], NDir);
      (["data"; "75"; "Blink.ino"], NFile (CText "void setup() {}"));
      (["data"; "75"; "Fade.ino"], NFile (CText "void loop() {}")) ].

Definition sample_master : tree :=
  list_to_map [ (["README.md"], NFile (CText "ci")) ].

Definition sample_version (name : string) : json := JObj [("name", JStr name)].

Definition sample_staged : tree :=
  list_to_map
    [ ([VERSION_FILENAME], NFile (CJson (sample_version "0.9")));
      (["examples"], NDir);
      (["examples"; "old.ino"], NFile (CText "old"));
      ([TRAVIS_FILENAME], NFile (CText "language: python")) ].

Definition sample_info : json :=
  JObj [ ("version", sample_version "1.0");
         ("platforms", JArr [JStr "atmelavr"]) ].

Definition sample_env : env :=
  Env "https://example.org/ci.git" ["tmp"] "a1b2"
    (λ i, ["data"; str_of_id i]) (λ _, EmptyString) (λ _, None) None None None
    PushAccepted (λ _, Ok (Response (CJson sample_info)))
    [ ("nanoatmega328", [("platform", "atmelavr")]) ].

(** The same, with a git that cannot reach the remote. *)
Definition offline_env : env :=
  Env "https://example.org/ci.git" ["tmp"] "a1b2"
    (λ i, ["data"; str_of_id i]) (λ _, EmptyString)
    (λ _, Some (GitFails 128 (Some ("fatal: unable to access the remote" +:+ nl))))
    None None None
    PushAccepted (λ _, Ok (Response (CJson sample_info)))
    [ ("nanoatmega328", [("platform", "atmelavr")]) ].

Definition sample_world : world :=
  World ["home"] sample_fs {[ "master" := sample_master ]} ∅ None [].

Definition staged_world : world :=
  World ["home"] sample_fs
    (<["library-75" := sample_staged]> {[ "master" := sample_master ]}) ∅ None [].

(** The call that removes a directory, when the directory is there. *)
Definition removal (m : tree) (d : path) : list event :=
  match m !! d with
  | Some _ => [FsRmtree d]
  | None => []
  end.

Definition is_dir (o : option node) : bool :=
  match o with
  | Some NDir => true
  | _ => false
  end.

Definition is_file (o : option node) : bool :=
  match o with
  | Some (NFile _) => true
  | _ => false
  end.

(** The directory [d] has no subdirectory. *)
Definition only_files (m : tree) (d : path) : Prop :=
  Forall (λ n, is_dir (m !! (d ++ [n])) = false) (children d m).

(** A checkout of the staged branch of the sample, with the process in it. *)
Definition checkout_world : world :=
  World ["tmp"; "co"]
    (<[["tmp"; "co"] := NDir]> sample_fs ∪ place ["tmp"; "co"] sample_staged)
    (<["library-75" := sample_staged]> {[ "master" := sample_master ]})
    sample_staged (Some sample_staged) [].

(** The sample with a registry that cannot be reached. *)
Definition unreachable_env : env :=
  Env "https://example.org/ci.git" ["tmp"] "a1b2"
    (λ i, ["data"; str_of_id i]) (λ _, EmptyString) (λ _, None) None None None
    PushAccepted (λ _, Raise (RequestException "connection refused"))
    [ ("nanoatmega328", [("platform", "atmelavr")]) ].

(** The sample with a git whose clone fails and leaves one line, without a
    line end, on its error stream. *)
Definition one_line_stderr : string := "fatal: unable to access the remote".

Definition terse_env : env :=
  Env "https://example.org/ci.git" ["tmp"] "a1b2"
    (λ i, ["data"; str_of_id i]) (λ _, EmptyString)
    (λ _, Some (GitFails 128 (Some one_line_stderr)))
    None None None
    PushAccepted (λ _, Ok (Response (CJson sample_info)))
    [ ("nanoatmega328", [("platform", "atmelavr")]) ].

(** The first call to git made for a branch: the shallow clone of that
    branch, after the message that announces it. *)
Definition first_clone (e : env) (branch : string) (d : path) (w : world)
    : result repo * world :=
  clone_from e (LIBBUILD_REPO_URI e) (AbsP d) (CloneOptions branch true 1)
    (record (LogDebug ("Cloning branch " +:+ branch)) w).

(** What is done when the branch is not on the remote: [master] is cloned
    and the branch is made without history. *)
Definition make_branch (e : env) (branch : string) (d : path) : M repo :=
  logger_debug "Branch not found. Making one." ;;
  r <- shallow_clone_branch e "master" (AbsP d) (LIBBUILD_REPO_URI e) ;;
  git_checkout_orphan e branch ;;
  ret r.

Definition cloned_into (d : path) (r : repo) : M repo :=
  logger_info ("Cloned into " +:+ path_str (AbsP d)) ;; ret r.

(** A JSON document as a parser makes it: the keys of every dict are
    distinct. *)
Fixpoint json_wf (v : json) : bool :=
  match v with
  | JArr items => forallb json_wf items
  | JObj fields =>
      bool_decide (NoDup (fields.*1)) && forallb (λ kv, json_wf kv.2) fields
  | _ => true
  end.

Definition skip_message : string :=
  "Staged version is equal to current version. Update not required.".

(** ** Vocabulary of the further properties *)

(** The character [c] occurs in [s]. *)
Fixpoint has_char (c : ascii) (s : string) : bool :=
  match s with
  | EmptyString => false
  | String x s' => Ascii.eqb x c || has_char c s'
  end.

(** A value that is neither a list nor a dict. *)
Definition scalar (v : json) : bool :=
  match v with
  | JArr _ | JObj _ => false
  | _ => true
  end.

(** What an item of a list of platforms contributes: the entry of the
    table for a string, nothing for another scalar. *)
Definition table_entry (v : json) : list string :=
  match v with
  | JStr s => static_boards s
  | _ => []
  end.

(** The text is empty or ends with a line end: what follows it starts a
    line. *)
Fixpoint ends_line (s : string) : bool :=
  match s with
  | EmptyString => true
  | String c EmptyString => Ascii.eqb c "010"
  | String _ s' => ends_line s'
  end.

(** A step that leaves the remote as it is and records only events that
    satisfy [P]. *)
Definition keeps_remote (P : event → bool) (w w' : world) : Prop :=
  remote w' = remote w ∧ extends_trace P w w'.

(** A step that changes at most the branch [b] of the remote and records
    only events that satisfy [P]. *)
Definition updates_branch (b : string) (P : event → bool) (w w' : world) : Prop :=
  (∀ b', b' ≠ b → remote w' !! b' = remote w !! b') ∧ extends_trace P w w'.

(** The calls made for a library: of git, a shallow clone of the branch of
    the library or of [master], from the configured repository into the
    directory of the checkout, the making of the library's branch, the
    staging, a commit, and a push to the library's branch; no request to
    the registry. *)
Definition expected_event (e : env) (lib_id : libid) (ev : event) : bool :=
  match ev with
  | GitClone url to branch single_branch depth =>
      String.eqb url (LIBBUILD_REPO_URI e) &&
      bool_decide (to = checkout_dir e lib_id) &&
      (String.eqb branch (branch_of lib_id) || String.eqb branch "master") &&
      single_branch && (depth =? 1)
  | GitCheckout branch orphan => String.eqb branch (branch_of lib_id) && orphan
  | GitPush branch set_upstream =>
      String.eqb branch (branch_of lib_id) && set_upstream
  | HttpGet _ => false
  | _ => true
  end.

(** The sample with a git that reports the branch asked for as missing,
    whatever the remote holds. *)
Definition missing_branch_env : env :=
  Env "https://example.org/ci.git" ["tmp"] "a1b2"
    (λ i, ["data"; str_of_id i]) (λ _, EmptyString)
    (λ b, Some (GitFails 128
                  (Some ("Cloning into 'co'..." +:+ nl +:+
                         expected_message b +:+ nl))))
    None None None
    PushAccepted (λ _, Ok (Response (CJson sample_info)))
    [ ("nanoatmega328", [("platform", "atmelavr")]) ].

(** The sample world with the process in a directory that has been
    removed. *)
Definition lost_world : world := set_cwd ["gone"] sample_world.

(** The sample with a registry that has version 0.9 of the library, the
    one staged in the second sample world. *)
Definition stale_registry_env : env :=
  Env "https://example.org/ci.git" ["tmp"] "a1b2"
    (λ i, ["data"; str_of_id i]) (λ _, EmptyString) (λ _, None) None None None
    PushAccepted
    (λ _, Ok (Response (CJson (JObj [ ("version", sample_version "0.9");
                                      ("platforms", JArr [JStr "atmelavr"]) ]))))
    [ ("nanoatmega328", [("platform", "atmelavr")]) ].

(** The second sample world with a marker on the branch that is not a JSON
    document. *)
Definition conflicted_staged : tree :=
  <[[VERSION_FILENAME] := NFile (CText "<<<<<<< HEAD")]> sample_staged.

Definition conflicted_world : world :=
  World ["home"] sample_fs
    (<["library-75" := conflicted_staged]> {[ "master" := sample_master ]}) ∅ None [].

(** The tree of a branch is a tree: no entry for the root, and whatever
    is below the root lies in a directory of the tree. *)
Definition entry_wf (t : tree) (p : path) : bool :=
  match parent p with
  | None => false
  | Some [] => true
  | Some up => is_dir (t !! up)
  end.

Definition tree_wf (t : tree) : Prop :=
  map_Forall (λ p _, entry_wf t p = true) t.

Global Instance tree_wf_dec (t : tree) : Decision (tree_wf t).
Proof. unfold tree_wf. apply _. Defined.

(** Git does what it is asked to do in the checkout. *)
Definition git_works (e : env) : Prop :=
  (∀ branch, clone_fault e branch = None) ∧ checkout_fault e = None ∧
  add_fault e = None ∧ commit_fault e = None.

(** And the remote accepts what is pushed. *)
Definition reliable (e : env) : Prop :=
  git_works e ∧ push_outcome e = PushAccepted.

(** The remote after a push of the tree [idx] to [branch]. *)
Definition pushed (o : push_result) (branch : string) (idx : tree)
    (r : gmap string tree) : gmap string tree :=
  match o with
  | PushAccepted => <[branch := idx]> r
  | _ => r
  end.

(** The sample with a remote that rejects what is pushed to it. *)
Definition rejecting_env : env :=
  Env "https://example.org/ci.git" ["tmp"] "a1b2"
    (λ i, ["data"; str_of_id i]) (λ _, EmptyString) (λ _, None) None None None
    PushRejected (λ _, Ok (Response (CJson sample_info)))
    [ ("nanoatmega328", [("platform", "atmelavr")]) ].

(** The comparison of lines 111 to 117 lets the update through: there is
    no marker in the tree, or it holds another version, or [force] is
    set. *)
Definition must_update (t : tree) (version : json)
    (kwargs : list (string * json)) : bool :=
  match t !! [VERSION_FILENAME] with
  | None => true
  | Some (NFile (CJson staged)) =>
      negb (py_eq version staged && negb (force_flag kwargs))
  | Some _ => false
  end.

(** The paths given to [index.add] for the examples with these names. *)
Definition example_paths (names : list string) : list pypath :=
  (λ n, RelP ["examples"; n]) <$> names.

(** What is recorded while the branch of a library is checked out. *)
Definition clone_events (e : env) (lib_id : libid) (r : gmap string tree)
    : list event :=
  match r !! branch_of lib_id with
  | Some _ =>
      [ LogDebug ("Cloning branch " +:+ branch_of lib_id);
        GitClone (LIBBUILD_REPO_URI e) (checkout_dir e lib_id)
          (branch_of lib_id) true 1;
        LogInfo ("Cloned into " +:+ path_str (AbsP (checkout_dir e lib_id))) ]
  | None =>
      [ LogDebug ("Cloning branch " +:+ branch_of lib_id);
        GitClone (LIBBUILD_REPO_URI e) (checkout_dir e lib_id)
          (branch_of lib_id) true 1;
        LogDebug "Branch not found. Making one.";
        GitClone (LIBBUILD_REPO_URI e) (checkout_dir e lib_id) "master" true 1;
        GitCheckout (branch_of lib_id) true;
        LogInfo ("Cloned into " +:+ path_str (AbsP (checkout_dir e lib_id))) ]
  end.

(** What is recorded while the checkout in [d] is rewritten and
    published. *)
Definition publish_events (d : path) (had_examples : list event)
    (names : list string) (branch message : string) : list event :=
  [FsOpenW (d ++ [VERSION_FILENAME])] ++ had_examples ++
  [FsMkdir (d ++ ["examples"])] ++
  ((λ n, FsOpenW (d ++ ["examples"; n])) <$> names) ++
  [ FsOpenW (d ++ [TRAVIS_FILENAME]);
    GitAdd (path_str <$> (example_paths names ++
                          [RelP [VERSION_FILENAME]; RelP [TRAVIS_FILENAME]]));
    GitCommit message;
    GitPush branch true ].

(** The removal of [examples/] from a checkout of the tree [t] in [d], when
    the tree has it. *)
Definition cleared (d : path) (t : tree) : list event :=
  match t !! ["examples"] with
  | Some _ => [FsRmtree (d ++ ["examples"])]
  | None => []
  end.

(** The sample world with a CI repository that has no branch at all. *)
Definition bare_world : world := World ["home"] sample_fs ∅ ∅ None [].

(** The sample with a registry that also lists a board whose description
    names no platform. *)
Definition unlabelled_env : env :=
  with_get_boards
    [ ("nanoatmega328", [("platform", "atmelavr")]);
      ("custom", [("name", "Custom board")]) ]
    sample_env.

(** The text on git's error stream as git leaves it: there is none, or it
    is empty, or it has a line end. *)
Definition has_line_end (stderr : option string) : bool :=
  match stderr with
  | None => true
  | Some s => String.eqb s EmptyString || has_char "010" s
  end.

(** * Properties *)

(** ** The board table *)

Lemma BOARDS_atmelavr : BOARDS !! "atmelavr" = Some ["uno"; "leonardo"; "megaatmega2560"].
Proof. reflexivity. Qed.

Lemma BOARDS_teensy : BOARDS !! "teensy" = Some ["teensy20"; "teensy31"].
Proof. reflexivity. Qed.

Lemma BOARDS_unknown (p : string) :
  p ≠ "atmelavr" → p ≠ "teensy" → BOARDS !! p = None.
Proof.
  intros H1 H2. unfold BOARDS.
  rewrite lookup_insert_ne by congruence.
  rewrite lookup_insert_ne by congruence.
  apply lookup_empty.
Qed.

Lemma rmapM_BOARDS_get_strings (ps : list string) :
  rmapM BOARDS_get (JStr <$> ps) = Ok (static_boards <$> ps).
Proof.
  induction ps as [|p ps IH]; [reflexivity|].
  cbn [fmap list_fmap rmapM BOARDS_get rbind]. fold (fmap (M:=list) JStr ps).
  rewrite IH. reflexivity.
Qed.

Lemma get_boards_by_platforms_strings (ps : list string) :
  get_boards_by_platforms (JArr (JStr <$> ps)) = Ok (concat (static_boards <$> ps)).
Proof.
  unfold get_boards_by_platforms. cbn [py_iter rbind].
  rewrite rmapM_BOARDS_get_strings. reflexivity.
Qed.

Lemma static_boards_unknown (ps : list string) :
  Forall (λ p, p ≠ "atmelavr" ∧ p ≠ "teensy") ps →
  concat (static_boards <$> ps) = [].
Proof.
  induction 1 as [|p ps [H1 H2] _ IH]; [reflexivity|].
  cbn [fmap list_fmap concat]. fold (fmap (M:=list) static_boards ps).
  rewrite IH. unfold static_boards. rewrite BOARDS_unknown by assumption.
  reflexivity.
Qed.

Lemma board_flags_strings (ps : list string) :
  board_flags (JArr (JStr <$> ps))
  = Ok (py_join " " (board_flag <$> concat (static_boards <$> ps))).
Proof.
  unfold board_flags. rewrite get_boards_by_platforms_strings. reflexivity.
Qed.

(** ** The text of [.travis.yml] *)

Lemma format_travis_template (envs boards library_version library_id : string) :
  py_format TRAVIS_CONFIG_TEMPLATE
    [ ("envs", envs); ("boards", boards);
      ("library_version", library_version); ("library_id", library_id) ]
  = Ok (travis_text envs library_version library_id boards).
Proof. vm_compute. reflexivity. Qed.

Lemma travis_config_text (e : env) (lib_id : libid) (version name : json)
    (envs boards : string) :
  py_getitem version "name" = Ok name →
  travis_config e lib_id version envs boards
  = Ok (travis_text envs (str_of_json e name) (str_of_id lib_id) boards).
Proof.
  intros Hname. unfold travis_config. rewrite Hname. cbn [rbind].
  apply format_travis_template.
Qed.

(** ** Paths *)

Lemma parent_snoc (d : path) (x : string) : parent (d ++ [x]) = Some d.
Proof.
  unfold parent. rewrite reverse_app, reverse_singleton.
  change (Some (reverse (reverse d)) = Some d).
  by rewrite reverse_involutive.
Qed.

Lemma parent_Some (p up : path) : parent p = Some up → ∃ x, p = up ++ [x].
Proof.
  unfold parent. destruct (reverse p) as [|x r] eqn:Hr; [done|].
  intros [= <-]. exists x.
  rewrite <- (reverse_involutive p), Hr, reverse_cons. done.
Qed.

Lemma child_name_Some (d k : path) (n : string) :
  child_name d k = Some n ↔ k = d ++ [n].
Proof.
  revert k. induction d as [|x d IH]; intros k; cbn.
  - destruct k as [|y [|z k]]; split; intros H; by simplify_eq.
  - destruct k as [|y k]; [split; intros H; by simplify_eq|].
    case_decide as Hxy.
    + subst. rewrite IH. split; intros H; by simplify_eq.
    + split; intros H; by simplify_eq.
Qed.

Lemma snoc_not_prefix (d : path) (x : string) : ¬ (d ++ [x]) `prefix_of` d.
Proof.
  intros H%prefix_length. rewrite length_app in H. cbn in H. lia.
Qed.

Lemma prefix_snoc_inv (d p : path) (x : string) :
  d `prefix_of` p ++ [x] → d `prefix_of` p ∨ d = p ++ [x].
Proof.
  intros [k Hk]. destruct k as [|y k' _] using rev_ind.
  - right. by rewrite app_nil_r in Hk.
  - left. rewrite app_assoc in Hk. apply app_inj_2 in Hk as [-> _]; [|done].
    by eexists.
Qed.

Lemma strictly_under_snoc (d : path) (x : string) : strictly_under d (d ++ [x]).
Proof.
  split; [by eexists|]. intros H%(f_equal length).
  rewrite length_app in H. cbn in H. lia.
Qed.

Lemma strictly_under_app (d q : path) : q ≠ [] → strictly_under d (d ++ q).
Proof.
  intros Hq. split; [by eexists|]. intros H.
  rewrite <- (app_nil_r d) in H at 2. by apply app_inv_head in H.
Qed.

Lemma strictly_under_prefix (d e p : path) :
  strictly_under d e → e `prefix_of` p → strictly_under d p.
Proof.
  intros [Hde Hne] Hep. split; [by etrans|]. intros ->.
  apply Hne. by apply (anti_symm prefix).
Qed.

(** ** Well-formed file systems *)

Lemma fs_wf_parent (m : tree) (d : path) (x : string) :
  fs_wf m → is_Some (m !! (d ++ [x])) → m !! d = Some NDir.
Proof.
  intros Hwf [n Hn]. specialize (Hwf _ _ Hn). cbn in Hwf.
  unfold parent_is_dir in Hwf. rewrite parent_snoc in Hwf.
  by destruct (m !! d) as [[]|].
Qed.

Lemma fs_wf_prefix (m : tree) (d q : path) :
  fs_wf m → is_Some (m !! (d ++ q)) → is_Some (m !! d).
Proof.
  intros Hwf. induction q as [|x q IH] using rev_ind.
  - by rewrite app_nil_r.
  - rewrite app_assoc. intros H. apply IH.
    rewrite (fs_wf_parent m (d ++ q) x); done.
Qed.

Lemma fs_wf_absent_below (m : tree) (d p : path) :
  fs_wf m → m !! d = None → d `prefix_of` p → m !! p = None.
Proof.
  intros Hwf Hd [q ->]. apply eq_None_not_Some. intros H.
  apply (fs_wf_prefix m d q Hwf) in H. rewrite Hd in H. by destruct H.
Qed.

Lemma fs_wf_file_no_children (m : tree) (d p : path) (c : content) :
  fs_wf m → m !! d = Some (NFile c) → strictly_under d p → m !! p = None.
Proof.
  intros Hwf Hd [[q ->] Hne]. apply eq_None_not_Some. intros H.
  destruct q as [|x q]; [by rewrite app_nil_r in Hne|].
  replace (d ++ x :: q) with ((d ++ [x]) ++ q) in H by by rewrite <- app_assoc.
  apply (fs_wf_prefix m _ q Hwf) in H.
  apply (fs_wf_parent m d x Hwf) in H. congruence.
Qed.

(** ** Listing a directory *)

Lemma elem_of_children (d : path) (m : tree) (n : string) :
  n ∈ children d m ↔ is_Some (m !! (d ++ [n])).
Proof.
  unfold children. rewrite list_elem_of_omap. split.
  - intros [[k v] [Hin Hk]]. cbn in Hk. apply child_name_Some in Hk as ->.
    apply elem_of_map_to_list in Hin. by exists v.
  - intros [v Hv]. exists (d ++ [n], v). split.
    + by apply elem_of_map_to_list.
    + cbn. by apply child_name_Some.
Qed.

Lemma NoDup_children (d : path) (m : tree) : NoDup (children d m).
Proof.
  unfold children.
  pose proof (NoDup_fst_map_to_list m) as Hnd.
  induction (map_to_list m) as [|[k v] l IH]; cbn; [constructor|].
  apply NoDup_cons in Hnd as [Hk Hnd].
  destruct (child_name d k) as [n|] eqn:Hn; [|by apply IH].
  constructor; [|by apply IH].
  intros Hin. apply list_elem_of_omap in Hin as [[k' v'] [Hin Hk']].
  cbn in Hk'. apply child_name_Some in Hn, Hk'. subst.
  apply Hk. apply list_elem_of_fmap. by exists (d ++ [n], v').
Qed.

(** ** The monad *)

Lemma bind_ok {A B} (m : M A) (f : A → M B) (w w' : world) (a : A) :
  m w = (Ok a, w') → bind m f w = f a w'.
Proof. unfold bind. by intros ->. Qed.

Lemma bind_raise {A B} (m : M A) (f : A → M B) (w w' : world) (e : exn) :
  m w = (Raise e, w') → bind m f w = (Raise e, w').
Proof. unfold bind. by intros ->. Qed.

Lemma bind_inv_ok {A B} (m : M A) (f : A → M B) (w w' : world) (b : B) :
  bind m f w = (Ok b, w') → ∃ a w1, m w = (Ok a, w1) ∧ f a w1 = (Ok b, w').
Proof.
  unfold bind. destruct (m w) as [[a|e] w1]; [|done]. intros H. by exists a, w1.
Qed.

Section steps.
Context (R : relation world) `{!Reflexive R} `{!Transitive R}.

Lemma steps_ret {A} (a : A) : steps R (ret a).
Proof. intros w. reflexivity. Qed.

Lemma steps_raise {A} (e : exn) : steps R (raise (A:=A) e).
Proof. intros w. reflexivity. Qed.

Lemma steps_lift {A} (r : result A) : steps R (lift r).
Proof. intros w. reflexivity. Qed.

Lemma steps_bind {A B} (m : M A) (f : A → M B) :
    steps R m → (∀ a, steps R (f a)) → steps R (bind m f).
Proof.
    intros Hm Hf w. unfold bind. specialize (Hm w).
    destruct (m w) as [[a|e] w1]; cbn in *; [|done].
    etrans; [exact Hm|]. apply Hf.
Qed.

Lemma steps_try_except {A} (m : M A) (h : exn → M A) :
    steps R m → (∀ e, steps R (h e)) → steps R (try_except m h).
Proof.
    intros Hm Hh w. unfold try_except. specialize (Hm w).
    destruct (m w) as [[a|e] w1]; cbn in *; [done|].
    etrans; [exact Hm|]. apply Hh.
Qed.
End steps.

Lemma steps_mono (R R' : relation world) {A} (m : M A) :
  (∀ w w', R w w' → R' w w') → steps R m → steps R' m.
Proof. intros HR Hm w. apply HR, Hm. Qed.

(** ** Traces *)

Lemma extends_trace_refl (P : event → bool) (w : world) : extends_trace P w w.
Proof. exists []. by rewrite app_nil_r. Qed.

Lemma extends_trace_trans (P : event → bool) (w1 w2 w3 : world) :
  extends_trace P w1 w2 → extends_trace P w2 w3 → extends_trace P w1 w3.
Proof.
  intros (evs1 & H1 & HP1) (evs2 & H2 & HP2). exists (evs1 ++ evs2). split.
  - by rewrite H2, H1, app_assoc.
  - by apply Forall_app.
Qed.

Lemma extends_trace_record (P : event → bool) (ev : event) (w : world) :
  P ev = true → extends_trace P w (record ev w).
Proof. intros HP. exists [ev]. split; [done|]. by constructor. Qed.

Lemma extends_trace_mono (P Q : event → bool) (w w' : world) :
  (∀ ev, P ev = true → Q ev = true) →
  extends_trace P w w' → extends_trace Q w w'.
Proof.
  intros HPQ (evs & H & HP). exists evs. split; [done|].
  eapply Forall_impl; [exact HP|]. exact HPQ.
Qed.

Lemma grows_refl (w : world) : grows w w.
Proof. exists []. by rewrite app_nil_r. Qed.

Lemma grows_trans (w1 w2 w3 : world) : grows w1 w2 → grows w2 w3 → grows w1 w3.
Proof.
  intros [evs1 H1] [evs2 H2]. exists (evs1 ++ evs2). by rewrite H2, H1, app_assoc.
Qed.

Lemma grows_record (ev : event) (w w' : world) :
  trace w' = trace (record ev w) → grows w w'.
Proof. intros H. exists [ev]. by rewrite H. Qed.

Lemma extends_trace_grows (P : event → bool) (w w' : world) :
  extends_trace P w w' → grows w w'.
Proof. intros (evs & H & _). by exists evs. Qed.

Lemma events_since_app (w w' : world) (evs : list event) :
  trace w' = trace w ++ evs → events_since w w' = evs.
Proof. intros H. unfold events_since. by rewrite H, drop_app_length. Qed.

(** ** Frames *)

Lemma same_except_refl (S : path → Prop) (m : tree) : same_except S m m.
Proof. by intros p _. Qed.

Lemma same_except_trans (S : path → Prop) (m1 m2 m3 : tree) :
  same_except S m1 m2 → same_except S m2 m3 → same_except S m1 m3.
Proof. intros H12 H23 p Hp. by rewrite H23, H12. Qed.

Lemma same_except_mono (S S' : path → Prop) (m m' : tree) :
  (∀ p, S p → S' p) → same_except S m m' → same_except S' m m'.
Proof. intros HS H p Hp. apply H. naive_solver. Qed.

Lemma same_except_insert (S : path → Prop) (p : path) (n : node) (m : tree) :
  S p → same_except S m (<[p := n]> m).
Proof. intros Hp q Hq. rewrite lookup_insert_ne; [done|]. by intros ->. Qed.

Global Instance fs_only_refl (S : path → Prop) : Reflexive (fs_only S).
Proof.
  intros w. repeat split; auto using same_except_refl, extends_trace_refl.
Qed.

Global Instance fs_only_trans (S : path → Prop) : Transitive (fs_only S).
Proof.
  intros w1 w2 w3 (Hc1 & Hr1 & Hi1 & Hh1 & Hf1 & Ht1) (Hc2 & Hr2 & Hi2 & Hh2 & Hf2 & Ht2).
  repeat split; try congruence.
  - by eapply same_except_trans.
  - by eapply extends_trace_trans.
Qed.

Global Instance fs_only_in_refl (c : path) (S : path → Prop) :
  Reflexive (fs_only_in c S).
Proof. intros w _. reflexivity. Qed.

Global Instance fs_only_in_trans (c : path) (S : path → Prop) :
  Transitive (fs_only_in c S).
Proof.
  intros w1 w2 w3 H12 H23 Hc. specialize (H12 Hc).
  etrans; [exact H12|]. apply H23. destruct H12 as [-> _]. exact Hc.
Qed.

Lemma fs_only_mono (S S' : path → Prop) (w w' : world) :
  (∀ p, S p → S' p) → fs_only S w w' → fs_only S' w w'.
Proof.
  intros HS (Hc & Hr & Hi & Hh & Hf & Ht). repeat split; try done.
  by eapply same_except_mono.
Qed.

Lemma fs_only_record (S : path → Prop) (ev : event) (w : world) :
  local_event ev = true → fs_only S w (record ev w).
Proof.
  intros Hev. repeat split; auto using same_except_refl, extends_trace_record.
Qed.

Lemma fs_only_write (S : path → Prop) (ev : event) (p : path) (n : node)
    (w : world) :
  local_event ev = true → S p →
  fs_only S w (set_fs (<[p := n]> (fs w)) (record ev w)).
Proof.
  intros Hev Hp. repeat split; cbn.
  - by apply same_except_insert.
  - by apply extends_trace_record.
Qed.

(** ** What the file operations change *)

Lemma open_w_cases (p : pypath) (w : world) :
  let f := resolve (cwd w) p in
  (∃ exc, open_w p w = (Raise exc, record (FsOpenW f) w)) ∨
  open_w p w =
    (Ok f, set_fs (<[f := NFile (CText EmptyString)]> (fs w)) (record (FsOpenW f) w)).
Proof.
  unfold open_w. cbn zeta.
  destruct (fs w !! resolve (cwd w) p) as [[|]|]; eauto;
    (destruct (parent (resolve (cwd w) p)); [|by eauto]);
    (destruct (fs w !! l) as [[|]|]; eauto).
Qed.

Lemma open_w_ok (p : pypath) (up : path) (w : world) :
  is_dir (fs w !! resolve (cwd w) p) = false →
  parent (resolve (cwd w) p) = Some up → fs w !! up = Some NDir →
  open_w p w
  = (Ok (resolve (cwd w) p),
     set_fs (<[resolve (cwd w) p := NFile (CText EmptyString)]> (fs w))
       (record (FsOpenW (resolve (cwd w) p)) w)).
Proof.
  intros Hf Hup Hdir. unfold open_w. cbn zeta. rewrite Hup, Hdir.
  by destruct (fs w !! resolve (cwd w) p) as [[|]|].
Qed.

Section fs_frames.
Context (c : path) (S : path → Prop).
Local Abbreviation R := (fs_only_in c S).

Lemma steps_exists (p : pypath) : steps R (exists_ p).
Proof. intros w. reflexivity. Qed.

Lemma steps_json_load (p : pypath) : steps R (json_load p).
Proof.
    intros w. unfold json_load.
    destruct (fs w !! resolve (cwd w) p) as [[[]|]|]; reflexivity.
Qed.

Lemma steps_listdir (p : pypath) : steps R (listdir p).
Proof.
    intros w. unfold listdir. cbn zeta.
    destruct (fs w !! resolve (cwd w) p) as [[|]|]; reflexivity.
Qed.

Lemma steps_logger_debug (msg : string) : steps R (logger_debug msg).
Proof. intros w _. by apply fs_only_record. Qed.

Lemma steps_logger_info (msg : string) : steps R (logger_info msg).
Proof. intros w _. by apply fs_only_record. Qed.

Lemma steps_logger_exception (exc : exn) : steps R (logger_exception exc).
Proof. intros w _. by apply fs_only_record. Qed.

Lemma steps_rmtree (p : pypath) :
    (∀ q, resolve c p `prefix_of` q → S q) → steps R (rmtree p).
Proof.
    intros HS w Hc. unfold rmtree. cbn zeta. rewrite Hc.
    destruct (fs w !! resolve c p) as [[|]|]; try by apply fs_only_record.
    repeat split; cbn; [|by apply extends_trace_record].
    intros q Hq.
    destruct (fs w !! q) as [n|] eqn:Hn.
    - apply map_lookup_filter_Some_2; [done|]. cbn. intros Hpre. by apply Hq, HS.
    - apply map_lookup_filter_None_2. by left.
Qed.

Lemma steps_mkdir (p : pypath) : S (resolve c p) → steps R (mkdir p).
Proof.
    intros HS w Hc. unfold mkdir. cbn zeta. rewrite Hc.
    destruct (fs w !! resolve c p); [by apply fs_only_record|].
    destruct (parent (resolve c p)); [|by apply fs_only_record].
    destruct (fs w !! l) as [[|]|]; try by apply fs_only_record.
    by apply fs_only_write.
Qed.

Lemma steps_write (f : path) (x : content) : S f → steps R (write f x).
Proof.
    intros HS w Hc. unfold write.
    repeat split; cbn; [by apply same_except_insert|].
    exists []. cbn. by rewrite app_nil_r.
Qed.

Lemma steps_open_w {A} (p : pypath) (k : path → M A) :
    S (resolve c p) → steps R (k (resolve c p)) →
    steps R (bind (open_w p) k).
Proof.
    intros HS Hk w Hc. unfold bind.
    destruct (open_w_cases p w) as [[exc ->]| ->]; rewrite Hc.
    - by apply fs_only_record.
    - etrans; [by apply (fs_only_write S (FsOpenW (resolve c p)))|].
      by apply Hk.
Qed.

Lemma steps_copyfile (src dst : pypath) :
    S (resolve c dst) → steps R (copyfile src dst).
Proof.
    intros HS w Hc. unfold copyfile. cbn zeta.
    destruct (fs w !! resolve (cwd w) src) as [n|]; [|reflexivity].
    case_decide; [reflexivity|].
    destruct n as [x|]; [|reflexivity].
    apply (steps_open_w dst (λ f, write f x)); [done| |done].
    by apply steps_write.
Qed.
End fs_frames.

Lemma steps_copy_examples (c : path) (src : pypath) (names : list string)
    (acc : list pypath) :
  steps (fs_only_in c (λ p, (c ++ ["examples"]) `prefix_of` p))
    (copy_examples src names acc).
Proof.
  revert acc. induction names as [|n names IH]; intros acc.
  - apply steps_ret; apply _.
  - cbn [copy_examples]. apply steps_bind; [apply _| |intros _; apply IH].
    apply steps_copyfile. cbn. exists [n]. by rewrite <- app_assoc.
Qed.

Lemma steps_stage_examples (c : path) (e : env) (lib_id : libid) :
  steps (fs_only_in c (λ p, (c ++ ["examples"]) `prefix_of` p))
    (stage_examples e lib_id).
Proof.
  unfold stage_examples.
  apply steps_bind; [apply _|apply steps_exists|]. intros present.
  apply steps_bind; [apply _| |intros _].
  { destruct present; [|apply steps_ret; apply _].
    apply steps_rmtree. by intros q Hq. }
  apply steps_bind; [apply _| |intros _].
  { apply steps_mkdir. done. }
  apply steps_bind; [apply _|apply steps_listdir|]. intros names.
  apply steps_copy_examples.
Qed.

Lemma steps_write_travis_config (c : path) (e : env) (lib_id : libid)
    (version platforms : json) (example_files : list pypath) :
  steps (fs_only_in c (λ p, p = c ++ [TRAVIS_FILENAME]))
    (write_travis_config e lib_id version platforms example_files).
Proof.
  unfold write_travis_config.
  apply steps_bind; [apply _|apply steps_lift; apply _|]. intros boards.
  apply steps_open_w; [done|].
  apply steps_bind; [apply _|apply steps_lift; apply _|]. intros text.
  by apply steps_write.
Qed.

(** ** Inversion of runs *)

Lemma try_except_inv_ok {A} (m : M A) (h : exn → M A) (w w' : world) (a : A) :
  try_except m h w = (Ok a, w') →
  m w = (Ok a, w') ∨ ∃ e w1, m w = (Raise e, w1) ∧ h e w1 = (Ok a, w').
Proof.
  unfold try_except. destruct (m w) as [[a1|e] w1]; intros H.
  - by left.
  - right. by exists e, w1.
Qed.

Lemma ret_inv {A} (a b : A) (w w' : world) : ret a w = (Ok b, w') → a = b ∧ w = w'.
Proof. by intros [= -> ->]. Qed.

Lemma lift_inv {A} (r : result A) (b : A) (w w' : world) :
  lift r w = (Ok b, w') → r = Ok b ∧ w = w'.
Proof. by intros [= -> ->]. Qed.

(** ** Cloning *)

Lemma lookup_place_under (d k : path) (t : tree) : place d t !! (d ++ k) = t !! k.
Proof. unfold place. by rewrite (lookup_kmap (λ k, d ++ k)). Qed.

Lemma lookup_place_outside (d p : path) (t : tree) :
  ¬ d `prefix_of` p → place d t !! p = None.
Proof.
  intros Hp. unfold place. apply (lookup_kmap_None (λ k, d ++ k)).
  intros k ->. destruct Hp. by eexists.
Qed.

Lemma within_refl (d : path) (w : world) : within d w w.
Proof. apply same_except_refl. Qed.

Lemma within_clone (d : path) (t : tree) (m : tree) :
  is_Some (m !! d) → same_except (strictly_under d) m (m ∪ place d t).
Proof.
  intros Hd p Hp. destruct (decide (p = d)) as [->|Hne].
  - by apply lookup_union_l'.
  - apply lookup_union_l, lookup_place_outside. intros Hpre. by apply Hp.
Qed.

Global Instance stays_within_refl (d : path) : Reflexive (stays_within d).
Proof. intros w Hc. split; [done|]. split; [apply within_refl|apply grows_refl]. Qed.

Global Instance stays_within_trans (d : path) : Transitive (stays_within d).
Proof.
  intros w1 w2 w3 H12 H23 Hc. destruct (H12 Hc) as (Hc2 & Hw12 & Hg12).
  destruct (H23 Hc2) as (Hc3 & Hw23 & Hg23). split; [done|]. split.
  - by eapply same_except_trans.
  - by eapply grows_trans.
Qed.

Global Instance clones_into_refl (d : path) : Reflexive (clones_into d).
Proof.
  intros w _. repeat split; auto using within_refl, extends_trace_refl.
Qed.

Global Instance clones_into_trans (d : path) : Transitive (clones_into d).
Proof.
  intros w1 w2 w3 H12 H23 Hd. destruct (H12 Hd) as (Hc1 & Hw1 & Hr1 & Ht1).
  destruct H23 as (Hc2 & Hw2 & Hr2 & Ht2).
  { rewrite (Hw1 d); [done|]. by intros [_ ?]. }
  repeat split; try congruence.
  - by eapply same_except_trans.
  - by eapply extends_trace_trans.
Qed.

Lemma clones_into_record (d : path) (ev : event) (w : world) :
  keeps_branch ev = true → clones_into d w (record ev w).
Proof.
  intros Hev _. repeat split; auto using within_refl, extends_trace_record.
Qed.

Lemma steps_clone_from (d : path) (e : env) (url : string) (o : clone_options) :
  steps (clones_into d) (clone_from e url (AbsP d) o).
Proof.
  intros w. unfold clone_from. cbn zeta. cbn [resolve].
  destruct (clone_fault e (opt_branch o)); [by apply clones_into_record|].
  destruct (remote w !! opt_branch o) as [t|]; [|by apply clones_into_record].
  intros Hd. repeat split; cbn.
  - by apply within_clone.
  - by apply extends_trace_record.
Qed.

Lemma steps_shallow_clone_branch (d : path) (e : env) (branch url : string) :
  steps (clones_into d) (shallow_clone_branch e branch (AbsP d) url).
Proof.
  unfold shallow_clone_branch.
  apply steps_try_except; [apply _|apply steps_clone_from|].
  intros [st se| | | | | | | | |]; try (apply steps_raise; apply _).
  apply steps_bind; [apply _|apply steps_lift; apply _|].
  intros []; apply steps_raise; apply _.
Qed.

Lemma steps_git_checkout_orphan (d : path) (e : env) (branch : string) :
  steps (clones_into d) (git_checkout_orphan e branch).
Proof.
  intros w. unfold git_checkout_orphan. cbn zeta.
  destruct (checkout_fault e); [by apply clones_into_record|].
  intros _. split; [done|]. split; [by intros p _|]. split; [done|].
  exists [GitCheckout branch true]. by split; [|constructor].
Qed.

Lemma steps_clone_library_branch (d : path) (e : env) (branch : string) :
  steps (clones_into d) (clone_library_branch e branch (AbsP d)).
Proof.
  unfold clone_library_branch.
  apply steps_bind; [apply _| |intros r].
  - apply steps_try_except; [apply _| |].
    + apply steps_bind; [apply _| |intros _; apply steps_shallow_clone_branch].
      intros w. by apply clones_into_record.
    + intros exc. destruct exc; try (apply steps_raise; apply _).
      apply steps_bind; [apply _| |intros _].
      { intros w. by apply clones_into_record. }
      apply steps_bind; [apply _|apply steps_shallow_clone_branch|intros r].
      apply steps_bind; [apply _|apply steps_git_checkout_orphan|intros _].
      apply steps_ret; apply _.
  - apply steps_bind; [apply _| |intros _; apply steps_ret; apply _].
    intros w. by apply clones_into_record.
Qed.

(** A clone that returns, returns the repository at the directory given. *)
Lemma clone_from_repo (e : env) (url : string) (to : pypath) (o : clone_options)
    (w w' : world) (r : repo) :
  clone_from e url to o w = (Ok r, w') → r = Repo (resolve (cwd w) to).
Proof.
  unfold clone_from. cbn zeta.
  destruct (clone_fault e (opt_branch o)); [done|].
  destruct (remote w !! opt_branch o); [|done]. by intros [= <- _].
Qed.

Lemma shallow_clone_branch_repo (e : env) (branch url : string) (to : pypath)
    (w w' : world) (r : repo) :
  shallow_clone_branch e branch to url w = (Ok r, w') →
  clone_from e url to (CloneOptions branch true 1) w = (Ok r, w').
Proof.
  unfold shallow_clone_branch. intros [H|(exc & w1 & _ & H)]%try_except_inv_ok; [done|].
  destruct exc; try done.
  unfold bind, lift, raise in H.
  by destruct (reports_branch_not_found stderr branch) as [[]|].
Qed.

Lemma clone_library_branch_repo (e : env) (branch : string) (d : path)
    (w w' : world) (r : repo) :
  clone_library_branch e branch (AbsP d) w = (Ok r, w') → r = Repo d.
Proof.
  unfold clone_library_branch. intros (r1 & w1 & Hclone & H)%bind_inv_ok.
  apply bind_inv_ok in H as ([] & w2 & _ & [<- _]%ret_inv).
  apply try_except_inv_ok in Hclone as [H|(exc & w3 & _ & H)].
  - apply bind_inv_ok in H as (_ & w3 & _ & H).
    by apply shallow_clone_branch_repo, clone_from_repo in H.
  - destruct exc; try done.
    apply bind_inv_ok in H as (_ & w4 & _ & H).
    apply bind_inv_ok in H as (r2 & w5 & H & H2).
    apply bind_inv_ok in H2 as (_ & w6 & _ & [<- _]%ret_inv).
    by apply shallow_clone_branch_repo, clone_from_repo in H.
Qed.

(** ** What the publication changes *)

Lemma steps_stays_of_fs_only (d : path) (S : path → Prop) {A} (m : M A) :
  (∀ p, S p → strictly_under d p) →
  steps (fs_only_in d S) m → steps (stays_within d) m.
Proof.
  intros HS Hm w Hc. destruct (Hm w Hc) as (Hcwd & _ & _ & _ & Hf & Ht).
  split; [congruence|]. split.
  - by eapply same_except_mono.
  - by eapply extends_trace_grows.
Qed.

Lemma stays_within_same (d : path) (ev : event) (w w' : world) :
  cwd w' = cwd w → fs w' = fs w → trace w' = trace (record ev w) →
  stays_within d w w'.
Proof.
  intros Hc Hf Ht Hd. split; [congruence|]. split.
  - intros p _. by rewrite Hf.
  - by eapply grows_record.
Qed.

Lemma steps_index_add (d : path) (e : env) (r : repo) (paths : list pypath) :
  steps (stays_within d) (index_add e r paths).
Proof.
  intros w. unfold index_add. cbn zeta.
  destruct (add_fault e); [by eapply stays_within_same|].
  destruct (add_entries _ _ _ _); by eapply stays_within_same.
Qed.

Lemma steps_index_commit (d : path) (e : env) (message : string) :
  steps (stays_within d) (index_commit e message).
Proof.
  intros w. unfold index_commit. cbn zeta.
  destruct (commit_fault e); by eapply stays_within_same.
Qed.

Lemma steps_remote_push (d : path) (e : env) (branch : string) :
  steps (stays_within d) (remote_push e branch).
Proof.
  intros w. unfold remote_push. cbn zeta.
  destruct (push_outcome e); try by eapply stays_within_same.
  destruct (head w); by eapply stays_within_same.
Qed.

Lemma steps_commit_and_push (d : path) (e : env) (r : repo) (branch : string)
    (version : json) (example_files : list pypath) :
  steps (stays_within d) (commit_and_push e r branch version example_files).
Proof.
  unfold commit_and_push.
  apply steps_bind; [apply _|apply steps_index_add|intros _].
  apply steps_bind; [apply _|apply steps_lift; apply _|intros name].
  apply steps_bind; [apply _|apply steps_lift; apply _|intros message].
  apply steps_bind; [apply _|apply steps_index_commit|intros _].
  apply steps_remote_push.
Qed.

Lemma steps_staged_version_gate (c : path) (S : path → Prop) (p : pypath)
    (version : json) (kwargs : list (string * json)) :
  steps (fs_only_in c S) (staged_version_gate p version kwargs).
Proof.
  unfold staged_version_gate.
  apply steps_bind; [apply _|apply steps_exists|intros present].
  destruct present; [|apply steps_ret; apply _].
  apply steps_bind; [apply _|apply steps_json_load|intros staged].
  destruct (_ && _); [|apply steps_ret; apply _].
  apply steps_bind; [apply _|apply steps_logger_info|intros _].
  apply steps_ret; apply _.
Qed.

Lemma example_below (d : path) (p : path) :
  (d ++ ["examples"]) `prefix_of` p → strictly_under d p.
Proof. apply strictly_under_prefix, strictly_under_snoc. Qed.

Lemma steps_open_write_stays (d : path) (q : path) (x : content) {A}
    (k : M A) :
  q ≠ [] → steps (stays_within d) k →
  steps (stays_within d) (f <- open_w (AbsP (d ++ q)) ;; write f x ;; k).
Proof.
  intros Hq Hk w. unfold bind.
  destruct (open_w_cases (AbsP (d ++ q)) w) as [[exc Ho]|Ho];
    cbn [resolve] in Ho; rewrite Ho.
  - by eapply stays_within_same.
  - unfold write. etrans; [|apply Hk].
    intros Hc. split; [done|]. split.
    + cbn. eapply same_except_trans; apply same_except_insert;
        by apply strictly_under_app.
    + by eapply grows_record.
Qed.

Lemma steps_stage_and_push (d : path) (e : env) (r : repo) (lib_id : libid)
    (branch : string) (version platforms : json) :
  steps (stays_within d)
    (stage_and_push e r lib_id branch (AbsP (d ++ [VERSION_FILENAME]))
       version platforms).
Proof.
  unfold stage_and_push. apply steps_open_write_stays; [done|].
  apply steps_bind; [apply _| |intros example_files].
  { eapply steps_stays_of_fs_only; [|apply steps_stage_examples].
    apply example_below. }
  apply steps_bind; [apply _| |intros _; apply steps_commit_and_push].
  eapply steps_stays_of_fs_only; [|apply steps_write_travis_config].
  intros p ->. apply strictly_under_snoc.
Qed.

Lemma update_checkout_within (d : path) (e : env) (lib_id : libid)
    (branch : string) (version platforms : json)
    (kwargs : list (string * json)) (w : world) :
  within d w
    (update_checkout e (Repo d) lib_id branch (AbsP d) version platforms kwargs w).2.
Proof.
  unfold update_checkout. cbn [working_tree_dir join app]. unfold bind at 1.
  unfold chdir. cbn [resolve].
  destruct (fs w !! d) as [[|]|]; try apply within_refl.
  assert (steps (stays_within d)
    (g <- staged_version_gate (AbsP (d ++ [VERSION_FILENAME])) version kwargs ;;
     match g with
     | Skip => ret ()
     | Proceed =>
         stage_and_push e (Repo d) lib_id branch
           (AbsP (d ++ [VERSION_FILENAME])) version platforms
     end)) as Hrest.
  { apply steps_bind; [apply _| |intros []].
    - apply (steps_stays_of_fs_only d (λ _, False)); [done|].
      apply steps_staged_version_gate.
    - apply steps_ret; apply _.
    - apply steps_stage_and_push. }
  by destruct (Hrest (set_cwd d w)) as (_ & H & _).
Qed.

Lemma update_checkout_grows (d : path) (e : env) (lib_id : libid)
    (branch : string) (version platforms : json)
    (kwargs : list (string * json)) (w : world) :
  grows w
    (update_checkout e (Repo d) lib_id branch (AbsP d) version platforms kwargs w).2.
Proof.
  unfold update_checkout. cbn [working_tree_dir join app]. unfold bind at 1.
  unfold chdir. cbn [resolve].
  destruct (fs w !! d) as [[|]|]; try apply grows_refl.
  assert (steps (stays_within d)
    (g <- staged_version_gate (AbsP (d ++ [VERSION_FILENAME])) version kwargs ;;
     match g with
     | Skip => ret ()
     | Proceed =>
         stage_and_push e (Repo d) lib_id branch
           (AbsP (d ++ [VERSION_FILENAME])) version platforms
     end)) as Hrest.
  { apply steps_bind; [apply _| |intros []].
    - apply (steps_stays_of_fs_only d (λ _, False)); [done|].
      apply steps_staged_version_gate.
    - apply steps_ret; apply _.
    - apply steps_stage_and_push. }
  by destruct (Hrest (set_cwd d w)) as (_ & _ & H).
Qed.

Lemma publish_body_grows (d : path) (e : env) (lib_id : libid)
    (branch : string) (version platforms : json)
    (kwargs : list (string * json)) (w : world) :
  is_Some (fs w !! d) →
  grows w (publish_body e lib_id branch (AbsP d) version platforms kwargs w).2.
Proof.
  intros Hd. unfold publish_body, bind.
  pose proof (steps_clone_library_branch d e branch w Hd) as (_ & _ & _ & Hg).
  apply extends_trace_grows in Hg.
  destruct (clone_library_branch e branch (AbsP d) w) as [[r|exc] w1] eqn:Hclone;
    [|exact Hg].
  apply clone_library_branch_repo in Hclone as ->.
  eapply grows_trans; [exact Hg|]. apply update_checkout_grows.
Qed.

Lemma publish_body_within (d : path) (e : env) (lib_id : libid)
    (branch : string) (version platforms : json)
    (kwargs : list (string * json)) (w : world) :
  is_Some (fs w !! d) →
  within d w (publish_body e lib_id branch (AbsP d) version platforms kwargs w).2.
Proof.
  intros Hd. unfold publish_body, bind.
  pose proof (steps_clone_library_branch d e branch w Hd) as (_ & Hw & _ & _).
  destruct (clone_library_branch e branch (AbsP d) w) as [[r|exc] w1] eqn:Hclone;
    [|exact Hw].
  apply clone_library_branch_repo in Hclone as ->.
  eapply same_except_trans; [exact Hw|]. apply update_checkout_within.
Qed.

(** Removing the checkout gives back the file system from before
    [mkdtemp]. *)
Lemma rmtree_restores (m m' : tree) (d : path) :
  fs_wf m → m !! d = None →
  same_except (strictly_under d) (<[d := NDir]> m) m' →
  filter (λ kv, ¬ d `prefix_of` kv.1) m' = m.
Proof.
  intros Hwf Hd Hsame. apply map_eq. intros p.
  destruct (decide (d `prefix_of` p)) as [Hpre|Hpre].
  - rewrite (fs_wf_absent_below m d p) by done.
    apply map_lookup_filter_None_2. right. intros x _ Hx. by apply Hx.
  - assert (m' !! p = m !! p) as Hp.
    { rewrite Hsame; [|by intros [? _]].
      apply lookup_insert_ne. by intros ->. }
    destruct (m !! p) as [x|] eqn:Hx.
    + by apply map_lookup_filter_Some_2.
    + apply map_lookup_filter_None_2. by left.
Qed.

(** The whole of [think_of_name_later]: the body runs in the world made by
    [mkdtemp]; whatever it does, the call returns, with the working
    directory and the file system of before. *)
Lemma think_of_name_later_spec (e : env) (lib_id : libid)
    (version platforms : json) (kwargs : list (string * json)) (w : world) :
  fs_wf (fs w) → entry_ok e lib_id w →
  ∀ rb wb,
    publish_body e lib_id (branch_of lib_id) (AbsP (checkout_dir e lib_id))
      version platforms kwargs (at_entry e lib_id w) = (rb, wb) →
    think_of_name_later e lib_id version platforms kwargs w
    = (Ok (),
       World (cwd w) (fs w) (remote wb) (index wb) (head wb)
         (trace wb ++ logged rb ++ [FsRmtree (checkout_dir e lib_id)])).
Proof.
  intros Hwf (Hcwd & Htmp & Hfresh) rb wb Hbody.
  set (d := checkout_dir e lib_id) in *.
  assert (within d (at_entry e lib_id w) wb) as Hin.
  { replace wb with (rb, wb).2 by done. rewrite <- Hbody.
    apply publish_body_within. unfold at_entry. cbn. fold d.
    by rewrite lookup_insert_eq. }
  assert (fs wb !! d = Some NDir) as Hd.
  { rewrite Hin; [|by intros [_ ?]]. unfold at_entry. cbn. fold d.
    by rewrite lookup_insert_eq. }
  assert (¬ d `prefix_of` cwd w) as Hout.
  { intros Hpre. rewrite (fs_wf_absent_below _ d) in Hcwd; done. }
  assert (fs wb !! cwd w = Some NDir) as Hback.
  { rewrite Hin; [|by intros [? _]]. unfold at_entry. cbn. fold d.
    rewrite lookup_insert_ne; [done|]. intros ->. by apply Hout. }
  unfold think_of_name_later. unfold bind at 1. unfold getcwd. rewrite Hcwd.
  unfold bind at 1. unfold mkdtemp. cbn zeta.
  fold (checkout_dir e lib_id). fold d. rewrite Htmp, Hfresh.
  fold (branch_of lib_id).
  change (set_fs _ (record (FsMkdtemp d) w)) with (at_entry e lib_id w).
  unfold try_finally, try_except. rewrite Hbody.
  assert (∀ (r : result ()) (w1 : world),
    fs w1 = fs wb → index w1 = index wb → remote w1 = remote wb → head w1 = head wb →
    match (chdir (AbsP (cwd w)) ;; rmtree (AbsP d)) w1 with
    | (Ok _, w2) => (r, w2)
    | (Raise exc, w2) => (Raise exc, w2)
    end = (r, World (cwd w) (fs w) (remote wb) (index wb) (head wb)
                (trace w1 ++ [FsRmtree d]))) as Hfinal.
  { intros r w1 Hfs Hi Hr Hh. unfold bind, chdir, rmtree. cbn [resolve].
    rewrite Hfs, Hback. cbn. rewrite Hfs, Hd. cbn.
    rewrite (rmtree_restores (fs w) (fs wb) d); [|done|done|exact Hin].
    unfold set_fs, record, set_cwd. cbn. by rewrite Hi, Hr, Hh. }
  destruct rb as [[]|exc]; cbn [logged].
  - by rewrite Hfinal.
  - unfold logger_exception. rewrite Hfinal by done. cbn.
    by rewrite <- app_assoc.
Qed.

(** ** Staging the examples *)

Lemma example_path (c : path) (n : string) :
  c ++ ["examples"; n] = (c ++ ["examples"]) ++ [n].
Proof. by rewrite <- app_assoc. Qed.

Lemma source_not_example (c src : path) (n m : string) :
  ¬ c `prefix_of` src → src ++ [m] ≠ c ++ ["examples"; n].
Proof.
  intros Hout Heq. rewrite example_path in Heq.
  apply app_inj_2 in Heq as [-> _]; [|done]. apply Hout. by eexists.
Qed.

Lemma copyfile_example (c src : path) (n : string) (x : content) (w : world) :
  cwd w = c → ¬ c `prefix_of` src →
  fs w !! (c ++ ["examples"]) = Some NDir →
  fs w !! (src ++ [n]) = Some (NFile x) →
  fs w !! (c ++ ["examples"; n]) ≠ Some NDir →
  copyfile (AbsP (src ++ [n])) (RelP ["examples"; n]) w
  = (Ok (),
     set_fs (<[c ++ ["examples"; n] := NFile x]> (fs w))
       (record (FsOpenW (c ++ ["examples"; n])) w)).
Proof.
  intros Hc Hout Hex Hsrc Hdst. unfold copyfile. cbn [resolve].
  rewrite Hc, Hsrc. rewrite decide_False by by apply source_not_example.
  unfold bind, open_w, write. cbn [resolve]. rewrite Hc.
  rewrite example_path, parent_snoc, <- example_path, Hex.
  destruct (fs w !! (c ++ ["examples"; n])) as [[|]|] eqn:Hn; try done;
    cbn; unfold set_fs; cbn; by rewrite insert_insert_eq.
Qed.

Lemma copy_examples_ok (c src : path) (names : list string) :
  ¬ c `prefix_of` src →
  ∀ (acc : list pypath) (w : world),
    cwd w = c → fs w !! (c ++ ["examples"]) = Some NDir →
    (∀ n, n ∈ names → ∃ x, fs w !! (src ++ [n]) = Some (NFile x)) →
    (∀ n, n ∈ names → fs w !! (c ++ ["examples"; n]) ≠ Some NDir) →
    ∃ w',
      copy_examples (AbsP src) names acc w
      = (Ok (acc ++ ((λ n, RelP ["examples"; n]) <$> names)), w') ∧
      cwd w' = c ∧
      (∀ n, n ∈ names → fs w' !! (c ++ ["examples"; n]) = fs w !! (src ++ [n])) ∧
      (∀ p, (∀ n, n ∈ names → p ≠ c ++ ["examples"; n]) → fs w' !! p = fs w !! p) ∧
      trace w' = trace w ++ ((λ n, FsOpenW (c ++ ["examples"; n])) <$> names).
Proof.
  intros Hout. induction names as [|n names IH]; intros acc w Hc Hex Hsrc Hdst.
  - exists w. cbn. rewrite !app_nil_r. split; [done|]. split; [done|].
    split; [by intros n ?%elem_of_nil|]. by split.
  - destruct (Hsrc n) as [x Hx]; [by left|].
    cbn [copy_examples join examples_directory app]. unfold bind at 1.
    rewrite (copyfile_example c src n x w) by (auto; apply Hdst; by left).
    set (w1 := set_fs _ _).
    assert (∀ m, fs w1 !! (src ++ [m]) = fs w !! (src ++ [m])) as Hkeep.
    { intros m. cbn. apply lookup_insert_ne. intros Heq.
      by apply (source_not_example c src n m). }
    destruct (IH (acc ++ [RelP ["examples"; n]]) w1) as (w' & Hrun & Hc' & Hin & Hother & Htr).
    + done.
    + cbn. rewrite lookup_insert_ne; [done|]. rewrite example_path.
      intros Heq. eapply (snoc_not_prefix (c ++ ["examples"]) n). by rewrite Heq.
    + intros m Hm. rewrite Hkeep. apply Hsrc. by right.
    + intros m Hm. cbn. destruct (decide (m = n)) as [->|Hne].
      * by rewrite lookup_insert_eq.
      * rewrite lookup_insert_ne; [apply Hdst; by right|].
        rewrite !example_path. intros Heq. by apply app_inj_2 in Heq as [_ [= ->]].
    + exists w'. split.
      { rewrite Hrun. by rewrite <- app_assoc. }
      split; [done|]. split; [|split].
      * intros m Hm. destruct (decide (m ∈ names)) as [Hmn|Hmn].
        { by rewrite Hin, Hkeep. }
        apply elem_of_cons in Hm as [->|Hm]; [|done].
        rewrite Hother.
        { cbn. by rewrite lookup_insert_eq. }
        intros m Hm. rewrite !example_path. intros Heq.
        apply app_inj_2 in Heq as [_ [= ->]]; done.
      * intros p Hp. rewrite Hother.
        { cbn. apply lookup_insert_ne. intros <-. apply (Hp n); [by left|done]. }
        intros m Hm. apply Hp. by right.
      * rewrite Htr. cbn. by rewrite <- app_assoc.
Qed.

(** ** Failures and cleanup *)

(** The hypotheses on a sample world are settled by evaluation. *)
Ltac sample_wf := apply (bool_decide_unpack (fs_wf _)); vm_compute; exact I.
Ltac sample_entry := unfold entry_ok; repeat split; vm_compute; reflexivity.

(** C3: once [getcwd] and [mkdtemp] have succeeded, [think_of_name_later]
    returns normally whatever happens in the body of its [try]: an exception
    raised by the body is caught by the outer handler, which logs it, and
    nothing is raised by the [finally] block. *)
Theorem think_of_name_later_swallows_failures (e : env) (lib_id : libid)
    (version platforms : json) (kwargs : list (string * json)) (w : world) :
  fs_wf (fs w) → entry_ok e lib_id w →
  (think_of_name_later e lib_id version platforms kwargs w).1 = Ok () ∧
  ∀ exc wb,
    publish_body e lib_id (branch_of lib_id) (AbsP (checkout_dir e lib_id))
      version platforms kwargs (at_entry e lib_id w) = (Raise exc, wb) →
    trace (think_of_name_later e lib_id version platforms kwargs w).2
    = trace wb ++ [LogException exc; FsRmtree (checkout_dir e lib_id)].
Proof.
  intros Hwf Hentry.
  destruct (publish_body e lib_id (branch_of lib_id)
              (AbsP (checkout_dir e lib_id)) version platforms kwargs
              (at_entry e lib_id w)) as [rb wb] eqn:Hbody.
  rewrite (think_of_name_later_spec e lib_id version platforms kwargs w
             Hwf Hentry rb wb Hbody).
  split; [done|]. by intros exc wb' [= -> ->].
Qed.

Lemma think_of_name_later_swallows_failures_witness :
  fs_wf (fs sample_world) ∧ entry_ok offline_env (IdInt 75) sample_world ∧
  (think_of_name_later offline_env (IdInt 75) (sample_version "1.0")
     (JArr [JStr "atmelavr"]) [] sample_world).1 = Ok ().
Proof.
  assert (fs_wf (fs sample_world)) as Hwf by sample_wf.
  assert (entry_ok offline_env (IdInt 75) sample_world) as Hentry by sample_entry.
  split; [exact Hwf|]. split; [exact Hentry|].
  exact (proj1 (think_of_name_later_swallows_failures offline_env (IdInt 75)
                  (sample_version "1.0") (JArr [JStr "atmelavr"]) []
                  sample_world Hwf Hentry)).
Defined.

(** C4: whatever [think_of_name_later] does (it returns, it skips the
    update, its body fails, or it fails before the body), the working
    directory and the file system after the call are those before it; in
    particular the temporary checkout made by [mkdtemp] is gone. *)
Theorem think_of_name_later_cleans_up (e : env) (lib_id : libid)
    (version platforms : json) (kwargs : list (string * json)) (w : world) :
  fs_wf (fs w) →
  cwd (think_of_name_later e lib_id version platforms kwargs w).2 = cwd w ∧
  fs (think_of_name_later e lib_id version platforms kwargs w).2 = fs w ∧
  (entry_ok e lib_id w →
   fs (at_entry e lib_id w) !! checkout_dir e lib_id = Some NDir ∧
   fs (think_of_name_later e lib_id version platforms kwargs w).2
     !! checkout_dir e lib_id = None).
Proof.
  intros Hwf.
  destruct (fs w !! cwd w) as [[|]|] eqn:Hcwd;
    [unfold think_of_name_later, bind, getcwd; rewrite Hcwd;
     split; [done|]; split; [done|]; intros (? & _); congruence| |
     unfold think_of_name_later, bind, getcwd; rewrite Hcwd;
     split; [done|]; split; [done|]; intros (? & _); congruence].
  destruct (fs w !! tempdir e) as [[|]|] eqn:Htmp;
    [unfold think_of_name_later, bind, getcwd, mkdtemp; rewrite Hcwd; cbn zeta;
     rewrite Htmp; split; [done|]; split; [done|]; intros (_ & ? & _); congruence| |
     unfold think_of_name_later, bind, getcwd, mkdtemp; rewrite Hcwd; cbn zeta;
     rewrite Htmp; split; [done|]; split; [done|]; intros (_ & ? & _); congruence].
  destruct (fs w !! checkout_dir e lib_id) as [n|] eqn:Hfresh.
  { unfold think_of_name_later, bind, getcwd, mkdtemp. rewrite Hcwd. cbn zeta.
    fold (checkout_dir e lib_id). rewrite Htmp, Hfresh.
    split; [done|]. split; [done|]. intros (_ & _ & ?). congruence. }
  assert (entry_ok e lib_id w) as Hentry by done.
  destruct (publish_body e lib_id (branch_of lib_id)
              (AbsP (checkout_dir e lib_id)) version platforms kwargs
              (at_entry e lib_id w)) as [rb wb] eqn:Hbody.
  rewrite (think_of_name_later_spec e lib_id version platforms kwargs w
             Hwf Hentry rb wb Hbody).
  cbn. split; [done|]. split; [done|]. intros _. split; [|done].
  apply lookup_insert_eq.
Qed.

Lemma think_of_name_later_cleans_up_witness :
  fs_wf (fs staged_world) ∧
  cwd (think_of_name_later sample_env (IdInt 75) (sample_version "1.0")
         (JArr [JStr "atmelavr"]) [] staged_world).2 = ["home"] ∧
  fs (think_of_name_later sample_env (IdInt 75) (sample_version "1.0")
        (JArr [JStr "atmelavr"]) [] staged_world).2 = sample_fs.
Proof.
  assert (fs_wf (fs staged_world)) as Hwf by sample_wf.
  split; [exact Hwf|].
  destruct (think_of_name_later_cleans_up sample_env (IdInt 75)
              (sample_version "1.0") (JArr [JStr "atmelavr"]) []
              staged_world Hwf) as (Hcwd & Hfs & _).
  split; [exact Hcwd|exact Hfs].
Defined.

(** What is left of a file system once [examples/] is removed, or when it
    was not there. *)
Lemma examples_cleared (w : world) :
  fs_wf (fs w) → (∀ x, fs w !! (cwd w ++ ["examples"]) ≠ Some (NFile x)) →
  ∃ w1,
    (if bool_decide (is_Some (fs w !! (cwd w ++ ["examples"])))
     then rmtree (RelP ["examples"]) else ret ()) w = (Ok (), w1) ∧
    cwd w1 = cwd w ∧
    (∀ p, (cwd w ++ ["examples"]) `prefix_of` p → fs w1 !! p = None) ∧
    (∀ p, ¬ (cwd w ++ ["examples"]) `prefix_of` p → fs w1 !! p = fs w !! p) ∧
    trace w1 = trace w ++ removal (fs w) (cwd w ++ ["examples"]).
Proof.
  intros Hwf Hnofile. unfold rmtree, removal. cbn [resolve].
  destruct (fs w !! (cwd w ++ ["examples"])) as [[x|]|] eqn:Hex.
  - by destruct (Hnofile x).
  - rewrite bool_decide_eq_true_2 by done. cbn beta zeta. rewrite Hex.
    eexists. split; [done|]. cbn. split; [done|]. split; [|split; [|done]].
    + intros p Hp. apply map_lookup_filter_None_2. right. intros y _ Hy. by apply Hy.
    + intros p Hp. destruct (fs w !! p) as [y|] eqn:Hy.
      * by apply map_lookup_filter_Some_2.
      * apply map_lookup_filter_None_2. by left.
  - rewrite bool_decide_eq_false_2 by (by intros [? ?]).
    eexists. split; [done|]. cbn. split; [done|]. split; [|split; [done|]].
    + intros p Hp. by apply (fs_wf_absent_below _ (cwd w ++ ["examples"])).
    + by rewrite app_nil_r.
Qed.

Lemma mkdir_ok (p : pypath) (up : path) (w : world) :
  fs w !! resolve (cwd w) p = None →
  parent (resolve (cwd w) p) = Some up → fs w !! up = Some NDir →
  mkdir p w
  = (Ok (), set_fs (<[resolve (cwd w) p := NDir]> (fs w))
              (record (FsMkdir (resolve (cwd w) p)) w)).
Proof. intros Hp Hup Hdir. unfold mkdir. cbn zeta. by rewrite Hp, Hup, Hdir. Qed.

Lemma listdir_ok (p : pypath) (w : world) :
  fs w !! resolve (cwd w) p = Some NDir →
  listdir p w = (Ok (children (resolve (cwd w) p) (fs w)), w).
Proof. intros Hp. unfold listdir. cbn zeta. by rewrite Hp. Qed.

(** Lines 121 to 135, in the working tree: [examples/] in the checkout is
    removed if it is there, made again, and filled with a copy of every file
    of the directory of saved examples, under the same name: afterwards
    [examples/] of the working tree holds exactly the entries of that
    directory, with their content, and nothing else.  What is committed is
    another matter: that is decided by the index. *)
Lemma stage_examples_replaces (e : env) (lib_id : libid) (w : world) :
  fs_wf (fs w) →
  fs w !! cwd w = Some NDir →
  is_file (fs w !! (cwd w ++ ["examples"])) = false →
  is_dir (fs w !! get_libexample_dir e lib_id) = true →
  ¬ cwd w `prefix_of` get_libexample_dir e lib_id →
  only_files (fs w) (get_libexample_dir e lib_id) →
  ∃ names w',
    stage_examples e lib_id w = (Ok ((λ n, RelP ["examples"; n]) <$> names), w') ∧
    NoDup names ∧
    (∀ n, n ∈ names ↔ is_Some (fs w !! (get_libexample_dir e lib_id ++ [n]))) ∧
    cwd w' = cwd w ∧
    fs w' !! (cwd w ++ ["examples"]) = Some NDir ∧
    (∀ n, fs w' !! (cwd w ++ ["examples"; n])
          = fs w !! (get_libexample_dir e lib_id ++ [n])) ∧
    (∀ n q, q ≠ [] → fs w' !! (cwd w ++ "examples" :: n :: q) = None) ∧
    (∀ p, ¬ (cwd w ++ ["examples"]) `prefix_of` p → fs w' !! p = fs w !! p) ∧
    trace w' = trace w ++
      removal (fs w) (cwd w ++ ["examples"]) ++
      [FsMkdir (cwd w ++ ["examples"])] ++
      ((λ n, FsOpenW (cwd w ++ ["examples"; n])) <$> names).
Proof.
  intros Hwf Hcwd Hnofile0 Hsrc0 Hout Hfiles0.
  assert (∀ x, fs w !! (cwd w ++ ["examples"]) ≠ Some (NFile x)) as Hnofile.
  { intros x Hx. by rewrite Hx in Hnofile0. }
  assert (fs w !! get_libexample_dir e lib_id = Some NDir) as Hsrc.
  { by destruct (fs w !! get_libexample_dir e lib_id) as [[|]|]. }
  assert (∀ n, fs w !! (get_libexample_dir e lib_id ++ [n]) ≠ Some NDir) as Hfiles.
  { intros n Hn. unfold only_files in Hfiles0.
    rewrite Forall_forall in Hfiles0. specialize (Hfiles0 n).
    rewrite Hn in Hfiles0. cbn in Hfiles0.
    assert (true = false) as Habs; [|done].
    apply Hfiles0, elem_of_children. by rewrite Hn. }
  clear Hnofile0 Hsrc0 Hfiles0.
  set (c := cwd w) in *. set (src := get_libexample_dir e lib_id) in *.
  set (ex := c ++ ["examples"]) in *.
  assert (¬ ex `prefix_of` src) as Hexsrc.
  { intros Hpre. apply Hout. etrans; [|exact Hpre]. by eexists. }
  assert (∀ n, ¬ ex `prefix_of` src ++ [n]) as Hexchild.
  { intros n [H| H]%prefix_snoc_inv; [done|].
    apply app_inj_2 in H as [<- _]; [|done]. by apply Hout. }
  destruct (examples_cleared w Hwf Hnofile) as (w1 & Hrun1 & Hc1 & Hgone & Hkept & Htr1).
  fold c ex in Hrun1, Hc1, Hgone, Hkept, Htr1.
  unfold stage_examples, examples_directory.
  rewrite (bind_ok _ _ w w (bool_decide (is_Some (fs w !! ex)))) by done.
  rewrite (bind_ok _ _ _ _ _ Hrun1).
  (* mkdir *)
  assert (mkdir (RelP ["examples"]) w1
          = (Ok (), set_fs (<[ex := NDir]> (fs w1)) (record (FsMkdir ex) w1)))
    as Hmkdir.
  { rewrite (mkdir_ok _ c); cbn [resolve]; rewrite ?Hc1; fold ex.
    - done.
    - by apply Hgone.
    - apply parent_snoc.
    - rewrite Hkept by apply snoc_not_prefix. done. }
  rewrite (bind_ok _ _ _ _ _ Hmkdir).
  set (w2 := set_fs _ _).
  assert (∀ p, p ≠ ex → fs w2 !! p = fs w1 !! p) as H2.
  { intros p Hp. cbn. by apply lookup_insert_ne. }
  assert (∀ n, fs w2 !! (src ++ [n]) = fs w !! (src ++ [n])) as Hchild.
  { intros n. rewrite H2, Hkept; [done|apply Hexchild|].
    intros Heq. apply (Hexchild n). by rewrite Heq. }
  (* listdir *)
  fold src.
  assert (listdir (AbsP src) w2 = (Ok (children src (fs w2)), w2)) as Hlist.
  { apply (listdir_ok (AbsP src)). cbn [resolve].
    rewrite H2, Hkept, Hsrc by (try done; by intros ->). done. }
  rewrite (bind_ok _ _ _ _ _ Hlist).
  set (names := children src (fs w2)).
  destruct (copy_examples_ok c src names Hout [] w2) as (w' & Hrun & Hc' & Hin & Hother & Htr).
  - done.
  - cbn. fold ex. by rewrite lookup_insert_eq.
  - intros n Hn%elem_of_children. rewrite Hchild in *.
    destruct Hn as [[x|] Hn]; [by exists x|]. by destruct (Hfiles n).
  - intros n _. rewrite example_path. fold ex. rewrite H2, Hgone.
    + done.
    + by eexists.
    + intros Heq. eapply (snoc_not_prefix ex n). by rewrite Heq.
  - exists names, w'. rewrite Hrun. cbn [app]. split; [done|].
    split; [apply NoDup_children|].
    split; [intros n; unfold names; by rewrite elem_of_children, Hchild|].
    split; [done|].
    assert (∀ p, (∀ n, p ≠ c ++ ["examples"; n]) → fs w' !! p = fs w2 !! p) as Hother'.
    { intros p Hp. apply Hother. intros n _. apply Hp. }
    split; [|split; [|split; [|split]]].
    + rewrite Hother'.
      * cbn. fold ex. by rewrite lookup_insert_eq.
      * intros n. rewrite example_path. fold ex. intros Heq.
        eapply (snoc_not_prefix ex n). by rewrite <- Heq.
    + intros n. destruct (decide (n ∈ names)) as [Hn|Hn].
      * by rewrite Hin, Hchild.
      * rewrite Hother.
        -- rewrite example_path. fold ex. rewrite H2, Hgone.
           ++ symmetry. apply eq_None_not_Some. intros Hsome. apply Hn.
              unfold names. by rewrite elem_of_children, Hchild.
           ++ by eexists.
           ++ intros Heq. eapply (snoc_not_prefix ex n). by rewrite Heq.
        -- intros m Hm. rewrite !example_path. intros Heq.
           apply app_inj_2 in Heq as [_ [= ->]]; done.
    + intros n q Hq. rewrite Hother'.
      * rewrite H2, Hgone.
        -- done.
        -- exists (n :: q). unfold ex. by rewrite <- app_assoc.
        -- unfold ex. intros Heq%(f_equal length).
           rewrite !length_app in Heq. cbn in Heq. lia.
      * intros m Heq%(f_equal length). rewrite !length_app in Heq.
        cbn in Heq. destruct q; [done|]. cbn in Heq. lia.
    + intros p Hp. rewrite Hother'.
      * rewrite H2, Hkept; [done|done|]. intros ->. by apply Hp.
      * intros n ->. apply Hp. exists [n]. by rewrite example_path.
    + rewrite Htr. cbn. rewrite Htr1. by rewrite <- !app_assoc.
Qed.


Example stage_examples_replaces_sample :
  ∃ names w',
    stage_examples sample_env (IdInt 75) checkout_world
    = (Ok ((λ n, RelP ["examples"; n]) <$> names), w') ∧
    fs w' !! ["tmp"; "co"; "examples"; "old.ino"] = None ∧
    fs w' !! ["tmp"; "co"; "examples"; "Blink.ino"]
    = Some (NFile (CText "void setup() {}")).
Proof.
  assert (fs_wf (fs checkout_world)) as Hwf by sample_wf.
  assert (fs checkout_world !! cwd checkout_world = Some NDir) as Hcwd
    by (vm_compute; reflexivity).
  assert (is_file (fs checkout_world !! (cwd checkout_world ++ ["examples"])) = false)
    as Hex by (vm_compute; reflexivity).
  assert (is_dir (fs checkout_world !! get_libexample_dir sample_env (IdInt 75)) = true)
    as Hsrc by (vm_compute; reflexivity).
  assert (¬ cwd checkout_world `prefix_of` get_libexample_dir sample_env (IdInt 75))
    as Hout by (apply (bool_decide_unpack (¬ _)); vm_compute; exact I).
  assert (only_files (fs checkout_world) (get_libexample_dir sample_env (IdInt 75)))
    as Hfiles by (apply (bool_decide_unpack (Forall _ _)); vm_compute; exact I).
  destruct (stage_examples_replaces sample_env (IdInt 75) checkout_world
              Hwf Hcwd Hex Hsrc Hout Hfiles)
    as (names & w' & Hrun & _ & _ & _ & _ & Hcopy & _).
  exists names, w'. split; [exact Hrun|]. split.
  - etrans; [exact (Hcopy "old.ino")|]. vm_compute. reflexivity.
  - etrans; [exact (Hcopy "Blink.ino")|]. vm_compute. reflexivity.
Defined.

(** ** The CI configuration *)

(** C7: the text written to [.travis.yml] is the fixed template with, in
    the [env:] block, one line [PLATFORMIO_CI_SRC=<path>] for each staged
    example, in the order of staging; in the [script:] block the install
    command gets [--version=<name of the version> <library id>] and the
    build command one [--board=<name>] for each board found, separated by
    spaces, in the order in which they were found. *)
Theorem travis_config_structure (e : env) (lib_id : libid)
    (version name platforms : json) (boards : list string)
    (example_files : list pypath) (w : world) :
  py_getitem version "name" = Ok name →
  get_boards_by_platforms platforms = Ok boards →
  fs w !! cwd w = Some NDir →
  is_dir (fs w !! (cwd w ++ [TRAVIS_FILENAME])) = false →
  write_travis_config e lib_id version platforms example_files w
  = (Ok (),
     set_fs
       (<[cwd w ++ [TRAVIS_FILENAME] :=
            NFile (CText
              (travis_head +:+
               py_join nl (env_line <$> example_files) +:+
               travis_install +:+ str_of_json e name +:+ " " +:+
               str_of_id lib_id +:+ nl +:+
               travis_build +:+ py_join " " (board_flag <$> boards) +:+ nl))]>
          (fs w))
       (record (FsOpenW (cwd w ++ [TRAVIS_FILENAME])) w)).
Proof.
  intros Hname Hboards Hcwd Hnodir.
  unfold write_travis_config, board_flags. rewrite Hboards. cbn [rmap rbind].
  rewrite (bind_ok _ _ w w (py_join " " (board_flag <$> boards))) by done.
  rewrite (bind_ok _ _ _ _ _
             (open_w_ok (RelP [TRAVIS_FILENAME]) (cwd w) w Hnodir
                (parent_snoc _ _) Hcwd)).
  rewrite (travis_config_text e lib_id version name) by done.
  unfold bind, lift, write, travis_text, env_lines, set_fs, record.
  cbn [resolve cwd fs remote index head trace].
  rewrite insert_insert_eq. reflexivity.
Qed.

Lemma travis_config_structure_witness :
  ∃ text,
    fs (write_travis_config sample_env (IdInt 75) (sample_version "1.0")
          (JArr [JStr "teensy"])
          [RelP ["examples"; "Blink.ino"]; RelP ["examples"; "Fade.ino"]]
          checkout_world).2
      !! ["tmp"; "co"; TRAVIS_FILENAME] = Some (NFile (CText text)) ∧
    occurs_in
      ("env:" +:+ nl +:+
       "    - PLATFORMIO_CI_SRC=examples/Blink.ino" +:+ nl +:+
       "    - PLATFORMIO_CI_SRC=examples/Fade.ino" +:+ nl) text = true ∧
    occurs_in
      ("    - platformio --force lib install --version=1.0 75" +:+ nl +:+
       "    - platformio --force ci --board=teensy20 --board=teensy31" +:+ nl)
      text = true.
Proof.
  eexists. split.
  - rewrite (travis_config_structure sample_env (IdInt 75) (sample_version "1.0")
               (JStr "1.0") (JArr [JStr "teensy"]) ["teensy20"; "teensy31"]);
      [|reflexivity|reflexivity|vm_compute; reflexivity|vm_compute; reflexivity].
    cbn [snd fs set_fs]. apply lookup_insert_eq.
  - split; vm_compute; reflexivity.
Defined.

Lemma string_app_assoc (a b c : string) : (a +:+ b) +:+ c = a +:+ (b +:+ c).
Proof.
  induction a as [|x a IH]; [done|].
  change (String x ((a +:+ b) +:+ c) = String x (a +:+ b +:+ c)).
  by rewrite IH.
Qed.

Lemma contains_here (sub post : string) : contains (sub +:+ post) sub.
Proof. by exists EmptyString, post. Qed.

Lemma contains_after (a t sub : string) : contains t sub → contains (a +:+ t) sub.
Proof.
  intros (pre & post & ->). exists (a +:+ pre), post.
  by rewrite string_app_assoc.
Qed.

(** C8: for the platforms [["atmelavr"]] the build command of the
    configuration written has the flags
    [--board=uno --board=leonardo --board=megaatmega2560], in the order of
    the table; this holds for every registry of boards. *)
Theorem atmelavr_board_flags (e : env) (lib_id : libid) (version name : json)
    (example_files : list pypath) (w : world) :
  py_getitem version "name" = Ok name →
  fs w !! cwd w = Some NDir →
  is_dir (fs w !! (cwd w ++ [TRAVIS_FILENAME])) = false →
  board_flags (JArr [JStr "atmelavr"])
  = Ok "--board=uno --board=leonardo --board=megaatmega2560" ∧
  ∃ text,
    fs (write_travis_config e lib_id version (JArr [JStr "atmelavr"])
          example_files w).2 !! (cwd w ++ [TRAVIS_FILENAME])
    = Some (NFile (CText text)) ∧
    contains text
      ("    - platformio --force ci --board=uno --board=leonardo --board=megaatmega2560"
       +:+ nl).
Proof.
  intros Hname Hcwd Hnodir. split; [reflexivity|].
  rewrite (travis_config_structure e lib_id version name (JArr [JStr "atmelavr"])
             ["uno"; "leonardo"; "megaatmega2560"]) by done.
  eexists. split; [apply lookup_insert_eq|].
  do 7 apply contains_after.
  exists EmptyString, EmptyString. reflexivity.
Qed.

Lemma atmelavr_board_flags_witness :
  ∃ text,
    fs (write_travis_config sample_env (IdInt 75) (sample_version "1.0")
          (JArr [JStr "atmelavr"]) [] checkout_world).2
      !! ["tmp"; "co"; TRAVIS_FILENAME] = Some (NFile (CText text)) ∧
    contains text
      ("    - platformio --force ci --board=uno --board=leonardo --board=megaatmega2560"
       +:+ nl).
Proof.
  exact (proj2 (atmelavr_board_flags sample_env (IdInt 75) (sample_version "1.0")
                  (JStr "1.0") [] checkout_world eq_refl eq_refl eq_refl)).
Defined.

(** C10: the boards found for a list of platform names are the entries of
    the static table for these names, one after the other, in the order of
    the list and as often as a name is listed; a name that is not in the
    table contributes nothing and is no error.  When no name of the list is
    in the table, no board is found and the build command gets no
    [--board] flag. *)
Theorem boards_of_platform_list (ps : list string) :
  get_boards_by_platforms (JArr (JStr <$> ps))
  = Ok (concat (static_boards <$> ps)) ∧
  (Forall (λ p, p ≠ "atmelavr" ∧ p ≠ "teensy") ps →
   get_boards_by_platforms (JArr (JStr <$> ps)) = Ok [] ∧
   board_flags (JArr (JStr <$> ps)) = Ok EmptyString ∧
   ∀ (e : env) (lib_id : libid) (version name : json) (envs : string),
     py_getitem version "name" = Ok name →
     rbind (board_flags (JArr (JStr <$> ps))) (travis_config e lib_id version envs)
     = Ok (travis_head +:+ envs +:+ travis_install +:+ str_of_json e name +:+
           " " +:+ str_of_id lib_id +:+ nl +:+
           "    - platformio --force ci " +:+ nl)).
Proof.
  split; [apply get_boards_by_platforms_strings|].
  intros Hunknown.
  assert (board_flags (JArr (JStr <$> ps)) = Ok EmptyString) as Hflags.
  { rewrite board_flags_strings, static_boards_unknown by done. reflexivity. }
  split; [|split; [exact Hflags|]].
  - rewrite get_boards_by_platforms_strings, static_boards_unknown by done.
    reflexivity.
  - intros e lib_id version name envs Hname. rewrite Hflags. cbn [rbind].
    by rewrite (travis_config_text e lib_id version name).
Qed.

Lemma boards_of_platform_list_witness :
  get_boards_by_platforms (JArr (JStr <$> ["espressif"; "ststm32"])) = Ok [] ∧
  board_flags (JArr (JStr <$> ["espressif"; "ststm32"])) = Ok EmptyString.
Proof.
  assert (Forall (λ p : string, p ≠ "atmelavr" ∧ p ≠ "teensy")
            ["espressif"; "ststm32"]) as Hunknown.
  { repeat constructor; discriminate. }
  destruct (proj2 (boards_of_platform_list ["espressif"; "ststm32"]) Hunknown)
    as (Hboards & Hflags & _).
  split; [exact Hboards|exact Hflags].
Defined.

Example boards_listed_twice :
  get_boards_by_platforms (JArr (JStr <$> ["teensy"; "msp430"; "teensy"]))
  = Ok ["teensy20"; "teensy31"; "teensy20"; "teensy31"].
Proof. reflexivity. Qed.

(** C1, as the code has it: the boards put into the CI script are those of
    the static table, for every list of platform names and whatever
    PlatformIO's registry of boards holds; the lookup in the registry,
    [get_all_boards_by_platforms], is not called when the configuration is
    written. *)
Theorem boards_come_from_static_table (e : env) (registry : board_registry)
    (lib_id : libid) (version : json) (ps : list string)
    (example_files : list pypath) (w : world) :
  board_flags (JArr (JStr <$> ps))
  = Ok (py_join " " (board_flag <$> concat (static_boards <$> ps))) ∧
  write_travis_config (with_get_boards registry e) lib_id version
    (JArr (JStr <$> ps)) example_files w
  = write_travis_config e lib_id version (JArr (JStr <$> ps)) example_files w.
Proof. split; [apply board_flags_strings|reflexivity]. Qed.

(** C1 as stated fails: the registry of the sample knows a board of
    [atmelavr], the lookup in it yields a result, and the flags are still
    those of the static table. *)
Lemma registry_lookup_not_preferred :
  get_all_boards_by_platforms sample_env (JArr (JStr <$> ["atmelavr"]))
  = Ok ["nanoatmega328"] ∧
  board_flags (JArr (JStr <$> ["atmelavr"]))
  = Ok "--board=uno --board=leonardo --board=megaatmega2560" ∧
  board_flags (JArr (JStr <$> ["atmelavr"]))
  ≠ rmap (λ names, py_join " " (board_flag <$> names))
      (get_all_boards_by_platforms sample_env (JArr (JStr <$> ["atmelavr"]))).
Proof. split; [reflexivity|]. split; [reflexivity|]. discriminate. Qed.

(** ** Resolving the branch *)

Lemma reports_branch_not_found_raises (stderr : option string)
    (branch : string) (exc : exn) :
  reports_branch_not_found stderr branch = Raise exc → exc = IndexError.
Proof.
  unfold reports_branch_not_found, py_index_m2.
  destruct stderr as [s|]; [|done]. destruct (String.eqb s EmptyString); [done|].
  destruct (reverse (py_split "010" s)) as [|? [|? ?]]; cbn; congruence.
Qed.

Lemma clone_from_raises (e : env) (url : string) (to : pypath)
    (o : clone_options) (w w1 : world) (exc : exn) :
  clone_from e url to o w = (Raise exc, w1) →
  (∃ status stderr, exc = GitCommandError status stderr) ∨ exc = OSError ENOENT.
Proof.
  unfold clone_from. cbn zeta.
  destruct (clone_fault e (opt_branch o)) as [[status stderr|]|].
  - intros [= <- _]. left. by eexists _, _.
  - intros [= <- _]. by right.
  - destruct (remote w !! opt_branch o); [done|].
    intros [= <- _]. left. by eexists _, _.
Qed.

(** What [clone_library_branch] does, by the outcome of the first clone. *)
Lemma clone_library_branch_cases (e : env) (branch : string) (d : path) (w : world) :
  trace (first_clone e branch d w).2
  = trace w ++ [ LogDebug ("Cloning branch " +:+ branch);
                 GitClone (LIBBUILD_REPO_URI e) d branch true 1 ] ∧
  (∀ r w1, first_clone e branch d w = (Ok r, w1) →
     clone_library_branch e branch (AbsP d) w = cloned_into d r w1) ∧
  (∀ status stderr w1,
     first_clone e branch d w = (Raise (GitCommandError status stderr), w1) →
     match reports_branch_not_found stderr branch with
     | Ok true =>
         clone_library_branch e branch (AbsP d) w
         = (r <- make_branch e branch d ;; cloned_into d r) w1
     | Ok false =>
         clone_library_branch e branch (AbsP d) w
         = (Raise (GitCommandError status stderr), w1)
     | Raise exc =>
         clone_library_branch e branch (AbsP d) w = (Raise exc, w1)
     end) ∧
  (∀ exc w1,
     first_clone e branch d w = (Raise exc, w1) →
     (∀ status stderr, exc ≠ GitCommandError status stderr) →
     clone_library_branch e branch (AbsP d) w = (Raise exc, w1)).
Proof.
  split; [|split; [|split]].
  - unfold first_clone, clone_from. cbn zeta. cbn [resolve opt_branch].
    destruct (clone_fault e branch); [cbn; by rewrite <- app_assoc|].
    cbn [record remote]. destruct (remote w !! branch); cbn; by rewrite <- app_assoc.
  - intros r w1 Hfirst. unfold clone_library_branch, cloned_into.
    unfold bind at 1. unfold try_except at 1. unfold bind at 1.
    unfold logger_debug at 1. unfold shallow_clone_branch, try_except.
    unfold first_clone in Hfirst. by rewrite Hfirst.
  - intros status stderr w1 Hfirst. unfold first_clone in Hfirst.
    destruct (reports_branch_not_found stderr branch) as [[|]|exc] eqn:Hrep;
      [| |apply reports_branch_not_found_raises in Hrep as Hexc; subst exc];
      unfold clone_library_branch, cloned_into, make_branch;
      unfold bind at 1; unfold try_except at 1; unfold bind at 1;
      unfold logger_debug at 1; unfold shallow_clone_branch at 1;
      unfold try_except at 1; rewrite Hfirst;
      unfold bind at 1; unfold lift; rewrite Hrep; reflexivity.
  - intros exc w1 Hfirst Hother. unfold first_clone in Hfirst.
    unfold clone_library_branch.
    unfold bind at 1. unfold try_except at 1. unfold bind at 1.
    unfold logger_debug at 1. unfold shallow_clone_branch at 1.
    unfold try_except at 1. rewrite Hfirst.
    destruct (clone_from_raises _ _ _ _ _ _ _ Hfirst) as [(status & stderr & ->)| ->].
    + by destruct (Hother status stderr).
    + reflexivity.
Qed.

(** A text without a line end, which git itself does not write: on it
    [split("\n")[-2]] raises, and it is [IndexError] that leaves
    [shallow_clone_branch]. *)
Example unterminated_stderr_gives_index_error :
  reports_branch_not_found (Some one_line_stderr) "library-75" = Raise IndexError ∧
  (shallow_clone_branch terse_env "library-75" (AbsP ["tmp"; "co"])
     (LIBBUILD_REPO_URI terse_env) sample_world).1 = Raise IndexError ∧
  (clone_library_branch terse_env "library-75" (AbsP ["tmp"; "co"]) sample_world).1
  = Raise IndexError ∧
  events_since sample_world
    (think_of_name_later terse_env (IdInt 75) (sample_version "1.0")
       (JArr [JStr "atmelavr"]) [] sample_world).2
  = [ FsMkdtemp ["tmp"; "pioapi-libbuild-75-a1b2"];
      LogDebug "Cloning branch library-75";
      GitClone "https://example.org/ci.git" ["tmp"; "pioapi-libbuild-75-a1b2"]
        "library-75" true 1;
      LogException IndexError;
      FsRmtree ["tmp"; "pioapi-libbuild-75-a1b2"] ].
Proof. repeat split; vm_compute; reflexivity. Qed.

(** With a line end after the same text the error of git is raised again,
    as it should be. *)
Example shallow_clone_branch_reraises :
  (shallow_clone_branch offline_env "library-75" (AbsP ["tmp"; "co"])
     (LIBBUILD_REPO_URI offline_env) sample_world).1
  = Raise (GitCommandError 128 (Some ("fatal: unable to access the remote" +:+ nl))).
Proof. vm_compute. reflexivity. Qed.

(** The branch is made when it is missing. *)
Example missing_branch_is_made :
  events_since sample_world
    (clone_library_branch sample_env "library-75" (AbsP ["tmp"; "co"]) sample_world).2
  = [ LogDebug "Cloning branch library-75";
      GitClone "https://example.org/ci.git" ["tmp"; "co"] "library-75" true 1;
      LogDebug "Branch not found. Making one.";
      GitClone "https://example.org/ci.git" ["tmp"; "co"] "master" true 1;
      GitCheckout "library-75" true;
      LogInfo "Cloned into /tmp/co" ].
Proof. vm_compute. reflexivity. Qed.

(** ** Publishing by id *)

(** C9: [think_of_name_later_by_id] asks the registry for
    [http://api.platformio.org/lib/info/<id>], takes the fields [version]
    and [platforms] of the JSON document it gets and calls
    [think_of_name_later] with them.  An exception of the request, of the
    decoding, or of the access to the two fields is not caught: it leaves
    [think_of_name_later_by_id]. *)
Theorem think_of_name_later_by_id_propagates (e : env) (lib_id : libid) (w : world) :
  (∀ exc, requests_get e (info_url lib_id) = Raise exc →
     think_of_name_later_by_id e lib_id w
     = (Raise exc, record (HttpGet (info_url lib_id)) w)) ∧
  (∀ resp exc, requests_get e (info_url lib_id) = Ok resp →
     response_json resp = Raise exc →
     think_of_name_later_by_id e lib_id w
     = (Raise exc, record (HttpGet (info_url lib_id)) w)) ∧
  (∀ resp info exc, requests_get e (info_url lib_id) = Ok resp →
     response_json resp = Ok info →
     rbind (py_getitem info "version") (λ _, py_getitem info "platforms") = Raise exc →
     think_of_name_later_by_id e lib_id w
     = (Raise exc, record (HttpGet (info_url lib_id)) w)) ∧
  (∀ resp info version platforms, requests_get e (info_url lib_id) = Ok resp →
     response_json resp = Ok info →
     py_getitem info "version" = Ok version →
     py_getitem info "platforms" = Ok platforms →
     think_of_name_later_by_id e lib_id w
     = think_of_name_later e lib_id version platforms []
         (record (HttpGet (info_url lib_id)) w)) ∧
  info_url lib_id = "http://api.platformio.org/lib/info/" +:+ str_of_id lib_id.
Proof.
  unfold think_of_name_later_by_id, bind, http_get, lift.
  split; [|split; [|split; [|split; [|done]]]].
  - by intros exc ->.
  - by intros resp exc -> ->.
  - intros resp info exc -> ->. unfold rbind.
    destruct (py_getitem info "version"); [|by intros [= ->]]. by intros ->.
  - by intros resp info version platforms -> -> -> ->.
Qed.

Lemma think_of_name_later_by_id_propagates_witness :
  think_of_name_later_by_id unreachable_env (IdInt 75) sample_world
  = (Raise (RequestException "connection refused"),
     record (HttpGet "http://api.platformio.org/lib/info/75") sample_world).
Proof.
  exact (proj1 (think_of_name_later_by_id_propagates unreachable_env (IdInt 75)
                  sample_world)
           (RequestException "connection refused") eq_refl).
Defined.

(** ** Equality of JSON documents *)

Lemma json_induction (P : json → Prop) :
  P JNull → (∀ b, P (JBool b)) → (∀ z, P (JNum z)) → (∀ s, P (JStr s)) →
  (∀ items, Forall P items → P (JArr items)) →
  (∀ fields, Forall (λ kv, P kv.2) fields → P (JObj fields)) →
  ∀ v, P v.
Proof.
  intros Hnull Hbool Hnum Hstr Harr Hobj.
  fix IH 1. intros [|b|z|s|items|fields].
  - exact Hnull.
  - apply Hbool.
  - apply Hnum.
  - apply Hstr.
  - apply Harr.
    exact ((fix go (l : list json) : Forall P l :=
              match l with
              | [] => Forall_nil_2 P
              | x :: l' => Forall_cons_2 P x l' (IH x) (go l')
              end) items).
  - apply Hobj.
    exact ((fix go (l : list (string * json)) : Forall (λ kv, P kv.2) l :=
              match l with
              | [] => Forall_nil_2 _
              | kv :: l' => Forall_cons_2 (λ kv, P kv.2) kv l' (IH kv.2) (go l')
              end) fields).
Qed.

Lemma all2_refl {A} (f : A → A → bool) (l : list A) :
  Forall (λ x, f x x = true) l → all2 f l l = true.
Proof.
  induction 1 as [|x l Hx _ IH]; [done|]. cbn. by rewrite Hx, IH.
Qed.

Lemma assoc_NoDup {A} (k : string) (v : A) (items : list (string * A)) :
  NoDup (items.*1) → (k, v) ∈ items → assoc k items = Some v.
Proof.
  induction items as [|[k' v'] items IH]; cbn; intros Hnd Hin.
  - by apply elem_of_nil in Hin.
  - apply NoDup_cons in Hnd as [Hk' Hnd].
    apply elem_of_cons in Hin as [[= <- <-]|Hin].
    + by rewrite String.eqb_refl.
    + destruct (String.eqb_spec k k') as [->|_]; [|by apply IH].
      destruct Hk'. apply list_elem_of_fmap. by exists (k', v).
Qed.

Lemma py_eq_refl (v : json) : json_wf v = true → py_eq v v = true.
Proof.
  induction v as [|b|z|s|items IH|fields IH] using json_induction; cbn; intros Hwf.
  - done.
  - by destruct b.
  - apply Z.eqb_refl.
  - apply String.eqb_refl.
  - apply all2_refl. rewrite forallb_forall in Hwf.
    rewrite Forall_forall in IH |- *. intros x Hx.
    apply IH; [done|]. by apply Hwf, list_elem_of_In.
  - apply andb_true_iff in Hwf as [Hnd Hwf]. apply bool_decide_eq_true in Hnd.
    rewrite Nat.eqb_refl. cbn. apply forallb_forall. intros [k x] Hin%list_elem_of_In.
    cbn. rewrite (assoc_NoDup k x fields Hnd Hin).
    rewrite Forall_forall in IH. apply (IH (k, x) Hin).
    rewrite forallb_forall in Hwf. apply (Hwf (k, x)). by apply list_elem_of_In.
Qed.

(** ** The gate on the staged version *)

Lemma update_checkout_skips (d : path) (e : env) (lib_id : libid)
    (branch : string) (version platforms staged : json)
    (kwargs : list (string * json)) (w : world) :
  fs w !! d = Some NDir →
  fs w !! (d ++ [VERSION_FILENAME]) = Some (NFile (CJson staged)) →
  py_eq version staged = true → force_flag kwargs = false →
  update_checkout e (Repo d) lib_id branch (AbsP d) version platforms kwargs w
  = (Ok (), record (LogInfo skip_message) (set_cwd d w)).
Proof.
  intros Hd Hfile Heq Hforce.
  unfold update_checkout, staged_version_gate, bind, chdir, exists_, json_load,
    logger_info, ret.
  cbv beta iota zeta. cbn [working_tree_dir join resolve app]. rewrite Hd.
  cbv beta iota zeta. cbn [fs set_cwd cwd]. rewrite Hfile.
  rewrite bool_decide_eq_true_2 by done.
  cbv beta iota zeta. cbn [fs set_cwd cwd]. rewrite Hfile.
  cbv beta iota zeta.
  by rewrite Heq, Hforce.
Qed.

Lemma chdir_inv (p : pypath) (w w' : world) :
  chdir p w = (Ok (), w') →
  fs w !! resolve (cwd w) p = Some NDir ∧ w' = set_cwd (resolve (cwd w) p) w.
Proof.
  unfold chdir. cbn zeta.
  destruct (fs w !! resolve (cwd w) p) as [[|]|]; try done. by intros [= <-].
Qed.

Lemma staged_version_gate_inv (p : pypath) (version : json)
    (kwargs : list (string * json)) (g : gate) (w w' : world) :
  staged_version_gate p version kwargs w = (Ok g, w') →
  match g with
  | Skip =>
      ∃ staged, fs w !! resolve (cwd w) p = Some (NFile (CJson staged)) ∧
        py_eq version staged = true ∧ force_flag kwargs = false ∧
        w' = record (LogInfo skip_message) w
  | Proceed => w' = w
  end.
Proof.
  unfold staged_version_gate, bind, exists_, json_load, logger_info, ret.
  destruct (bool_decide _); [|by intros [= <- <-]].
  destruct (fs w !! resolve (cwd w) p) as [[[staged|]|]|]; try done.
  destruct (py_eq version staged) eqn:Heq; [|by intros [= <- <-]].
  destruct (force_flag kwargs) eqn:Hforce; cbn; intros [= <- <-]; [done|].
  by exists staged.
Qed.

(** What [index.add] stages for the version marker. *)
Lemma add_entries_version (wt : path) (files : tree) (a b : string)
    (c : content) (paths : list pypath) :
  a ≠ b → files !! (wt ++ [a]) = Some (NFile c) →
  ∀ idx0 idx,
    add_entries wt files (paths ++ [RelP [a]; RelP [b]]) idx0 = Ok idx →
    idx !! [a] = Some (NFile c).
Proof.
  intros Hab Ha. induction paths as [|p paths IH]; intros idx0 idx.
  - cbn. rewrite Ha.
    destruct (files !! (wt ++ [b])) as [[cb|]|]; try done.
    intros [= <-]. unfold add_dirs. cbn.
    rewrite lookup_insert_ne by congruence. by rewrite lookup_insert_eq.
  - cbn. destruct p as [|rel]; [done|].
    destruct (files !! (wt ++ rel)) as [[cr|]|]; try done. apply IH.
Qed.

Lemma index_add_inv (e : env) (r : repo) (paths : list pypath) (w w' : world) :
  index_add e r paths w = (Ok (), w') →
  ∃ idx, add_entries (working_tree_dir r) (fs w) paths (index w) = Ok idx ∧
    index w' = idx ∧ remote w' = remote w.
Proof.
  unfold index_add. cbn zeta. destruct (add_fault e); [done|].
  destruct (add_entries _ _ _ _) as [idx|]; [|done].
  intros [= <-]. by exists idx.
Qed.

Lemma commit_and_push_ok (e : env) (r : repo) (branch : string) (version : json)
    (example_files : list pypath) (w w' : world) :
  commit_and_push e r branch version example_files w = (Ok (), w') →
  push_outcome e = PushAccepted →
  ∃ idx,
    add_entries (working_tree_dir r) (fs w)
      (example_files ++ [RelP [VERSION_FILENAME]; RelP [TRAVIS_FILENAME]])
      (index w) = Ok idx ∧
    remote w' = <[branch := idx]> (remote w).
Proof.
  unfold commit_and_push. intros ([] & w1 & Hadd & H)%bind_inv_ok Hpush.
  apply index_add_inv in Hadd as (idx & Hidx & Hi1 & Hr1).
  apply bind_inv_ok in H as (name & w2 & [_ Hw2]%lift_inv & H). subst w2.
  apply bind_inv_ok in H as (message & w3 & [_ Hw3]%lift_inv & H). subst w3.
  apply bind_inv_ok in H as ([] & w4 & Hcommit & H).
  exists idx. split; [done|].
  unfold index_commit in Hcommit. cbn zeta in Hcommit.
  destruct (commit_fault e); [done|]. injection Hcommit as <-.
  unfold remote_push in H. cbn zeta in H. rewrite Hpush in H.
  cbn in H. injection H as <-. cbn. by rewrite Hi1, Hr1.
Qed.

(** A run of [update_checkout] that returns has skipped the update, the
    staged version being the one asked for, or has pushed a tree with the
    new version marker. *)
Lemma update_checkout_ok (d : path) (e : env) (lib_id : libid)
    (branch : string) (version platforms : json)
    (kwargs : list (string * json)) (w w' : world) :
  update_checkout e (Repo d) lib_id branch (AbsP d) version platforms kwargs w
  = (Ok (), w') →
  (∃ staged, fs w !! (d ++ [VERSION_FILENAME]) = Some (NFile (CJson staged)) ∧
     py_eq version staged = true ∧ remote w' = remote w) ∨
  (push_outcome e = PushAccepted →
   ∃ idx, remote w' = <[branch := idx]> (remote w) ∧
     idx !! [VERSION_FILENAME] = Some (NFile (CJson version))).
Proof.
  unfold update_checkout. cbn [working_tree_dir join app].
  intros ([] & w1 & [Hd ->]%chdir_inv & H)%bind_inv_ok. cbn [resolve] in *.
  apply bind_inv_ok in H as (g & w2 & Hgate & H).
  apply staged_version_gate_inv in Hgate. destruct g.
  - destruct Hgate as (staged & Hfile & Heq & _ & ->).
    apply ret_inv in H as [_ <-]. left. exists staged. by repeat split.
  - subst w2. right. intros Hpush.
    unfold stage_and_push in H.
    apply bind_inv_ok in H as (f & w3 & Hopen & H).
    destruct (open_w_cases (AbsP (d ++ [VERSION_FILENAME])) (set_cwd d w))
      as [[exc Ho]|Ho]; rewrite Ho in Hopen; [done|].
    cbn [resolve] in Hopen. injection Hopen as <- <-.
    apply bind_inv_ok in H as ([] & w4 & [= <-] & H).
    apply bind_inv_ok in H as (example_files & w5 & Hstage & H).
    apply bind_inv_ok in H as ([] & w6 & Htravis & H).
    set (w4 := set_fs _ (set_fs _ _)) in *.
    assert (fs_only (λ p, (d ++ ["examples"]) `prefix_of` p) w4 w5) as Hs5.
    { replace w5 with (stage_examples e lib_id w4).2 by by rewrite Hstage.
      by apply steps_stage_examples. }
    destruct Hs5 as (Hc5 & Hr5 & Hi5 & _ & Hf5 & _).
    assert (fs_only (λ p, p = d ++ [TRAVIS_FILENAME]) w5 w6) as Hs6.
    { replace w6 with
        (write_travis_config e lib_id version platforms example_files w5).2
        by by rewrite Htravis.
      by apply steps_write_travis_config. }
    destruct Hs6 as (Hc6 & Hr6 & Hi6 & _ & Hf6 & _).
    destruct (commit_and_push_ok _ _ _ _ _ _ _ H Hpush) as (idx & Hidx & Hremote).
    exists idx. split.
    + rewrite Hremote, Hr6, Hr5. done.
    + eapply (add_entries_version d (fs w6)); [| |exact Hidx]; [done|].
      rewrite Hf6, Hf5.
      * cbn. by rewrite lookup_insert_eq.
      * intros [k Hk]. rewrite <- app_assoc in Hk.
        by apply app_inv_head in Hk.
      * intros Heq. by apply app_inv_head in Heq.
Qed.

(** ** A checkout that succeeds *)

Lemma clone_from_ok_inv (e : env) (url : string) (d : path) (o : clone_options)
    (w w1 : world) (r : repo) :
  clone_from e url (AbsP d) o w = (Ok r, w1) →
  ∃ t, clone_fault e (opt_branch o) = None ∧ remote w !! opt_branch o = Some t ∧
    fs w1 = fs w ∪ place d t ∧ remote w1 = remote w ∧ cwd w1 = cwd w.
Proof.
  unfold clone_from. cbn zeta. cbn [resolve].
  destruct (clone_fault e (opt_branch o)); [done|].
  destruct (remote w !! opt_branch o) as [t|]; [|done].
  intros [= _ <-]. by exists t.
Qed.

Lemma clone_from_raise_inv (e : env) (url : string) (d : path)
    (o : clone_options) (w w1 : world) (exc : exn) :
  clone_from e url (AbsP d) o w = (Raise exc, w1) →
  fs w1 = fs w ∧ remote w1 = remote w ∧ cwd w1 = cwd w ∧
  ((∃ f, clone_fault e (opt_branch o) = Some f ∧ exc = exn_of_git_failure f) ∨
   (clone_fault e (opt_branch o) = None ∧ remote w !! opt_branch o = None)).
Proof.
  unfold clone_from. cbn zeta. cbn [resolve].
  destruct (clone_fault e (opt_branch o)) as [f|].
  - intros [= <- <-]. repeat split. left. by exists f.
  - destruct (remote w !! opt_branch o) as [t|]; [done|].
    intros [= <- <-]. repeat split. by right.
Qed.

(** When git is honest about missing branches, a checkout that succeeds
    holds the tree of the branch, or that of [master] when the branch is
    not on the remote. *)
Lemma clone_library_branch_ok (e : env) (branch : string) (d : path)
    (w w' : world) (r : repo) :
  honest e →
  clone_library_branch e branch (AbsP d) w = (Ok r, w') →
  ∃ t, cloned_tree (remote w) branch = Some t ∧
    fs w' = fs w ∪ place d t ∧ remote w' = remote w ∧ cwd w' = cwd w.
Proof.
  intros Hhonest Hrun.
  destruct (clone_library_branch_cases e branch d w) as (_ & Hok & Hgit & Hother).
  destruct (first_clone e branch d w) as [[r1|exc] w1] eqn:Hfirst.
  - rewrite (Hok r1 w1 eq_refl) in Hrun.
    unfold cloned_into, bind, logger_info, ret in Hrun. injection Hrun as <- <-.
    unfold first_clone in Hfirst.
    apply clone_from_ok_inv in Hfirst as (t & _ & Ht & Hfs & Hr & Hc).
    cbn in Ht, Hfs, Hr, Hc. exists t. unfold cloned_tree. rewrite Ht. done.
  - pose proof Hfirst as Hraise. unfold first_clone in Hraise.
    apply clone_from_raise_inv in Hraise as (Hfs1 & Hr1 & Hc1 & Hwhy).
    cbn in Hfs1, Hr1, Hc1, Hwhy.
    destruct (clone_from_raises _ _ _ _ _ _ _ Hfirst) as [(status & stderr & ->)| ->].
    + specialize (Hgit status stderr w1 eq_refl).
      destruct (reports_branch_not_found stderr branch) as [[|]|exc] eqn:Hrep;
        [|by rewrite Hgit in Hrun|by rewrite Hgit in Hrun].
      destruct Hwhy as [(f & Hf & Hexc)|[Hnone Hmissing]].
      { destruct f as [st se|]; [|done]. injection Hexc as -> ->.
        by destruct (Hhonest branch st se Hf). }
      rewrite Hgit in Hrun. clear Hgit Hok Hother.
      apply bind_inv_ok in Hrun as (r2 & w2 & Hmake & Hrun).
      unfold cloned_into, bind, logger_info, ret in Hrun. injection Hrun as <- <-.
      unfold make_branch in Hmake.
      apply bind_inv_ok in Hmake as ([] & w3 & [= <-] & Hmake).
      apply bind_inv_ok in Hmake as (r3 & w4 & Hmaster & Hmake).
      apply bind_inv_ok in Hmake as ([] & w5 & Hcheckout & [<- <-]%ret_inv).
      apply shallow_clone_branch_repo, clone_from_ok_inv in Hmaster
        as (t & _ & Ht & Hfs4 & Hr4 & Hc4).
      cbn in Ht, Hfs4, Hr4, Hc4.
      unfold git_checkout_orphan in Hcheckout. cbn zeta in Hcheckout.
      destruct (checkout_fault e); [done|]. injection Hcheckout as <-.
      exists t. unfold cloned_tree. rewrite Hmissing. cbn.
      rewrite Hfs4, Hfs1, Hr4, Hc4, Hc1. rewrite Hr1 in Ht. by rewrite Hr1.
    + rewrite (Hother _ _ eq_refl) in Hrun; [done|]. done.
Qed.

(** ** Publishing a version that is staged already *)

Lemma checkout_lookup (m t : tree) (d q : path) :
  fs_wf m → m !! d = None → q ≠ [] →
  (<[d := NDir]> m ∪ place d t) !! (d ++ q) = t !! q.
Proof.
  intros Hwf Hd Hq. rewrite lookup_union_r; [apply lookup_place_under|].
  rewrite lookup_insert_ne.
  - apply (fs_wf_absent_below m d); [done|done|by eexists].
  - intros Heq. rewrite <- (app_nil_r d) in Heq at 1. by apply app_inv_head in Heq.
Qed.

Lemma checkout_root (m t : tree) (d : path) :
  (<[d := NDir]> m ∪ place d t) !! d = Some NDir.
Proof. rewrite lookup_union_l'; by rewrite lookup_insert_eq. Qed.

(** The body of the [try], when the checkout made holds the version asked
    for and [force] is not set: nothing is done after the comparison. *)
Lemma publish_body_skips (e : env) (lib_id : libid) (branch : string) (d : path)
    (version platforms staged : json) (kwargs : list (string * json))
    (w wc : world) (r : repo) :
  clone_library_branch e branch (AbsP d) w = (Ok r, wc) →
  fs wc !! d = Some NDir →
  fs wc !! (d ++ [VERSION_FILENAME]) = Some (NFile (CJson staged)) →
  py_eq version staged = true → force_flag kwargs = false →
  publish_body e lib_id branch (AbsP d) version platforms kwargs w
  = (Ok (), record (LogInfo skip_message) (set_cwd d wc)).
Proof.
  intros Hclone Hd Hfile Heq Hforce. unfold publish_body.
  rewrite (bind_ok _ _ _ _ _ Hclone).
  apply clone_library_branch_repo in Hclone as ->.
  by apply update_checkout_skips with staged.
Qed.

Lemma clone_existing_branch (e : env) (branch : string) (d : path) (t : tree)
    (w : world) :
  clone_fault e branch = None → remote w !! branch = Some t →
  clone_library_branch e branch (AbsP d) w
  = (Ok (Repo d),
     World (cwd w) (fs w ∪ place d t) (remote w) t (Some t)
       (trace w ++ [ LogDebug ("Cloning branch " +:+ branch);
                     GitClone (LIBBUILD_REPO_URI e) d branch true 1;
                     LogInfo ("Cloned into " +:+ path_str (AbsP d)) ])).
Proof.
  intros Hfault Hbranch.
  destruct (clone_library_branch_cases e branch d w) as (_ & Hok & _).
  rewrite (Hok (Repo d)
             (set_head (Some t) (set_index t (set_fs (fs w ∪ place d t)
                (record (GitClone (LIBBUILD_REPO_URI e) d branch true 1)
                   (record (LogDebug ("Cloning branch " +:+ branch)) w)))))).
  - unfold cloned_into, bind, logger_info, ret, record, set_head, set_index, set_fs.
    cbn. by rewrite <- !app_assoc.
  - unfold first_clone, clone_from. cbn zeta. cbn [resolve opt_branch].
    rewrite Hfault. cbn [remote record]. by rewrite Hbranch.
Qed.

(** The call as a whole, when the branch is on the remote with the version
    asked for. *)
Lemma think_of_name_later_skips (e : env) (lib_id : libid)
    (version platforms staged : json) (kwargs : list (string * json))
    (t : tree) (w : world) :
  fs_wf (fs w) → entry_ok e lib_id w →
  clone_fault e (branch_of lib_id) = None →
  remote w !! branch_of lib_id = Some t →
  t !! [VERSION_FILENAME] = Some (NFile (CJson staged)) →
  py_eq version staged = true → force_flag kwargs = false →
  think_of_name_later e lib_id version platforms kwargs w
  = (Ok (),
     World (cwd w) (fs w) (remote w) t (Some t)
       (trace w ++
        [ FsMkdtemp (checkout_dir e lib_id);
          LogDebug ("Cloning branch " +:+ branch_of lib_id);
          GitClone (LIBBUILD_REPO_URI e) (checkout_dir e lib_id)
            (branch_of lib_id) true 1;
          LogInfo ("Cloned into " +:+ path_str (AbsP (checkout_dir e lib_id)));
          LogInfo skip_message;
          FsRmtree (checkout_dir e lib_id) ])).
Proof.
  intros Hwf Hentry Hfault Hbranch Hfile Heq Hforce.
  pose proof Hentry as (_ & _ & Hfresh).
  set (d := checkout_dir e lib_id) in *.
  pose proof (clone_existing_branch e (branch_of lib_id) d t
                (at_entry e lib_id w) Hfault Hbranch) as Hclone.
  pose proof (publish_body_skips e lib_id (branch_of lib_id) d
                version platforms staged kwargs (at_entry e lib_id w) _ _ Hclone)
    as Hbody.
  rewrite (think_of_name_later_spec e lib_id version platforms kwargs w Hwf Hentry
             (Ok ()) _ (Hbody (checkout_root _ _ _)
                          (eq_trans (checkout_lookup (fs w) t d
                                       [VERSION_FILENAME] Hwf Hfresh
                                       ltac:(done)) Hfile)
                          Heq Hforce)).
  cbn. by rewrite <- !app_assoc.
Qed.

(** With [force] set the comparison never stops the update: whatever
    version is staged, the checkout is rewritten, committed and pushed by
    [stage_and_push]. *)
Lemma update_checkout_forced (d : path) (e : env) (lib_id : libid)
    (branch : string) (version platforms staged : json)
    (kwargs : list (string * json)) (w : world) :
  fs w !! d = Some NDir →
  fs w !! (d ++ [VERSION_FILENAME]) = Some (NFile (CJson staged)) →
  force_flag kwargs = true →
  update_checkout e (Repo d) lib_id branch (AbsP d) version platforms kwargs w
  = stage_and_push e (Repo d) lib_id branch (AbsP (d ++ [VERSION_FILENAME]))
      version platforms (set_cwd d w).
Proof.
  intros Hd Hfile Hforce.
  unfold update_checkout, staged_version_gate, bind at 1 2 3 4, chdir, exists_,
    json_load, ret.
  cbv beta iota zeta. cbn [working_tree_dir join resolve app]. rewrite Hd.
  cbv beta iota zeta. cbn [fs set_cwd cwd]. rewrite Hfile.
  rewrite bool_decide_eq_true_2 by done.
  cbv beta iota zeta. cbn [fs set_cwd cwd]. rewrite Hfile.
  cbv beta iota zeta.
  by rewrite Hforce, andb_false_r.
Qed.

(** ** Publishing twice *)

Lemma keeps_branch_false (ev : event) :
  keeps_branch ev = true → changes_branch ev = false.
Proof. unfold keeps_branch. by destruct (changes_branch ev). Qed.

(** After a call that logged no exception and whose push was accepted, the
    tree that a checkout starts from holds a version marker equal to the
    version published. *)
Lemma staged_after_publish (e : env) (lib_id : libid)
    (version platforms : json) (kwargs : list (string * json)) (w : world) :
  fs_wf (fs w) → entry_ok e lib_id w → honest e →
  push_outcome e = PushAccepted → json_wf version = true →
  (∀ exc, LogException exc ∉
     events_since w (think_of_name_later e lib_id version platforms kwargs w).2) →
  ∃ t staged,
    cloned_tree (remote (think_of_name_later e lib_id version platforms kwargs w).2)
      (branch_of lib_id) = Some t ∧
    t !! [VERSION_FILENAME] = Some (NFile (CJson staged)) ∧
    py_eq version staged = true.
Proof.
  intros Hwf Hentry Hhonest Hpush Hjson Hquiet.
  pose proof Hentry as (_ & _ & Hfresh).
  set (d := checkout_dir e lib_id) in *.
  destruct (publish_body e lib_id (branch_of lib_id) (AbsP d) version platforms
              kwargs (at_entry e lib_id w)) as [rb wb] eqn:Hbody.
  rewrite (think_of_name_later_spec e lib_id version platforms kwargs w
             Hwf Hentry rb wb Hbody) in Hquiet |- *.
  cbn [snd remote] in *.
  assert (grows (at_entry e lib_id w) wb) as [evs Hevs].
  { replace wb with (rb, wb).2 by done. rewrite <- Hbody.
    apply publish_body_grows. unfold at_entry. cbn. fold d.
    by rewrite lookup_insert_eq. }
  destruct rb as [[]|exc].
  2:{ destruct (Hquiet exc). erewrite events_since_app.
      2:{ cbn [trace]. rewrite Hevs. unfold at_entry. cbn [trace set_fs record].
          rewrite <- !app_assoc. reflexivity. }
      rewrite !elem_of_app. right. right. left. cbn. by left. }
  unfold publish_body in Hbody.
  apply bind_inv_ok in Hbody as (r & wc & Hclone & Hupdate).
  pose proof (clone_library_branch_repo _ _ _ _ _ _ Hclone) as ->.
  apply (clone_library_branch_ok e _ _ _ _ _ Hhonest) in Hclone
    as (t & Ht & Hfs & Hr & _).
  cbn [at_entry remote fs set_fs record] in Ht, Hfs, Hr.
  apply update_checkout_ok in Hupdate as [(staged & Hfile & Heq & Hr')|Hpushed].
  - exists t, staged. rewrite Hr', Hr. split; [done|]. split; [|done].
    rewrite Hfs in Hfile. fold d in Hfile.
    by rewrite checkout_lookup in Hfile.
  - destruct (Hpushed Hpush) as (idx & Hr' & Hidx).
    exists idx, version. rewrite Hr'. unfold cloned_tree.
    rewrite lookup_insert_eq. split; [done|]. split; [done|].
    by apply py_eq_refl.
Qed.

(** A call on a world whose checkout will hold the version asked for
    records nothing that changes the branch. *)
Lemma think_of_name_later_quiet (e : env) (lib_id : libid)
    (version platforms staged : json) (kwargs : list (string * json))
    (t : tree) (w : world) :
  fs_wf (fs w) → entry_ok e lib_id w → honest e →
  cloned_tree (remote w) (branch_of lib_id) = Some t →
  t !! [VERSION_FILENAME] = Some (NFile (CJson staged)) →
  py_eq version staged = true → force_flag kwargs = false →
  Forall (λ ev, changes_branch ev = false)
    (events_since w (think_of_name_later e lib_id version platforms kwargs w).2).
Proof.
  intros Hwf Hentry Hhonest Ht Hfile Heq Hforce.
  pose proof Hentry as (_ & _ & Hfresh).
  set (d := checkout_dir e lib_id) in *.
  destruct (publish_body e lib_id (branch_of lib_id) (AbsP d) version platforms
              kwargs (at_entry e lib_id w)) as [rb wb] eqn:Hbody.
  rewrite (think_of_name_later_spec e lib_id version platforms kwargs w
             Hwf Hentry rb wb Hbody).
  cbn [snd].
  assert (∃ evs, trace wb = trace (at_entry e lib_id w) ++ evs ∧
            Forall (λ ev, changes_branch ev = false) evs) as (evs & Hevs & Hkeep).
  { assert (is_Some (fs (at_entry e lib_id w) !! d)) as Hd.
    { unfold at_entry. cbn. fold d. by rewrite lookup_insert_eq. }
    pose proof (steps_clone_library_branch d e (branch_of lib_id)
                  (at_entry e lib_id w) Hd) as (_ & _ & _ & evs & Hevs & Hkeep).
    pose proof (Forall_impl _ _ _ Hkeep keeps_branch_false) as Hkeep'.
    clear Hkeep. rename Hkeep' into Hkeep.
    unfold publish_body, bind in Hbody.
    destruct (clone_library_branch e (branch_of lib_id) (AbsP d)
                (at_entry e lib_id w)) as [[r|exc] wc] eqn:Hclone.
    2:{ injection Hbody as <- <-. by exists evs. }
    pose proof (clone_library_branch_repo _ _ _ _ _ _ Hclone) as ->.
    pose proof (clone_library_branch_ok e _ _ _ _ _ Hhonest Hclone)
      as (t' & Ht' & Hfs & _).
    cbn [at_entry remote fs set_fs record] in Ht', Hfs. fold d in Hfs.
    rewrite Ht in Ht'. injection Ht' as <-.
    rewrite (update_checkout_skips d e lib_id (branch_of lib_id) version
               platforms staged kwargs wc) in Hbody.
    - injection Hbody as <- <-. exists (evs ++ [LogInfo skip_message]).
      cbn in Hevs |- *. rewrite Hevs. split; [by rewrite <- !app_assoc|].
      apply Forall_app. split; [done|]. by constructor.
    - rewrite Hfs. apply checkout_root.
    - rewrite Hfs, checkout_lookup; done.
    - done.
    - done. }
  erewrite events_since_app.
  2:{ cbn [trace]. rewrite Hevs. unfold at_entry. cbn [trace set_fs record].
      rewrite <- !app_assoc. reflexivity. }
  apply Forall_app. split; [by repeat constructor|].
  apply Forall_app. split; [done|].
  apply Forall_app. split; [by destruct rb; repeat constructor|by repeat constructor].
Qed.

Lemma after_publish_entry_ok (e : env) (lib_id : libid)
    (version platforms : json) (kwargs : list (string * json)) (w : world) :
  fs_wf (fs w) → entry_ok e lib_id w →
  fs_wf (fs (think_of_name_later e lib_id version platforms kwargs w).2) ∧
  entry_ok e lib_id (think_of_name_later e lib_id version platforms kwargs w).2.
Proof.
  intros Hwf Hentry.
  destruct (publish_body e lib_id (branch_of lib_id)
              (AbsP (checkout_dir e lib_id)) version platforms kwargs
              (at_entry e lib_id w)) as [rb wb] eqn:Hbody.
  by rewrite (think_of_name_later_spec e lib_id version platforms kwargs w
                Hwf Hentry rb wb Hbody).
Qed.

(** The sample, run: the first call publishes version 1.0 on the branch made
    for it, the second call with the same arguments stops at the
    comparison. *)
Example publish_twice :
  let w1 := (think_of_name_later sample_env (IdInt 75) (sample_version "1.0")
               (JArr [JStr "atmelavr"]) [] sample_world).2 in
  let w2 := (think_of_name_later sample_env (IdInt 75) (sample_version "1.0")
               (JArr [JStr "atmelavr"]) [] w1).2 in
  filter (λ ev, changes_branch ev = true) (events_since sample_world w1)
  = [ GitAdd [ "examples/Blink.ino"; "examples/Fade.ino"; "_version.json";
               ".travis.yml" ];
      GitCommit "Update library to version 1.0";
      GitPush "library-75" true ] ∧
  events_since w1 w2
  = [ FsMkdtemp ["tmp"; "pioapi-libbuild-75-a1b2"];
      LogDebug "Cloning branch library-75";
      GitClone "https://example.org/ci.git" ["tmp"; "pioapi-libbuild-75-a1b2"]
        "library-75" true 1;
      LogInfo "Cloned into /tmp/pioapi-libbuild-75-a1b2";
      LogInfo skip_message;
      FsRmtree ["tmp"; "pioapi-libbuild-75-a1b2"] ].
Proof. split; vm_compute; reflexivity. Qed.

(** With [force] the staged version 0.9 is published again. *)
Example forced_publish_commits_and_pushes :
  filter (λ ev, changes_branch ev = true)
    (events_since staged_world
       (think_of_name_later sample_env (IdInt 75) (sample_version "0.9")
          (JArr [JStr "atmelavr"]) [("force", JBool true)] staged_world).2)
  = [ GitAdd [ "examples/Blink.ino"; "examples/Fade.ino"; "_version.json";
               ".travis.yml" ];
      GitCommit "Update library to version 0.9";
      GitPush "library-75" true ].
Proof. vm_compute. reflexivity. Qed.

(** The index keeps what was staged before: a file removed from
    [examples/] in the checkout is still in the tree that is pushed. *)
Example removed_example_stays_in_pushed_tree :
  remote (think_of_name_later sample_env (IdInt 75) (sample_version "1.0")
            (JArr [JStr "atmelavr"]) [] staged_world).2
    !! "library-75"
  ≫= (λ t : tree, t !! ["examples"; "old.ino"])
  = Some (NFile (CText "old")).
Proof. vm_compute. reflexivity. Qed.

(** * Further properties *)

(** ** The lookup in the registry of boards *)

Lemma boards_of_platforms_list (registry : board_registry) (items : list json) :
  ∃ names,
    boards_of_platforms registry (JArr items) = Ok names ∧
    names `sublist_of` registry.*1 ∧
    ∀ board info, (board, info) ∈ registry →
      existsb (py_eq (info_platform info)) items = true → board ∈ names.
Proof.
  induction registry as [|[b i] registry (names & Hrun & Hsub & Hin)].
  - exists []. split; [done|]. split; [done|]. by intros ? ? ?%elem_of_nil.
  - cbn [boards_of_platforms]. unfold platform_in. cbn [py_in rbind].
    rewrite Hrun. cbn [rmap rbind].
    destruct (existsb (py_eq (info_platform i)) items) eqn:Hfound.
    + exists (b :: names). split; [done|]. split; [by apply sublist_skip|].
      intros board info [[= -> ->]|Hrest]%elem_of_cons Hitems; [by left|].
      right. by apply (Hin board info).
    + exists names. split; [done|]. split; [by apply sublist_cons|].
      intros board info [[= -> ->]|Hrest]%elem_of_cons Hitems; [congruence|].
      by apply (Hin board info).
Qed.

Lemma boards_of_platforms_string (registry : board_registry) (s : string) :
  (∀ exc, boards_of_platforms registry (JStr s) = Raise exc → exc = TypeError) ∧
  (∀ names board info p,
     boards_of_platforms registry (JStr s) = Ok names →
     (board, info) ∈ registry → assoc "platform" info = Some p →
     occurs_in p s = true → board ∈ names) ∧
  (∀ board info,
     (board, info) ∈ registry → assoc "platform" info = None →
     boards_of_platforms registry (JStr s) = Raise TypeError).
Proof.
  induction registry as [|[b i] registry (IHexc & IHin & IHnone)].
  - split; [done|]. split; [by intros ? ? ? ? _ ?%elem_of_nil|].
    by intros ? ? ?%elem_of_nil.
  - cbn [boards_of_platforms]. unfold platform_in, info_platform.
    destruct (assoc "platform" i) as [p'|] eqn:Hp'; cbn [py_in rbind].
    + destruct (boards_of_platforms registry (JStr s)) as [rest|exc'] eqn:Hrest;
        cbn [rmap rbind].
      * split; [done|]. split.
        -- intros names board info p [= <-] [[= -> ->]|Hin]%elem_of_cons Hp Hocc.
           ++ rewrite Hp' in Hp. injection Hp as ->. rewrite Hocc. by left.
           ++ assert (board ∈ rest) by (by apply (IHin rest board info p)).
              destruct (occurs_in p' s); [by right|done].
        -- intros board info [[= -> ->]|Hin]%elem_of_cons Hnone; [congruence|].
           by specialize (IHnone board info Hin Hnone).
      * rewrite (IHexc exc' eq_refl). split; [by intros exc [= <-]|].
        split; [done|]. done.
    + split; [by intros exc [= <-]|]. split; [done|]. done.
Qed.

(** X1: what [get_all_boards_by_platforms] makes of the platforms it is
    given ([info.get("platform") in platforms] on line 77).  On a list it
    never fails, whatever the items are, and returns boards in the order
    of the registry; a board whose description names no platform is among
    them when the list holds [None].  On a string it looks for the
    platform of each board as a substring, so that a board is returned
    when the name of its platform occurs in the string, and it fails with
    [TypeError] when a board names no platform.  On [None], a number or a
    boolean it fails with [TypeError], unless the registry is empty: then
    the answer is the empty list whatever the platforms are. *)
Theorem get_all_boards_by_platforms_by_type (e : env) :
  (∀ items, ∃ names,
     get_all_boards_by_platforms e (JArr items) = Ok names ∧
     names `sublist_of` (get_boards e).*1) ∧
  (∀ items names board info,
     get_all_boards_by_platforms e (JArr items) = Ok names →
     (board, info) ∈ get_boards e → assoc "platform" info = None →
     JNull ∈ items → board ∈ names) ∧
  (∀ s names board info p,
     get_all_boards_by_platforms e (JStr s) = Ok names →
     (board, info) ∈ get_boards e → assoc "platform" info = Some p →
     occurs_in p s = true → board ∈ names) ∧
  (∀ s board info,
     (board, info) ∈ get_boards e → assoc "platform" info = None →
     get_all_boards_by_platforms e (JStr s) = Raise TypeError) ∧
  (get_boards e ≠ [] →
   get_all_boards_by_platforms e JNull = Raise TypeError ∧
   (∀ b, get_all_boards_by_platforms e (JBool b) = Raise TypeError) ∧
   (∀ z, get_all_boards_by_platforms e (JNum z) = Raise TypeError)) ∧
  (get_boards e = [] →
   ∀ platforms, get_all_boards_by_platforms e platforms = Ok []).
Proof.
  unfold get_all_boards_by_platforms.
  split; [|split; [|split; [|split; [|split]]]].
  - intros items.
    destruct (boards_of_platforms_list (get_boards e) items)
      as (names & Hrun & Hsub & _).
    by exists names.
  - intros items names board info Hrun Hin Hnone Hnull.
    destruct (boards_of_platforms_list (get_boards e) items)
      as (names' & Hrun' & _ & Hall).
    rewrite Hrun in Hrun'. injection Hrun' as <-.
    apply (Hall board info Hin). unfold info_platform. rewrite Hnone.
    apply existsb_exists. exists JNull. split; [|done].
    by apply list_elem_of_In.
  - intros s names board info p.
    apply (proj1 (proj2 (boards_of_platforms_string (get_boards e) s))).
  - intros s board info.
    apply (proj2 (proj2 (boards_of_platforms_string (get_boards e) s))).
  - intros Hsome. destruct (get_boards e) as [|[b i] registry]; [done|].
    repeat split.
  - intros -> platforms. reflexivity.
Qed.

Lemma get_all_boards_by_platforms_by_type_witness :
  (∃ names,
     get_all_boards_by_platforms unlabelled_env (JArr [JStr "teensy"; JNull])
     = Ok names ∧ "custom" ∈ names) ∧
  get_all_boards_by_platforms unlabelled_env (JStr "atmelavr") = Raise TypeError ∧
  (∃ names,
     get_all_boards_by_platforms sample_env (JStr "espressif, atmelavr")
     = Ok names ∧ "nanoatmega328" ∈ names) ∧
  get_all_boards_by_platforms sample_env JNull = Raise TypeError.
Proof.
  destruct (get_all_boards_by_platforms_by_type unlabelled_env)
    as (Hlist & Hnone & _ & Hfails & _).
  destruct (get_all_boards_by_platforms_by_type sample_env)
    as (_ & _ & Hsub & _ & Hscalar & _).
  split; [|split; [|split]].
  - destruct (Hlist [JStr "teensy"; JNull]) as (names & Hrun & _).
    exists names. split; [exact Hrun|].
    apply (Hnone _ names "custom" [("name", "Custom board")] Hrun).
    + right. by left.
    + reflexivity.
    + right. by left.
  - apply (Hfails _ "custom" [("name", "Custom board")]); [|reflexivity].
    right. by left.
  - exists ["nanoatmega328"]. split; [reflexivity|].
    apply (Hsub "espressif, atmelavr" _ "nanoatmega328"
             [("platform", "atmelavr")] "atmelavr"); [reflexivity|by left|done..].
  - apply Hscalar. discriminate.
Defined.

Lemma existsb_py_eq_mono (x : json) (ps qs : list json) :
  (∀ p, p ∈ ps → p ∈ qs) →
  existsb (py_eq x) ps = true → existsb (py_eq x) qs = true.
Proof.
  intros Hsub (p & Hp & Heq)%existsb_exists. apply existsb_exists.
  exists p. split; [|done]. by apply list_elem_of_In, Hsub, list_elem_of_In.
Qed.

(** X2: asking [get_all_boards_by_platforms] for more platforms only adds
    boards, in place: the boards for a list of platforms are, in this order,
    among those for any list that has these platforms; for no platform the
    answer is empty. *)
Theorem get_all_boards_by_platforms_mono (e : env) (ps qs : list json) :
  (∀ p, p ∈ ps → p ∈ qs) →
  get_all_boards_by_platforms e (JArr []) = Ok [] ∧
  ∃ few many,
    get_all_boards_by_platforms e (JArr ps) = Ok few ∧
    get_all_boards_by_platforms e (JArr qs) = Ok many ∧
    few `sublist_of` many.
Proof.
  intros Hsub. unfold get_all_boards_by_platforms. split.
  - induction (get_boards e) as [|[b info] registry IH]; [done|].
    cbn [boards_of_platforms]. unfold platform_in. cbn [py_in existsb rbind].
    by rewrite IH.
  - induction (get_boards e) as [|[b info] registry (few & many & Hfew & Hmany & IH)].
    + by exists [], [].
    + cbn [boards_of_platforms]. unfold platform_in. cbn [py_in rbind].
      rewrite Hfew, Hmany. cbn [rmap rbind].
      destruct (existsb (py_eq (info_platform info)) ps) eqn:Hps.
      * rewrite (existsb_py_eq_mono _ ps qs Hsub Hps).
        exists (b :: few), (b :: many). by split; [|split; [|apply sublist_skip]].
      * destruct (existsb (py_eq (info_platform info)) qs).
        -- exists few, (b :: many). by split; [|split; [|apply sublist_cons]].
        -- by exists few, many.
Qed.

Lemma get_all_boards_by_platforms_mono_witness :
  ∃ few many,
    get_all_boards_by_platforms unlabelled_env (JArr [JStr "atmelavr"]) = Ok few ∧
    get_all_boards_by_platforms unlabelled_env (JArr [JNull; JStr "atmelavr"])
    = Ok many ∧
    few `sublist_of` many ∧ few = ["nanoatmega328"] ∧
    many = ["nanoatmega328"; "custom"].
Proof.
  destruct (get_all_boards_by_platforms_mono unlabelled_env
              [JStr "atmelavr"] [JNull; JStr "atmelavr"])
    as (_ & few & many & Hfew & Hmany & Hsub).
  { intros p Hp. by right. }
  exists few, many. split; [exact Hfew|]. split; [exact Hmany|].
  split; [exact Hsub|]. split.
  - vm_compute in Hfew. by injection Hfew.
  - vm_compute in Hmany. by injection Hmany.
Defined.

(** ** Platforms that are not a list of names *)

Lemma BOARDS_one_char (c : ascii) : BOARDS !! String c EmptyString = None.
Proof. by apply BOARDS_unknown. Qed.

Lemma rmapM_BOARDS_get_chars (cs : list ascii) :
  rmapM BOARDS_get ((λ c, JStr (String c EmptyString)) <$> cs)
  = Ok ((λ _, []) <$> cs).
Proof.
  induction cs as [|c cs IH]; [done|].
  cbn [fmap list_fmap rmapM BOARDS_get rbind].
  fold (fmap (M:=list) (λ c, JStr (String c EmptyString)) cs).
  rewrite IH, BOARDS_one_char. reflexivity.
Qed.

Lemma concat_nils {A B} (l : list A) : concat ((λ _, @nil B) <$> l) = [].
Proof. induction l as [|x l IH]; [done|]. by cbn. Qed.

(** X3: given a string where the list of platforms is expected,
    [get_boards_by_platforms] goes through its characters, finds none of
    them in the table, and returns no board and no error; the build command
    then has no [--board] flag.  This is so for every string, the name of a
    platform of the table included. *)
Theorem get_boards_by_platforms_of_string (s : string) :
  get_boards_by_platforms (JStr s) = Ok [] ∧
  board_flags (JStr s) = Ok EmptyString.
Proof.
  assert (get_boards_by_platforms (JStr s) = Ok []) as H.
  { unfold get_boards_by_platforms. cbn [py_iter rbind].
    rewrite rmapM_BOARDS_get_chars. cbn. by rewrite concat_nils. }
  split; [done|]. unfold board_flags. by rewrite H.
Qed.

Lemma rmapM_BOARDS_get_scalars (items : list json) :
  forallb scalar items = true →
  rmapM BOARDS_get items = Ok (table_entry <$> items).
Proof.
  induction items as [|v items IH]; [done|]. cbn [forallb].
  intros [Hv Hitems]%andb_true_iff.
  cbn [fmap list_fmap rmapM]. fold (fmap (M:=list) table_entry items).
  rewrite IH by done. by destruct v.
Qed.

Lemma rmapM_BOARDS_get_unhashable (before after : list json) (bad : json) :
  forallb scalar before = true → scalar bad = false →
  rmapM BOARDS_get (before ++ bad :: after) = Raise TypeError.
Proof.
  intros Hbefore Hbad. induction before as [|v before IH].
  - cbn. by destruct bad.
  - cbn [forallb] in Hbefore. apply andb_true_iff in Hbefore as [Hv Hbefore].
    cbn [app rmapM]. rewrite IH by done. by destruct v.
Qed.

(** X4: what [get_boards_by_platforms] does with values other than a list
    of names.  [None], a number and a boolean cannot be iterated over:
    [TypeError].  In a list, an item that is [None], a number or a boolean
    is passed over like an unknown name; the first item that is a list or a
    dict cannot be a key of the table: [TypeError], whatever comes after
    it. *)
Theorem get_boards_by_platforms_by_type (before after : list json) (bad : json) :
  forallb scalar before = true → scalar bad = false →
  get_boards_by_platforms JNull = Raise TypeError ∧
  (∀ b, get_boards_by_platforms (JBool b) = Raise TypeError) ∧
  (∀ z, get_boards_by_platforms (JNum z) = Raise TypeError) ∧
  get_boards_by_platforms (JArr before) = Ok (concat (table_entry <$> before)) ∧
  get_boards_by_platforms (JArr (before ++ bad :: after)) = Raise TypeError.
Proof.
  intros Hbefore Hbad. repeat split.
  - unfold get_boards_by_platforms. cbn [py_iter rbind].
    by rewrite rmapM_BOARDS_get_scalars.
  - unfold get_boards_by_platforms. cbn [py_iter rbind].
    by rewrite rmapM_BOARDS_get_unhashable.
Qed.

Lemma get_boards_by_platforms_by_type_witness :
  get_boards_by_platforms (JArr [JStr "teensy"; JNull; JNum 3])
  = Ok ["teensy20"; "teensy31"] ∧
  get_boards_by_platforms
    (JArr ([JStr "teensy"; JNull; JNum 3] ++ JArr [JStr "atmelavr"] :: [JStr "atmelavr"]))
  = Raise TypeError.
Proof.
  destruct (get_boards_by_platforms_by_type [JStr "teensy"; JNull; JNum 3]
              [JStr "atmelavr"] (JArr [JStr "atmelavr"]) eq_refl eq_refl)
    as (_ & _ & _ & Hok & Hbad).
  split; [exact Hok|exact Hbad].
Defined.

(** ** The lines of git's error stream *)

Lemma py_split_length (sep : ascii) (s : string) :
  (1 ≤ length (py_split sep s))%nat.
Proof.
  induction s as [|c s IH]; cbn; [lia|].
  destruct (Ascii.eqb c sep); cbn; [lia|].
  destruct (py_split sep s); cbn in *; lia.
Qed.

Lemma py_split_app (sep : ascii) (a b : string) :
  py_split sep (a +:+ String sep b) = py_split sep a ++ py_split sep b.
Proof.
  induction a as [|c a IH].
  - change (EmptyString +:+ String sep b) with (String sep b).
    cbn [py_split]. by rewrite Ascii.eqb_refl.
  - change (String c a +:+ String sep b) with (String c (a +:+ String sep b)).
    cbn [py_split]. rewrite IH. destruct (Ascii.eqb c sep); [done|].
    pose proof (py_split_length sep a).
    destruct (py_split sep a) as [|piece pieces]; [cbn in *; lia|done].
Qed.

Lemma py_split_one (sep : ascii) (s : string) :
  has_char sep s = false → py_split sep s = [s].
Proof.
  induction s as [|c s IH]; [done|]. cbn.
  intros [Hc Hs]%orb_false_iff. rewrite Hc, IH; done.
Qed.

Lemma py_split_two (sep : ascii) (s : string) :
  has_char sep s = true → (2 ≤ length (py_split sep s))%nat.
Proof.
  induction s as [|c s IH]; [done|]. cbn.
  destruct (Ascii.eqb c sep); cbn.
  - intros _. pose proof (py_split_length sep s). lia.
  - intros Hs. specialize (IH Hs).
    destruct (py_split sep s); cbn in *; lia.
Qed.

Lemma has_char_app (c : ascii) (a b : string) :
  has_char c (a +:+ b) = has_char c a || has_char c b.
Proof.
  induction a as [|x a IH]; [done|].
  change (String x a +:+ b) with (String x (a +:+ b)). cbn.
  by rewrite IH, orb_assoc.
Qed.

Lemma py_index_m2_snoc {A} (l : list A) (x y : A) :
  py_index_m2 (l ++ [x; y]) = Ok x.
Proof.
  unfold py_index_m2. change [x; y] with ([x] ++ [y]).
  by rewrite app_assoc, !reverse_snoc.
Qed.

Lemma py_index_m2_ok {A} (l : list A) :
  (2 ≤ length l)%nat → ∃ x, py_index_m2 l = Ok x.
Proof.
  intros Hl. unfold py_index_m2. rewrite <- length_reverse in Hl.
  destruct (reverse l) as [|y [|x rest]]; cbn in Hl; [lia|lia|by eexists].
Qed.

Lemma ends_line_inv (s : string) :
  ends_line s = true → s = EmptyString ∨ ∃ b, s = b +:+ nl.
Proof.
  induction s as [|c s IH]; [by left|].
  destruct s as [|c' s'].
  - cbn. intros ->%Ascii.eqb_eq. right. by exists EmptyString.
  - intros Hs. change (ends_line (String c' s') = true) in Hs.
    destruct (IH Hs) as [?|[b Hb]]; [done|].
    right. exists (String c b). by rewrite Hb.
Qed.

(** The line before the last of a text: what [split("\n")[-2]] is when the
    text has a line end. *)
Lemma second_to_last_line (before line last : string) :
  ends_line before = true →
  has_char "010" line = false → has_char "010" last = false →
  py_index_m2 (py_split "010" (before +:+ line +:+ nl +:+ last)) = Ok line.
Proof.
  intros Hbefore Hline Hlast.
  assert (py_split "010" (line +:+ nl +:+ last) = [line; last]) as Htail.
  { change (nl +:+ last) with (String "010" last).
    by rewrite py_split_app, !py_split_one. }
  destruct (ends_line_inv _ Hbefore) as [->|[b ->]].
  - change (EmptyString +:+ line +:+ nl +:+ last) with (line +:+ nl +:+ last).
    rewrite Htail. exact (py_index_m2_snoc [] line last).
  - rewrite string_app_assoc.
    change (nl +:+ line +:+ nl +:+ last)
      with (String "010" (line +:+ nl +:+ last)).
    rewrite py_split_app, Htail. apply py_index_m2_snoc.
Qed.

Lemma shallow_clone_branch_fails (e : env) (branch : string) (to : pypath)
    (url : string) (w : world) (status : Z) (stderr : option string) :
  clone_fault e branch = Some (GitFails status stderr) →
  (shallow_clone_branch e branch to url w).1
  = match reports_branch_not_found stderr branch with
    | Ok true => Raise (RemoteBranchNotFound branch)
    | Ok false => Raise (GitCommandError status stderr)
    | Raise exc => Raise exc
    end.
Proof.
  intros Hfault. unfold shallow_clone_branch, try_except, clone_from.
  cbn zeta. cbn [opt_branch]. rewrite Hfault. cbn [exn_of_git_failure].
  unfold bind, lift.
  by destruct (reports_branch_not_found stderr branch) as [[|]|].
Qed.

(** X5: which failure of git [shallow_clone_branch] takes for a missing
    branch.  When the text on git's error stream has a line end, the line
    before the last one is compared with
    ["fatal: Remote branch <branch> not found in upstream origin"]: if they
    are equal the function raises [RemoteBranchNotFound] with the branch,
    if not it raises git's error again.  So the message is recognised only
    when it is the last line and a line end follows it; the status of git
    plays no part. *)
Theorem shallow_clone_branch_second_to_last (e : env) (branch : string)
    (to : pypath) (url : string) (w : world) (status : Z)
    (before line last : string) :
  ends_line before = true →
  has_char "010" line = false → has_char "010" last = false →
  clone_fault e branch
  = Some (GitFails status (Some (before +:+ line +:+ nl +:+ last))) →
  (shallow_clone_branch e branch to url w).1
  = if String.eqb line (expected_message branch)
    then Raise (RemoteBranchNotFound branch)
    else Raise (GitCommandError status (Some (before +:+ line +:+ nl +:+ last))).
Proof.
  intros Hbefore Hline Hlast Hfault.
  rewrite (shallow_clone_branch_fails _ _ _ _ _ _ _ Hfault).
  unfold reports_branch_not_found.
  destruct (String.eqb_spec (before +:+ line +:+ nl +:+ last) EmptyString) as [Hempty|_].
  - apply (f_equal (has_char "010")) in Hempty.
    rewrite !has_char_app in Hempty. cbn in Hempty.
    by rewrite !orb_true_r in Hempty.
  - rewrite second_to_last_line by done. cbn.
    by destruct (String.eqb line (expected_message branch)).
Qed.

Lemma reports_branch_not_found_index_error (stderr : option string)
    (branch : string) :
  reports_branch_not_found stderr branch = Raise IndexError ↔
  ∃ s, stderr = Some s ∧ s ≠ EmptyString ∧ has_char "010" s = false.
Proof.
  unfold reports_branch_not_found. destruct stderr as [s|].
  - destruct (String.eqb_spec s EmptyString) as [->|Hs].
    + split; [done|]. by intros (s & [= <-] & ? & _).
    + destruct (has_char "010" s) eqn:Hnl.
      * destruct (py_index_m2_ok _ (py_split_two _ _ Hnl)) as [x ->].
        split; [done|]. intros (s' & [= <-] & _ & Hno). congruence.
      * rewrite py_split_one by done. split; [|done].
        intros _. by exists s.
  - split; [done|]. by intros (s & [=] & _).
Qed.

(** X6: when [shallow_clone_branch] raises [IndexError] in place of git's
    error: exactly when the clone fails with a text on the error stream
    that is not empty and has no line end.  Without a text ([None] or the
    empty string) git's error is raised again as it is. *)
Theorem shallow_clone_branch_index_error (e : env) (branch : string)
    (to : pypath) (url : string) (w : world) :
  ((shallow_clone_branch e branch to url w).1 = Raise IndexError ↔
   ∃ status s, clone_fault e branch = Some (GitFails status (Some s)) ∧
     s ≠ EmptyString ∧ has_char "010" s = false) ∧
  (∀ status stderr,
     clone_fault e branch = Some (GitFails status stderr) →
     stderr = None ∨ stderr = Some EmptyString →
     (shallow_clone_branch e branch to url w).1
     = Raise (GitCommandError status stderr)).
Proof.
  split.
  - destruct (clone_fault e branch) as [[status stderr|]|] eqn:Hfault.
    + rewrite (shallow_clone_branch_fails _ _ _ _ _ _ _ Hfault).
      destruct (reports_branch_not_found stderr branch) as [[|]|exc] eqn:Hrep.
      * split; [done|]. intros (status' & s & [= <- ->] & Hs).
        assert (reports_branch_not_found (Some s) branch = Raise IndexError) as Hrep'
          by (apply reports_branch_not_found_index_error; by exists s).
        congruence.
      * split; [done|]. intros (status' & s & [= <- ->] & Hs).
        assert (reports_branch_not_found (Some s) branch = Raise IndexError) as Hrep'
          by (apply reports_branch_not_found_index_error; by exists s).
        congruence.
      * apply reports_branch_not_found_raises in Hrep as Hexc. subst exc.
        split; [|done]. intros _.
        apply reports_branch_not_found_index_error in Hrep as (s & -> & Hs).
        by exists status, s.
    + unfold shallow_clone_branch, try_except, clone_from.
      cbn zeta. cbn [opt_branch]. rewrite Hfault. cbn.
      split; [done|]. by intros (? & ? & [=] & _).
    + unfold shallow_clone_branch, try_except, clone_from.
      cbn zeta. cbn [opt_branch]. rewrite Hfault.
      split; [|by intros (? & ? & [=] & _)].
      destruct (remote w !! branch); [done|].
      unfold bind, lift.
      destruct (reports_branch_not_found _ branch) as [[|]|exc] eqn:Hrep; [done..|].
      apply reports_branch_not_found_raises in Hrep as Hexc. subst exc.
      apply reports_branch_not_found_index_error in Hrep as (s & [= <-] & _ & Hno).
      unfold branch_not_found_stderr in Hno. rewrite !has_char_app in Hno.
      cbn in Hno. by rewrite !orb_true_r in Hno.
  - intros status stderr Hfault Hstderr.
    rewrite (shallow_clone_branch_fails _ _ _ _ _ _ _ Hfault).
    by destruct Hstderr as [-> | ->].
Qed.

Lemma shallow_clone_branch_second_to_last_witness :
  (shallow_clone_branch missing_branch_env "library-75" (AbsP ["tmp"; "co"])
     (LIBBUILD_REPO_URI missing_branch_env) staged_world).1
  = Raise (RemoteBranchNotFound "library-75") ∧
  (shallow_clone_branch offline_env "library-75" (AbsP ["tmp"; "co"])
     (LIBBUILD_REPO_URI offline_env) staged_world).1
  = Raise (GitCommandError 128 (Some ("fatal: unable to access the remote" +:+ nl))).
Proof.
  split.
  - exact (shallow_clone_branch_second_to_last missing_branch_env "library-75"
             (AbsP ["tmp"; "co"]) (LIBBUILD_REPO_URI missing_branch_env)
             staged_world 128 ("Cloning into 'co'..." +:+ nl)
             (expected_message "library-75") EmptyString
             eq_refl eq_refl eq_refl eq_refl).
  - exact (shallow_clone_branch_second_to_last offline_env "library-75"
             (AbsP ["tmp"; "co"]) (LIBBUILD_REPO_URI offline_env)
             staged_world 128 EmptyString
             "fatal: unable to access the remote" EmptyString
             eq_refl eq_refl eq_refl eq_refl).
Defined.

(** ** What a call does to the remote *)

Lemma steps_try_finally (R : relation world) `{!Transitive R} {A}
    (body : M A) (final : M unit) :
  steps R body → steps R final → steps R (try_finally body final).
Proof.
  intros Hbody Hfinal w. unfold try_finally.
  specialize (Hbody w). destruct (body w) as [r w1]. cbn in Hbody.
  specialize (Hfinal w1). destruct (final w1) as [[[]|exc] w2]; cbn in *;
    by etrans.
Qed.


Global Instance keeps_remote_refl (P : event → bool) : Reflexive (keeps_remote P).
Proof. intros w. split; [done|]. apply extends_trace_refl. Qed.

Global Instance keeps_remote_trans (P : event → bool) : Transitive (keeps_remote P).
Proof.
  intros w1 w2 w3 [Hr1 Ht1] [Hr2 Ht2]. split; [congruence|].
  by eapply extends_trace_trans.
Qed.

Global Instance updates_branch_refl (b : string) (P : event → bool) :
  Reflexive (updates_branch b P).
Proof. intros w. split; [done|]. apply extends_trace_refl. Qed.

Global Instance updates_branch_trans (b : string) (P : event → bool) :
  Transitive (updates_branch b P).
Proof.
  intros w1 w2 w3 [Hr1 Ht1] [Hr2 Ht2]. split.
  - intros b' Hb'. by rewrite Hr2, Hr1.
  - by eapply extends_trace_trans.
Qed.

Lemma keeps_remote_updates (b : string) (P : event → bool) (w w' : world) :
  keeps_remote P w w' → updates_branch b P w w'.
Proof. intros [Hr Ht]. split; [|done]. intros b' _. by rewrite Hr. Qed.

Lemma keeps_remote_record (P : event → bool) (ev : event) (w : world) :
  P ev = true → keeps_remote P w (record ev w).
Proof. intros HP. split; [done|]. by apply extends_trace_record. Qed.

Lemma keeps_remote_local (P : event → bool) (w w' : world) :
  remote w' = remote w → trace w' = trace w → keeps_remote P w w'.
Proof. intros Hr Ht. split; [done|]. exists []. by rewrite app_nil_r. Qed.

Lemma keeps_remote_after (P : event → bool) (ev : event) (w w' : world) :
  P ev = true → remote w' = remote w → trace w' = trace w ++ [ev] →
  keeps_remote P w w'.
Proof.
  intros HP Hr Ht. split; [done|]. exists [ev]. split; [done|]. by constructor.
Qed.

Section remote_frames.
Context (P : event → bool).
Hypothesis Hlocal : ∀ ev, local_event ev = true → P ev = true.
Local Abbreviation K := (keeps_remote P).

Lemma keeps_getcwd : steps K getcwd.
Proof. intros w. unfold getcwd. by repeat case_match. Qed.

Lemma keeps_chdir (p : pypath) : steps K (chdir p).
Proof.
  intros w. unfold chdir. cbn zeta.
  repeat case_match; by apply keeps_remote_local.
Qed.

Lemma keeps_exists (p : pypath) : steps K (exists_ p).
Proof. intros w. reflexivity. Qed.

Lemma keeps_json_load (p : pypath) : steps K (json_load p).
Proof. intros w. unfold json_load. by repeat case_match. Qed.

Lemma keeps_listdir (p : pypath) : steps K (listdir p).
Proof. intros w. unfold listdir. cbn zeta. by repeat case_match. Qed.

Lemma keeps_logger_debug (msg : string) : steps K (logger_debug msg).
Proof. intros w. apply keeps_remote_record. by apply Hlocal. Qed.

Lemma keeps_logger_info (msg : string) : steps K (logger_info msg).
Proof. intros w. apply keeps_remote_record. by apply Hlocal. Qed.

Lemma keeps_logger_exception (exc : exn) : steps K (logger_exception exc).
Proof. intros w. apply keeps_remote_record. by apply Hlocal. Qed.

Lemma keeps_mkdtemp (e : env) (prefix : string) : steps K (mkdtemp e prefix).
Proof.
  intros w. unfold mkdtemp. cbn zeta.
  repeat case_match; (eapply keeps_remote_after; [|reflexivity|reflexivity]; by apply Hlocal).
Qed.

Lemma keeps_mkdir (p : pypath) : steps K (mkdir p).
Proof.
  intros w. unfold mkdir. cbn zeta.
  repeat case_match; (eapply keeps_remote_after; [|reflexivity|reflexivity]; by apply Hlocal).
Qed.

Lemma keeps_rmtree (p : pypath) : steps K (rmtree p).
Proof.
  intros w. unfold rmtree. cbn zeta.
  repeat case_match; (eapply keeps_remote_after; [|reflexivity|reflexivity]; by apply Hlocal).
Qed.

Lemma keeps_open_w (p : pypath) : steps K (open_w p).
Proof.
  intros w. unfold open_w. cbn zeta.
  repeat case_match; (eapply keeps_remote_after; [|reflexivity|reflexivity]; by apply Hlocal).
Qed.

Lemma keeps_write (f : path) (x : content) : steps K (write f x).
Proof. intros w. by apply keeps_remote_local. Qed.

Lemma keeps_copyfile (src dst : pypath) : steps K (copyfile src dst).
Proof.
  intros w. unfold copyfile. cbn zeta.
  destruct (fs w !! resolve (cwd w) src) as [n|]; [|reflexivity].
  case_decide; [reflexivity|]. destruct n as [x|]; [|reflexivity].
  apply (steps_bind K); [apply keeps_open_w|]. intros f. apply keeps_write.
Qed.

Lemma keeps_copy_examples (src : pypath) (names : list string)
    (example_files : list pypath) :
  steps K (copy_examples src names example_files).
Proof.
  revert example_files. induction names as [|n names IH]; intros example_files.
  - apply (steps_ret K).
  - cbn [copy_examples]. apply (steps_bind K); [apply keeps_copyfile|].
    intros _. apply IH.
Qed.

Lemma keeps_stage_examples (e : env) (lib_id : libid) :
  steps K (stage_examples e lib_id).
Proof.
  unfold stage_examples.
  apply (steps_bind K); [apply keeps_exists|]. intros present.
  apply (steps_bind K).
  { destruct present; [apply keeps_rmtree|apply (steps_ret K)]. }
  intros _. apply (steps_bind K); [apply keeps_mkdir|]. intros _.
  apply (steps_bind K); [apply keeps_listdir|]. intros names.
  apply keeps_copy_examples.
Qed.

Lemma keeps_write_travis_config (e : env) (lib_id : libid)
    (version platforms : json) (example_files : list pypath) :
  steps K (write_travis_config e lib_id version platforms example_files).
Proof.
  unfold write_travis_config.
  apply (steps_bind K); [apply (steps_lift K)|]. intros boards.
  apply (steps_bind K); [apply keeps_open_w|]. intros f.
  apply (steps_bind K); [apply (steps_lift K)|]. intros text.
  apply keeps_write.
Qed.

Lemma keeps_staged_version_gate (p : pypath) (version : json)
    (kwargs : list (string * json)) :
  steps K (staged_version_gate p version kwargs).
Proof.
  unfold staged_version_gate.
  apply (steps_bind K); [apply keeps_exists|]. intros present.
  destruct present; [|apply (steps_ret K)].
  apply (steps_bind K); [apply keeps_json_load|]. intros staged.
  destruct (py_eq version staged && negb (force_flag kwargs)); [|apply (steps_ret K)].
  apply (steps_bind K); [apply keeps_logger_info|]. intros _. apply (steps_ret K).
Qed.

Lemma keeps_clone_from (e : env) (url : string) (d : path) (o : clone_options) :
  P (GitClone url d (opt_branch o) (opt_single_branch o) (opt_depth o)) = true →
  steps K (clone_from e url (AbsP d) o).
Proof.
  intros HP w. unfold clone_from. cbn zeta. cbn [resolve].
  repeat case_match; by eapply keeps_remote_after.
Qed.

Lemma keeps_shallow_clone_branch (e : env) (branch url : string) (d : path) :
  P (GitClone url d branch true 1) = true →
  steps K (shallow_clone_branch e branch (AbsP d) url).
Proof.
  intros HP. unfold shallow_clone_branch.
  apply (steps_try_except K); [by apply keeps_clone_from|].
  intros exc. destruct exc; try apply (steps_raise K).
  apply (steps_bind K); [apply (steps_lift K)|].
  intros found. destruct found; apply (steps_raise K).
Qed.

Lemma keeps_git_checkout_orphan (e : env) (branch : string) :
  P (GitCheckout branch true) = true →
  steps K (git_checkout_orphan e branch).
Proof.
  intros HP w. unfold git_checkout_orphan. cbn zeta.
  repeat case_match; by eapply keeps_remote_after.
Qed.

Lemma keeps_clone_library_branch (e : env) (branch : string) (d : path) :
  P (GitClone (LIBBUILD_REPO_URI e) d branch true 1) = true →
  P (GitClone (LIBBUILD_REPO_URI e) d "master" true 1) = true →
  P (GitCheckout branch true) = true →
  steps K (clone_library_branch e branch (AbsP d)).
Proof.
  intros Hbranch Hmaster Horphan. unfold clone_library_branch.
  apply (steps_bind K).
  - apply (steps_try_except K).
    + apply (steps_bind K); [apply keeps_logger_debug|]. intros _.
      by apply keeps_shallow_clone_branch.
    + intros exc. destruct exc; try apply (steps_raise K).
      apply (steps_bind K); [apply keeps_logger_debug|]. intros _.
      apply (steps_bind K); [by apply keeps_shallow_clone_branch|]. intros r.
      apply (steps_bind K); [by apply keeps_git_checkout_orphan|]. intros _.
      apply (steps_ret K).
  - intros r. apply (steps_bind K); [apply keeps_logger_info|]. intros _.
    apply (steps_ret K).
Qed.

Lemma keeps_index_add (e : env) (r : repo) (paths : list pypath) :
  P (GitAdd (path_str <$> paths)) = true → steps K (index_add e r paths).
Proof.
  intros HP w. unfold index_add. cbn zeta.
  repeat case_match; by eapply keeps_remote_after.
Qed.

Lemma keeps_index_commit (e : env) (message : string) :
  P (GitCommit message) = true → steps K (index_commit e message).
Proof.
  intros HP w. unfold index_commit. cbn zeta.
  repeat case_match; by eapply keeps_remote_after.
Qed.

Lemma updates_remote_push (e : env) (branch : string) :
  P (GitPush branch true) = true →
  steps (updates_branch branch P) (remote_push e branch).
Proof.
  intros HP w. unfold remote_push. cbn zeta.
  repeat case_match;
    try (apply keeps_remote_updates; by eapply keeps_remote_after).
  split; [|by apply extends_trace_record].
  intros b' Hb'. cbn. by rewrite lookup_insert_ne.
Qed.

End remote_frames.

Lemma steps_bind_with (R : relation world) `{!Transitive R} {A B}
    (m : M A) (f : A → M B) :
  steps R m → (∀ w a w', m w = (Ok a, w') → steps R (f a)) →
  steps R (bind m f).
Proof.
  intros Hm Hf w. unfold bind. specialize (Hm w). specialize (Hf w).
  destruct (m w) as [[a|exc] w1]; cbn in *; [|done].
  etrans; [exact Hm|]. by eapply Hf.
Qed.

Lemma mkdtemp_returns (e : env) (prefix : string) (w w' : world) (d : pypath) :
  mkdtemp e prefix w = (Ok d, w') →
  d = AbsP (tempdir e ++ [prefix +:+ temp_suffix e]).
Proof.
  unfold mkdtemp. cbn zeta. repeat case_match; congruence.
Qed.

Section publish_frames.
Context (P : event → bool) (R : relation world) `{!Transitive R}.
Context (e : env) (lib_id : libid) (version platforms : json).
Context (kwargs : list (string * json)).
Hypothesis Hlocal : ∀ ev, local_event ev = true → P ev = true.
Hypothesis Hclone : ∀ branch,
  branch = branch_of lib_id ∨ branch = "master" →
  P (GitClone (LIBBUILD_REPO_URI e) (checkout_dir e lib_id) branch true 1) = true.
Hypothesis Horphan : P (GitCheckout (branch_of lib_id) true) = true.
Hypothesis HR : ∀ w w', keeps_remote P w w' → R w w'.
Hypothesis Hstage : ∀ r version_filename,
  steps R (stage_and_push e r lib_id (branch_of lib_id) version_filename
             version platforms).

Lemma steps_update_checkout_frame (r : repo) (d : pypath) :
  steps R (update_checkout e r lib_id (branch_of lib_id) d version platforms kwargs).
Proof.
  assert (Reflexive R) as Hrefl by (intros w; apply HR; reflexivity).
  unfold update_checkout.
  apply (steps_bind R).
  { apply (steps_mono (keeps_remote P)); [done|by apply keeps_chdir]. }
  intros _. apply (steps_bind R).
  { apply (steps_mono (keeps_remote P)); [done|by apply keeps_staged_version_gate]. }
  intros g. destruct g; [apply (steps_ret R)|apply Hstage].
Qed.

Lemma steps_publish_body_frame :
  steps R (publish_body e lib_id (branch_of lib_id) (AbsP (checkout_dir e lib_id))
             version platforms kwargs).
Proof.
  assert (Reflexive R) as Hrefl by (intros w; apply HR; reflexivity).
  unfold publish_body. apply (steps_bind R).
  - apply (steps_mono (keeps_remote P)); [done|].
    apply keeps_clone_library_branch; [done|..|done].
    + apply Hclone. by left.
    + apply Hclone. by right.
  - intros r. apply steps_update_checkout_frame.
Qed.

Lemma steps_think_of_name_later_frame :
  steps R (think_of_name_later e lib_id version platforms kwargs).
Proof.
  assert (Reflexive R) as Hrefl by (intros w; apply HR; reflexivity).
  unfold think_of_name_later.
  apply (steps_bind R).
  { apply (steps_mono (keeps_remote P)); [done|by apply keeps_getcwd]. }
  intros original. apply (steps_bind_with R).
  { apply (steps_mono (keeps_remote P)); [done|by apply keeps_mkdtemp]. }
  intros w d w' ->%mkdtemp_returns. apply steps_try_finally; [done| |].
  - apply (steps_try_except R); [apply steps_publish_body_frame|].
    intros exc.
    apply (steps_mono (keeps_remote P)); [done|by apply keeps_logger_exception].
  - apply (steps_bind R).
    + apply (steps_mono (keeps_remote P)); [done|by apply keeps_chdir].
    + intros _. apply (steps_mono (keeps_remote P)); [done|by apply keeps_rmtree].
Qed.
End publish_frames.

Lemma expected_event_local (e : env) (lib_id : libid) (ev : event) :
  local_event ev = true → expected_event e lib_id ev = true.
Proof. by destruct ev. Qed.

Lemma expected_event_clone (e : env) (lib_id : libid) (branch : string) :
  branch = branch_of lib_id ∨ branch = "master" →
  expected_event e lib_id
    (GitClone (LIBBUILD_REPO_URI e) (checkout_dir e lib_id) branch true 1) = true.
Proof.
  intros Hbranch. cbn. rewrite String.eqb_refl, bool_decide_eq_true_2 by done.
  destruct Hbranch as [-> | ->].
  - by rewrite String.eqb_refl.
  - rewrite (String.eqb_refl "master"). by rewrite orb_true_r.
Qed.

Lemma expected_event_push (e : env) (lib_id : libid) :
  expected_event e lib_id (GitPush (branch_of lib_id) true) = true.
Proof. cbn. by rewrite String.eqb_refl. Qed.

Lemma expected_event_orphan (e : env) (lib_id : libid) :
  expected_event e lib_id (GitCheckout (branch_of lib_id) true) = true.
Proof. cbn. by rewrite String.eqb_refl. Qed.

Lemma updates_commit_and_push (P : event → bool) (e : env) (r : repo)
    (branch : string) (version : json) (example_files : list pypath) :
  (∀ paths, P (GitAdd paths) = true) → (∀ message, P (GitCommit message) = true) →
  P (GitPush branch true) = true →
  steps (updates_branch branch P)
    (commit_and_push e r branch version example_files).
Proof.
  intros Hadd Hcommit Hpush. unfold commit_and_push.
  set (U := updates_branch branch P).
  apply (steps_bind U).
  { apply (steps_mono (keeps_remote P)); [apply keeps_remote_updates|].
    by apply keeps_index_add. }
  intros _. apply (steps_bind U); [apply (steps_lift U)|]. intros name.
  apply (steps_bind U); [apply (steps_lift U)|]. intros message.
  apply (steps_bind U).
  { apply (steps_mono (keeps_remote P)); [apply keeps_remote_updates|].
    by apply keeps_index_commit. }
  intros _. by apply updates_remote_push.
Qed.

Lemma updates_stage_and_push (P : event → bool) (e : env) (r : repo)
    (lib_id : libid) (branch : string) (version_filename : pypath)
    (version platforms : json) :
  (∀ ev, local_event ev = true → P ev = true) →
  (∀ paths, P (GitAdd paths) = true) → (∀ message, P (GitCommit message) = true) →
  P (GitPush branch true) = true →
  steps (updates_branch branch P)
    (stage_and_push e r lib_id branch version_filename version platforms).
Proof.
  intros Hlocal Hadd Hcommit Hpush. unfold stage_and_push.
  set (U := updates_branch branch P).
  assert (∀ {A} (m : M A), steps (keeps_remote P) m → steps U m) as Hkeeps.
  { intros A m. apply steps_mono, keeps_remote_updates. }
  apply (steps_bind U); [by apply Hkeeps, keeps_open_w|]. intros f.
  apply (steps_bind U); [by apply Hkeeps, keeps_write|]. intros _.
  apply (steps_bind U); [by apply Hkeeps, keeps_stage_examples|]. intros files.
  apply (steps_bind U); [by apply Hkeeps, keeps_write_travis_config|]. intros _.
  by apply updates_commit_and_push.
Qed.

Lemma steps_updates_one_branch (e : env) (lib_id : libid)
    (version platforms : json) (kwargs : list (string * json)) :
  steps (updates_branch (branch_of lib_id) (expected_event e lib_id))
    (think_of_name_later e lib_id version platforms kwargs).
Proof.
  apply (steps_think_of_name_later_frame (expected_event e lib_id)
           (updates_branch (branch_of lib_id) (expected_event e lib_id))).
  - apply expected_event_local.
  - apply expected_event_clone.
  - apply expected_event_orphan.
  - apply keeps_remote_updates.
  - intros r version_filename. apply updates_stage_and_push.
    + apply expected_event_local.
    + done.
    + done.
    + apply expected_event_push.
Qed.

(** X7: what [think_of_name_later] does to the CI repository, for every
    library, version, list of platforms and keyword arguments, in every
    state and whatever fails.  Of the branches of the remote only
    [library-<id>] can differ after the call.  The calls to git are shallow
    single-branch clones of that branch or of [master], from the configured
    repository into the directory made by [mkdtemp]; the making of that
    branch; staging; commits; and pushes to that branch.  The registry is
    not asked. *)
Theorem think_of_name_later_updates_one_branch (e : env) (lib_id : libid)
    (version platforms : json) (kwargs : list (string * json)) (w : world) :
  updates_branch (branch_of lib_id) (expected_event e lib_id) w
    (think_of_name_later e lib_id version platforms kwargs w).2.
Proof. apply steps_updates_one_branch. Qed.




(** ** Failures before the [try] *)

(** X9: [getcwd] and [mkdtemp] are called before the [try]: when the
    working directory of the process is gone, or the directory for
    temporary files is not there, the error is not logged but leaves
    [think_of_name_later] as an [OSError].  Nothing has been made by then:
    the file system, the remote and the working directory are as before,
    git is not called, and the [finally] block does not run. *)
Theorem think_of_name_later_entry_failure (e : env) (lib_id : libid)
    (version platforms : json) (kwargs : list (string * json)) (w : world) :
  fs w !! cwd w ≠ Some NDir ∨ fs w !! tempdir e ≠ Some NDir →
  ∃ code w',
    think_of_name_later e lib_id version platforms kwargs w
    = (Raise (OSError code), w') ∧
    cwd w' = cwd w ∧ fs w' = fs w ∧ remote w' = remote w ∧
    (trace w' = trace w ∨
     trace w' = trace w ++ [FsMkdtemp (checkout_dir e lib_id)]).
Proof.
  intros Hbad. unfold think_of_name_later, bind at 1, getcwd.
  destruct (fs w !! cwd w) as [[x|]|] eqn:Hcwd.
  - exists ENOENT, w. repeat split; by left.
  - destruct Hbad as [?|Htmp]; [done|].
    unfold bind, mkdtemp. cbn zeta. fold (checkout_dir e lib_id).
    destruct (fs w !! tempdir e) as [[x|]|] eqn:Htemp; [|done|].
    + eexists ENOTDIR, _. split; [reflexivity|]. repeat split; by right.
    + eexists ENOENT, _. split; [reflexivity|]. repeat split; by right.
  - exists ENOENT, w. repeat split; by left.
Qed.

Lemma think_of_name_later_entry_failure_witness :
  ∃ code w',
    think_of_name_later sample_env (IdInt 75) (sample_version "1.0")
      (JArr [JStr "atmelavr"]) [] lost_world
    = (Raise (OSError code), w') ∧
    cwd w' = cwd lost_world ∧ fs w' = fs lost_world ∧
    remote w' = remote lost_world ∧
    (trace w' = trace lost_world ∨
     trace w' = trace lost_world ++ [FsMkdtemp (checkout_dir sample_env (IdInt 75))]).
Proof.
  apply (think_of_name_later_entry_failure sample_env (IdInt 75)
           (sample_version "1.0") (JArr [JStr "atmelavr"]) [] lost_world).
  left. vm_compute. discriminate.
Defined.

(** ** Publishing by id *)

(** X10: what [think_of_name_later_by_id] does outside the process, in
    every state and whatever the registry answers: its first call is the
    request for [http://api.platformio.org/lib/info/<id>], and it is the
    only request; the calls to git that follow are those of
    [think_of_name_later] for this library, and of the branches of the
    remote only [library-<id>] can differ afterwards. *)
Theorem think_of_name_later_by_id_updates_one_branch (e : env) (lib_id : libid)
    (w : world) :
  (∀ b, b ≠ branch_of lib_id →
     remote (think_of_name_later_by_id e lib_id w).2 !! b = remote w !! b) ∧
  ∃ evs,
    trace (think_of_name_later_by_id e lib_id w).2
    = trace w ++ HttpGet (info_url lib_id) :: evs ∧
    Forall (λ ev, expected_event e lib_id ev = true) evs.
Proof.
  set (U := updates_branch (branch_of lib_id) (expected_event e lib_id)).
  assert (∀ r, steps U
            (info <- lift (response_json r) ;;
             version <- lift (py_getitem info "version") ;;
             platforms <- lift (py_getitem info "platforms") ;;
             think_of_name_later e lib_id version platforms [])) as Hrest.
  { intros r. apply (steps_bind U); [apply (steps_lift U)|]. intros info.
    apply (steps_bind U); [apply (steps_lift U)|]. intros version.
    apply (steps_bind U); [apply (steps_lift U)|]. intros platforms.
    intros w1. apply steps_updates_one_branch. }
  assert (http_get e (info_url lib_id) w
          = (requests_get e (info_url lib_id), record (HttpGet (info_url lib_id)) w))
    as Hget by done.
  unfold think_of_name_later_by_id.
  destruct (requests_get e (info_url lib_id)) as [r|exc].
  - rewrite (bind_ok _ _ _ _ _ Hget).
    destruct (Hrest r (record (HttpGet (info_url lib_id)) w)) as [Hr (evs & Ht & Hevs)].
    split; [exact Hr|]. exists evs. split; [|done].
    rewrite Ht. cbn. by rewrite <- app_assoc.
  - rewrite (bind_raise _ _ _ _ _ Hget).
    split; [done|]. exists []. by split.
Qed.

(** X11: [think_of_name_later_by_id] never forces an update: it passes no
    keyword argument on.  When the registry answers with the version that
    is staged on the branch of the library, the call asks the registry,
    clones the branch, compares, and stops there: no file is written,
    nothing is staged, committed or pushed, and the file system and the
    remote are as before. *)
Theorem think_of_name_later_by_id_never_forces (e : env) (lib_id : libid)
    (w : world) (resp : response) (info version platforms staged : json)
    (t : tree) :
  requests_get e (info_url lib_id) = Ok resp →
  response_json resp = Ok info →
  py_getitem info "version" = Ok version →
  py_getitem info "platforms" = Ok platforms →
  fs_wf (fs w) → entry_ok e lib_id w →
  clone_fault e (branch_of lib_id) = None →
  remote w !! branch_of lib_id = Some t →
  t !! [VERSION_FILENAME] = Some (NFile (CJson staged)) →
  py_eq version staged = true →
  think_of_name_later_by_id e lib_id w
  = (Ok (),
     World (cwd w) (fs w) (remote w) t (Some t)
       (trace w ++
        [ HttpGet (info_url lib_id);
          FsMkdtemp (checkout_dir e lib_id);
          LogDebug ("Cloning branch " +:+ branch_of lib_id);
          GitClone (LIBBUILD_REPO_URI e) (checkout_dir e lib_id)
            (branch_of lib_id) true 1;
          LogInfo ("Cloned into " +:+ path_str (AbsP (checkout_dir e lib_id)));
          LogInfo skip_message;
          FsRmtree (checkout_dir e lib_id) ])).
Proof.
  intros Hget Hjson Hversion Hplatforms Hwf Hentry Hfault Hbranch Hfile Heq.
  unfold think_of_name_later_by_id.
  unfold bind at 1. unfold http_get. rewrite Hget.
  unfold bind at 1. unfold lift at 1. rewrite Hjson.
  unfold bind at 1. unfold lift at 1. rewrite Hversion.
  unfold bind at 1. unfold lift at 1. rewrite Hplatforms.
  rewrite (think_of_name_later_skips e lib_id version platforms staged [] t
             (record (HttpGet (info_url lib_id)) w)); try done.
  cbn. by rewrite <- app_assoc.
Qed.

Lemma think_of_name_later_by_id_never_forces_witness :
  (think_of_name_later_by_id stale_registry_env (IdInt 75) staged_world).1 = Ok () ∧
  remote (think_of_name_later_by_id stale_registry_env (IdInt 75) staged_world).2
  = remote staged_world ∧
  events_since staged_world
    (think_of_name_later_by_id stale_registry_env (IdInt 75) staged_world).2
  = [ HttpGet "http://api.platformio.org/lib/info/75";
      FsMkdtemp ["tmp"; "pioapi-libbuild-75-a1b2"];
      LogDebug "Cloning branch library-75";
      GitClone "https://example.org/ci.git" ["tmp"; "pioapi-libbuild-75-a1b2"]
        "library-75" true 1;
      LogInfo "Cloned into /tmp/pioapi-libbuild-75-a1b2";
      LogInfo skip_message;
      FsRmtree ["tmp"; "pioapi-libbuild-75-a1b2"] ].
Proof.
  assert (fs_wf (fs staged_world)) as Hwf by sample_wf.
  assert (entry_ok stale_registry_env (IdInt 75) staged_world) as Hentry
    by sample_entry.
  assert (remote staged_world !! branch_of (IdInt 75) = Some sample_staged)
    as Hbranch by apply lookup_insert_eq.
  assert (sample_staged !! [VERSION_FILENAME]
          = Some (NFile (CJson (sample_version "0.9")))) as Hfile
    by (vm_compute; reflexivity).
  rewrite (think_of_name_later_by_id_never_forces stale_registry_env (IdInt 75)
             staged_world
             (Response (CJson (JObj [ ("version", sample_version "0.9");
                                      ("platforms", JArr [JStr "atmelavr"]) ])))
             (JObj [ ("version", sample_version "0.9");
                     ("platforms", JArr [JStr "atmelavr"]) ])
             (sample_version "0.9") (JArr [JStr "atmelavr"])
             (sample_version "0.9") sample_staged
             eq_refl eq_refl eq_refl eq_refl Hwf Hentry eq_refl Hbranch Hfile
             eq_refl).
  split; [reflexivity|]. split; [reflexivity|].
  unfold events_since. cbn [snd trace]. rewrite drop_app_length. reflexivity.
Defined.

(** ** The examples, when there are none saved *)

(** X12: [stage_examples] looks at the saved examples only after it has
    cleared the checkout.  When the directory of the saved examples of the
    library does not exist, [listdir] raises [OSError]; by then
    [examples/] of the checkout has been removed with all it held and made
    again, empty. *)
Theorem stage_examples_missing_source (e : env) (lib_id : libid) (w : world) :
  fs_wf (fs w) →
  fs w !! cwd w = Some NDir →
  is_file (fs w !! (cwd w ++ ["examples"])) = false →
  fs w !! get_libexample_dir e lib_id = None →
  get_libexample_dir e lib_id ≠ cwd w ++ ["examples"] →
  ∃ w',
    stage_examples e lib_id w = (Raise (OSError ENOENT), w') ∧
    fs w' !! (cwd w ++ ["examples"]) = Some NDir ∧
    (∀ p, strictly_under (cwd w ++ ["examples"]) p → fs w' !! p = None) ∧
    (∀ p, ¬ (cwd w ++ ["examples"]) `prefix_of` p → fs w' !! p = fs w !! p) ∧
    trace w' = trace w ++ removal (fs w) (cwd w ++ ["examples"]) ++
               [FsMkdir (cwd w ++ ["examples"])].
Proof.
  intros Hwf Hcwd Hnofile0 Hsrc Hne.
  assert (∀ x, fs w !! (cwd w ++ ["examples"]) ≠ Some (NFile x)) as Hnofile.
  { intros x Hx. by rewrite Hx in Hnofile0. }
  set (c := cwd w) in *. set (src := get_libexample_dir e lib_id) in *.
  set (ex := c ++ ["examples"]) in *.
  destruct (examples_cleared w Hwf Hnofile) as (w1 & Hrun1 & Hc1 & Hgone & Hkept & Htr1).
  fold c ex in Hrun1, Hc1, Hgone, Hkept, Htr1.
  unfold stage_examples, examples_directory.
  rewrite (bind_ok _ _ w w (bool_decide (is_Some (fs w !! ex)))) by done.
  rewrite (bind_ok _ _ _ _ _ Hrun1).
  assert (mkdir (RelP ["examples"]) w1
          = (Ok (), set_fs (<[ex := NDir]> (fs w1)) (record (FsMkdir ex) w1)))
    as Hmkdir.
  { rewrite (mkdir_ok _ c); cbn [resolve]; rewrite ?Hc1; fold ex.
    - done.
    - by apply Hgone.
    - apply parent_snoc.
    - rewrite Hkept by apply snoc_not_prefix. done. }
  rewrite (bind_ok _ _ _ _ _ Hmkdir).
  set (w2 := set_fs _ _).
  assert (fs w2 !! src = None) as Hsrc2.
  { cbn. rewrite lookup_insert_ne by done.
    destruct (decide (ex `prefix_of` src)) as [Hpre|Hpre].
    - by apply Hgone.
    - by rewrite Hkept. }
  fold src. exists w2. split.
  { apply bind_raise. unfold listdir. cbn zeta. cbn [resolve]. by rewrite Hsrc2. }
  split; [cbn; by rewrite lookup_insert_eq|].
  split; [|split].
  - intros p [Hpre Hp]. cbn. rewrite lookup_insert_ne by done. by apply Hgone.
  - intros p Hp. cbn. rewrite lookup_insert_ne.
    + by apply Hkept.
    + intros <-. by apply Hp.
  - cbn. rewrite Htr1. by rewrite <- app_assoc.
Qed.

Lemma stage_examples_missing_source_witness :
  ∃ w',
    stage_examples sample_env (IdInt 76) checkout_world
    = (Raise (OSError ENOENT), w') ∧
    fs w' !! ["tmp"; "co"; "examples"] = Some NDir ∧
    fs w' !! ["tmp"; "co"; "examples"; "old.ino"] = None.
Proof.
  assert (fs_wf (fs checkout_world)) as Hwf by sample_wf.
  assert (fs checkout_world !! cwd checkout_world = Some NDir) as Hcwd
    by (vm_compute; reflexivity).
  assert (is_file (fs checkout_world !! (cwd checkout_world ++ ["examples"])) = false)
    as Hex by (vm_compute; reflexivity).
  assert (fs checkout_world !! get_libexample_dir sample_env (IdInt 76) = None)
    as Hsrc by (vm_compute; reflexivity).
  assert (get_libexample_dir sample_env (IdInt 76) ≠ cwd checkout_world ++ ["examples"])
    as Hne by (vm_compute; discriminate).
  destruct (stage_examples_missing_source sample_env (IdInt 76) checkout_world
              Hwf Hcwd Hex Hsrc Hne)
    as (w' & Hrun & Hdir & Hempty & _).
  exists w'. split; [exact Hrun|]. split; [exact Hdir|].
  apply Hempty. split; [by exists ["old.ino"]|discriminate].
Defined.

(** ** A marker that cannot be read *)

Lemma update_checkout_unreadable (d : path) (e : env) (lib_id : libid)
    (branch : string) (version platforms : json) (s : string)
    (kwargs : list (string * json)) (w : world) :
  fs w !! d = Some NDir →
  fs w !! (d ++ [VERSION_FILENAME]) = Some (NFile (CText s)) →
  update_checkout e (Repo d) lib_id branch (AbsP d) version platforms kwargs w
  = (Raise ValueError, set_cwd d w).
Proof.
  intros Hd Hfile.
  unfold update_checkout, staged_version_gate, bind at 1 2 3 4, chdir, exists_,
    json_load.
  cbv beta iota zeta. cbn [working_tree_dir join resolve app]. rewrite Hd.
  cbv beta iota zeta. cbn [fs set_cwd cwd]. rewrite Hfile.
  rewrite bool_decide_eq_true_2 by done.
  cbv beta iota zeta. cbn [fs set_cwd cwd]. by rewrite Hfile.
Qed.

(** X13: when [_version.json] on the branch of the library is not a JSON
    document, [load] raises [ValueError] before [force] is looked at: the
    call logs the error and returns, and nothing is written, staged,
    committed or pushed, with or without [force].  The call cannot repair
    such a branch. *)
Theorem think_of_name_later_unreadable_marker (e : env) (lib_id : libid)
    (version platforms : json) (kwargs : list (string * json))
    (t : tree) (s : string) (w : world) :
  fs_wf (fs w) → entry_ok e lib_id w →
  clone_fault e (branch_of lib_id) = None →
  remote w !! branch_of lib_id = Some t →
  t !! [VERSION_FILENAME] = Some (NFile (CText s)) →
  think_of_name_later e lib_id version platforms kwargs w
  = (Ok (),
     World (cwd w) (fs w) (remote w) t (Some t)
       (trace w ++
        [ FsMkdtemp (checkout_dir e lib_id);
          LogDebug ("Cloning branch " +:+ branch_of lib_id);
          GitClone (LIBBUILD_REPO_URI e) (checkout_dir e lib_id)
            (branch_of lib_id) true 1;
          LogInfo ("Cloned into " +:+ path_str (AbsP (checkout_dir e lib_id)));
          LogException ValueError;
          FsRmtree (checkout_dir e lib_id) ])).
Proof.
  intros Hwf Hentry Hfault Hbranch Hfile.
  pose proof Hentry as (_ & _ & Hfresh).
  set (d := checkout_dir e lib_id) in *.
  pose proof (clone_existing_branch e (branch_of lib_id) d t
                (at_entry e lib_id w) Hfault Hbranch) as Hclone.
  assert (publish_body e lib_id (branch_of lib_id) (AbsP d) version platforms
            kwargs (at_entry e lib_id w)
          = (Raise ValueError,
             set_cwd d
               (World (cwd (at_entry e lib_id w))
                  (fs (at_entry e lib_id w) ∪ place d t)
                  (remote (at_entry e lib_id w)) t (Some t)
                  (trace (at_entry e lib_id w) ++
                   [ LogDebug ("Cloning branch " +:+ branch_of lib_id);
                     GitClone (LIBBUILD_REPO_URI e) d (branch_of lib_id) true 1;
                     LogInfo ("Cloned into " +:+ path_str (AbsP d)) ]))))
    as Hbody.
  { unfold publish_body. rewrite (bind_ok _ _ _ _ _ Hclone).
    apply update_checkout_unreadable with s.
    - apply checkout_root.
    - cbn [fs]. unfold at_entry. cbn [fs set_fs]. fold d.
      by rewrite (checkout_lookup (fs w) t d [VERSION_FILENAME] Hwf Hfresh). }
  rewrite (think_of_name_later_spec e lib_id version platforms kwargs w Hwf Hentry
             _ _ Hbody).
  cbn. by rewrite <- !app_assoc.
Qed.

Lemma think_of_name_later_unreadable_marker_witness :
  (think_of_name_later sample_env (IdInt 75) (sample_version "1.0")
     (JArr [JStr "atmelavr"]) [("force", JBool true)] conflicted_world).1 = Ok () ∧
  remote (think_of_name_later sample_env (IdInt 75) (sample_version "1.0")
            (JArr [JStr "atmelavr"]) [("force", JBool true)] conflicted_world).2
  = remote conflicted_world ∧
  events_since conflicted_world
    (think_of_name_later sample_env (IdInt 75) (sample_version "1.0")
       (JArr [JStr "atmelavr"]) [("force", JBool true)] conflicted_world).2
  = [ FsMkdtemp ["tmp"; "pioapi-libbuild-75-a1b2"];
      LogDebug "Cloning branch library-75";
      GitClone "https://example.org/ci.git" ["tmp"; "pioapi-libbuild-75-a1b2"]
        "library-75" true 1;
      LogInfo "Cloned into /tmp/pioapi-libbuild-75-a1b2";
      LogException ValueError;
      FsRmtree ["tmp"; "pioapi-libbuild-75-a1b2"] ].
Proof.
  assert (fs_wf (fs conflicted_world)) as Hwf by sample_wf.
  assert (entry_ok sample_env (IdInt 75) conflicted_world) as Hentry
    by sample_entry.
  assert (remote conflicted_world !! branch_of (IdInt 75) = Some conflicted_staged)
    as Hbranch by apply lookup_insert_eq.
  assert (conflicted_staged !! [VERSION_FILENAME]
          = Some (NFile (CText "<<<<<<< HEAD"))) as Hfile
    by apply lookup_insert_eq.
  rewrite (think_of_name_later_unreadable_marker sample_env (IdInt 75)
             (sample_version "1.0") (JArr [JStr "atmelavr"])
             [("force", JBool true)] conflicted_staged "<<<<<<< HEAD"
             conflicted_world Hwf Hentry eq_refl Hbranch Hfile).
  split; [reflexivity|]. split; [reflexivity|].
  unfold events_since. cbn [snd trace]. rewrite drop_app_length. reflexivity.
Defined.

(** ** Trees *)

Lemma fs_wf_insert_file (m : tree) (f up : path) (c : content) :
  fs_wf m → parent f = Some up → m !! up = Some NDir →
  is_dir (m !! f) = false → fs_wf (<[f := NFile c]> m).
Proof.
  intros Hwf Hparent Hup Hf.
  assert (up ≠ f) as Hne.
  { intros ->. by rewrite Hup in Hf. }
  apply map_Forall_insert_2.
  - unfold parent_is_dir. rewrite Hparent.
    by rewrite lookup_insert_ne, Hup by done.
  - intros p x Hp. specialize (Hwf p x Hp). cbn in Hwf.
    unfold parent_is_dir in *. destruct (parent p) as [up'|]; [|done].
    destruct (decide (up' = f)) as [->|Hother].
    + destruct (m !! f) as [[|]|]; done.
    + by rewrite lookup_insert_ne.
Qed.

Lemma lookup_place_Some (d p : path) (t : tree) (x : node) :
  place d t !! p = Some x → ∃ k, p = d ++ k ∧ t !! k = Some x.
Proof.
  intros Hp. destruct (decide (d `prefix_of` p)) as [[k ->]|Hout].
  - exists k. split; [done|]. by rewrite <- lookup_place_under with (d := d).
  - by rewrite lookup_place_outside in Hp.
Qed.

(** The file system after a clone into a fresh directory is a tree. *)
Lemma fs_wf_checkout (m t : tree) (d up : path) :
  fs_wf m → m !! d = None → parent d = Some up → m !! up = Some NDir →
  tree_wf t → fs_wf (<[d := NDir]> m ∪ place d t).
Proof.
  intros Hwf Hd Hparent Hup Ht p x Hp. cbn.
  assert (∀ q, q ≠ d → m !! q = Some NDir →
            (<[d := NDir]> m ∪ place d t) !! q = Some NDir) as Hleft.
  { intros q Hq Hdir. apply lookup_union_Some_l. by rewrite lookup_insert_ne. }
  assert (∀ q, m !! q = Some NDir → q ≠ d) as Hnot.
  { intros q Hq ->. by rewrite Hd in Hq. }
  apply lookup_union_Some_raw in Hp as [Hp|[_ Hp]].
  - destruct (decide (p = d)) as [->|Hne].
    + unfold parent_is_dir. rewrite Hparent. rewrite Hleft; [done| |done].
      by apply Hnot.
    + rewrite lookup_insert_ne in Hp by done.
      specialize (Hwf p x Hp). cbn in Hwf. unfold parent_is_dir in *.
      destruct (parent p) as [up'|]; [|done].
      destruct (m !! up') as [[|]|] eqn:Hup'; try done.
      rewrite Hleft; [done| |done]. by apply Hnot.
  - apply lookup_place_Some in Hp as (k & -> & Hk).
    specialize (Ht k x Hk). cbn in Ht. unfold entry_wf in Ht.
    destruct (parent k) as [upk|] eqn:Hupk; [|done].
    apply parent_Some in Hupk as [n ->].
    unfold parent_is_dir. rewrite app_assoc, parent_snoc.
    destruct upk as [|y upk].
    + rewrite app_nil_r. by rewrite checkout_root.
    + rewrite checkout_lookup by done.
      by destruct (t !! (y :: upk)) as [[|]|].
Qed.

(** ** What is staged *)

Lemma add_entries_examples (wt : path) (files : tree) (names : list string)
    (rest : list pypath) :
  (∀ n, n ∈ names → ∃ c, files !! (wt ++ ["examples"; n]) = Some (NFile c)) →
  ∀ idx, ∃ idx1,
    add_entries wt files (example_paths names ++ rest) idx
    = add_entries wt files rest idx1 ∧
    (∀ n, n ∈ names → idx1 !! ["examples"; n] = files !! (wt ++ ["examples"; n])) ∧
    (∀ p, p ≠ ["examples"] → (∀ n, n ∈ names → p ≠ ["examples"; n]) →
       idx1 !! p = idx !! p).
Proof.
  induction names as [|n names IH]; intros Hfiles idx.
  - exists idx. split; [done|]. split; [|done]. by intros n ?%elem_of_nil.
  - destruct (Hfiles n) as [c Hc]; [by left|].
    destruct (IH (λ m Hm, Hfiles m (proj2 (elem_of_cons _ _ _) (or_intror Hm)))
                (<[["examples"; n] := NFile c]> (add_dirs ["examples"; n] idx)))
      as (idx1 & Hrun & Hin & Hout).
    exists idx1. split; [|split].
    + cbn [example_paths fmap list_fmap app add_entries]. by rewrite Hc.
    + intros m Hm. destruct (decide (m ∈ names)) as [Hold|Hnew].
      * by apply Hin.
      * apply elem_of_cons in Hm as [->|?]; [|done].
        rewrite Hout, Hc; [by rewrite lookup_insert_eq|done|].
        intros m Hm [= ->]. done.
    + intros p Hp Hnames. rewrite Hout.
      * rewrite lookup_insert_ne.
        -- unfold add_dirs. cbn. by rewrite lookup_insert_ne.
        -- intros <-. apply (Hnames n); [by left|done].
      * done.
      * intros m Hm. apply Hnames. by right.
Qed.

(** What [index.add] leaves in the index, for the paths that
    [think_of_name_later] gives it: the files named, as they are in the
    working tree, over what the index held. *)
Lemma add_entries_publish (wt : path) (files : tree) (names : list string)
    (cv ct : content) (idx : tree) :
  (∀ n, n ∈ names → ∃ c, files !! (wt ++ ["examples"; n]) = Some (NFile c)) →
  files !! (wt ++ [VERSION_FILENAME]) = Some (NFile cv) →
  files !! (wt ++ [TRAVIS_FILENAME]) = Some (NFile ct) →
  ∃ idx',
    add_entries wt files
      (example_paths names ++ [RelP [VERSION_FILENAME]; RelP [TRAVIS_FILENAME]]) idx
    = Ok idx' ∧
    idx' !! [VERSION_FILENAME] = Some (NFile cv) ∧
    idx' !! [TRAVIS_FILENAME] = Some (NFile ct) ∧
    (∀ n, n ∈ names → idx' !! ["examples"; n] = files !! (wt ++ ["examples"; n])) ∧
    (∀ p, p ≠ [VERSION_FILENAME] → p ≠ [TRAVIS_FILENAME] → p ≠ ["examples"] →
       (∀ n, n ∈ names → p ≠ ["examples"; n]) → idx' !! p = idx !! p).
Proof.
  intros Hfiles Hv Ht.
  destruct (add_entries_examples wt files names
              [RelP [VERSION_FILENAME]; RelP [TRAVIS_FILENAME]] Hfiles idx)
    as (idx1 & Hrun & Hin & Hout).
  exists (<[[TRAVIS_FILENAME] := NFile ct]> (<[[VERSION_FILENAME] := NFile cv]> idx1)).
  split; [|split; [|split; [|split]]].
  - rewrite Hrun. cbn. by rewrite Hv, Ht.
  - rewrite lookup_insert_ne by done. by rewrite lookup_insert_eq.
  - by rewrite lookup_insert_eq.
  - intros n Hn. rewrite !lookup_insert_ne by done. by apply Hin.
  - intros p Hpv Hpt Hpe Hnames. rewrite !lookup_insert_ne by done.
    by apply Hout.
Qed.

(** ** Publishing a new version *)

Lemma string_app_nil_r (s : string) : s +:+ EmptyString = s.
Proof.
  induction s as [|c s IH]; [done|].
  change (String c (s +:+ EmptyString) = String c s). by rewrite IH.
Qed.

Lemma format_commit_message (s : string) :
  py_format COMMIT_MESSAGE [("library_version", s)]
  = Ok ("Update library to version " +:+ s).
Proof.
  rewrite <- (string_app_nil_r s) at 2. vm_compute. reflexivity.
Qed.

Lemma world_eq (w w' : world) :
  cwd w = cwd w' → fs w = fs w' → remote w = remote w' → index w = index w' →
  head w = head w' → trace w = trace w' → w = w'.
Proof. destruct w, w'. cbn. by intros -> -> -> -> -> ->. Qed.

Lemma stage_and_push_ok (e : env) (lib_id : libid) (branch : string) (d : path)
    (version platforms name : json) (boards : string) (w : world) :
  cwd w = d → fs_wf (fs w) → fs w !! d = Some NDir →
  is_dir (fs w !! (d ++ [VERSION_FILENAME])) = false →
  is_file (fs w !! (d ++ ["examples"])) = false →
  is_dir (fs w !! (d ++ [TRAVIS_FILENAME])) = false →
  fs w !! get_libexample_dir e lib_id = Some NDir →
  ¬ d `prefix_of` get_libexample_dir e lib_id →
  (∀ n, fs w !! (get_libexample_dir e lib_id ++ [n]) ≠ Some NDir) →
  py_getitem version "name" = Ok name → board_flags platforms = Ok boards →
  add_fault e = None → commit_fault e = None →
  (∀ f, push_outcome e ≠ PushRaises f) →
  ∃ names idx w',
    stage_and_push e (Repo d) lib_id branch (AbsP (d ++ [VERSION_FILENAME]))
      version platforms w = (Ok (), w') ∧
    NoDup names ∧
    (∀ n, n ∈ names ↔ is_Some (fs w !! (get_libexample_dir e lib_id ++ [n]))) ∧
    remote w' = pushed (push_outcome e) branch idx (remote w) ∧
    index w' = idx ∧ head w' = Some idx ∧
    trace w' = trace w ++
      publish_events d (removal (fs w) (d ++ ["examples"])) names branch
        ("Update library to version " +:+ str_of_json e name) ∧
    idx !! [VERSION_FILENAME] = Some (NFile (CJson version)) ∧
    idx !! [TRAVIS_FILENAME]
    = Some (NFile (CText (travis_text (env_lines (example_paths names))
                            (str_of_json e name) (str_of_id lib_id) boards))) ∧
    (∀ n, n ∈ names →
       idx !! ["examples"; n] = fs w !! (get_libexample_dir e lib_id ++ [n])) ∧
    (∀ p, p ≠ [VERSION_FILENAME] → p ≠ [TRAVIS_FILENAME] → p ≠ ["examples"] →
       (∀ n, n ∈ names → p ≠ ["examples"; n]) → idx !! p = index w !! p).
Proof.
  intros Hcwd Hwf Hd Hvf Hex Htf Hsrc Hout Hfiles Hname Hboards Hadd Hcommit Hpush.
  set (src := get_libexample_dir e lib_id) in *.
  set (vf := d ++ [VERSION_FILENAME]) in *. set (tf := d ++ [TRAVIS_FILENAME]) in *.
  set (ex := d ++ ["examples"]) in *.
  assert (vf ≠ d) as Hvfd.
  { intros Heq. apply (snoc_not_prefix d VERSION_FILENAME). by fold vf; rewrite Heq. }
  assert (¬ ex `prefix_of` vf) as Hexvf.
  { intros [H|H]%prefix_snoc_inv; [by apply (snoc_not_prefix d "examples")|].
    by apply app_inv_head in H. }
  assert (¬ ex `prefix_of` tf) as Hextf.
  { intros [H|H]%prefix_snoc_inv; [by apply (snoc_not_prefix d "examples")|].
    by apply app_inv_head in H. }
  assert (¬ ex `prefix_of` d) as Hexd by apply snoc_not_prefix.
  assert (vf ≠ tf) as Hvftf by (intros H; by apply app_inv_head in H).
  assert (tf ≠ d) as Htfd.
  { intros Heq. apply (snoc_not_prefix d TRAVIS_FILENAME). by fold tf; rewrite Heq. }
  assert (src ≠ vf) as Hsrcvf.
  { intros Heq. apply Hout. rewrite Heq. by eexists. }
  assert (∀ n, src ++ [n] ≠ vf) as Hchildvf.
  { intros n Heq. apply app_inj_tail in Heq as [Heq _].
    apply Hout. by rewrite Heq. }
  (* the marker *)
  unfold stage_and_push.
  assert (open_w (AbsP vf) w
          = (Ok vf, set_fs (<[vf := NFile (CText EmptyString)]> (fs w))
                      (record (FsOpenW vf) w))) as Hopen.
  { apply (open_w_ok (AbsP vf) d); [done|apply parent_snoc|done]. }
  rewrite (bind_ok _ _ _ _ _ Hopen).
  set (wb := set_fs (<[vf := NFile (CJson version)]>
                       (<[vf := NFile (CText EmptyString)]> (fs w)))
               (record (FsOpenW vf) w)).
  rewrite (bind_ok _ _ _ wb ()) by done.
  assert (∀ p, p ≠ vf → fs wb !! p = fs w !! p) as Hb.
  { intros p Hp. cbn. by rewrite !lookup_insert_ne. }
  assert (fs wb !! vf = Some (NFile (CJson version))) as Hbvf.
  { cbn. by rewrite lookup_insert_eq. }
  assert (fs_wf (fs wb)) as Hwfb.
  { cbn [fs wb set_fs]. apply (fs_wf_insert_file _ vf d).
    - apply (fs_wf_insert_file _ vf d); [done|apply parent_snoc|done|done].
    - apply parent_snoc.
    - by rewrite lookup_insert_ne.
    - by rewrite lookup_insert_eq. }
  (* the examples *)
  destruct (stage_examples_replaces e lib_id wb) as
    (names & wc & Hrun & Hnodup & Hnames & Hcwdc & _ & Hcopy & _ & Hother & Htrc).
  { done. }
  { cbn [cwd wb set_fs record]. rewrite Hcwd, Hb; done. }
  { cbn [cwd wb set_fs record]. rewrite Hcwd. fold ex. rewrite Hb; [done|].
    intros Heq. apply Hexvf. by rewrite Heq. }
  { fold src. by rewrite Hb, Hsrc. }
  { cbn [cwd wb set_fs record]. by rewrite Hcwd. }
  { fold src. unfold only_files. apply Forall_forall. intros n _.
    rewrite Hb by apply Hchildvf.
    destruct (fs w !! (src ++ [n])) as [[|]|] eqn:Hn; try done.
    by destruct (Hfiles n). }
  fold src in Hnames, Hcopy. cbn [cwd wb set_fs record] in Hcwdc, Hcopy, Hother, Htrc.
  rewrite Hcwd in Hcwdc, Hcopy, Hother, Htrc. fold ex in Hother, Htrc.
  rewrite (bind_ok _ _ _ _ _ Hrun).
  destruct (steps_stage_examples d e lib_id wb) as (_ & Hrc & Hic & Hhc & _).
  { cbn. done. }
  rewrite Hrun in Hrc, Hic, Hhc. cbn [snd] in Hrc, Hic, Hhc.
  (* the configuration *)
  fold (example_paths names).
  set (text := travis_text (env_lines (example_paths names)) (str_of_json e name)
                 (str_of_id lib_id) boards).
  set (wd := set_fs (<[tf := NFile (CText text)]>
                       (<[tf := NFile (CText EmptyString)]> (fs wc)))
               (record (FsOpenW tf) wc)).
  assert (write_travis_config e lib_id version platforms (example_paths names) wc
          = (Ok (), wd)) as Htravis.
  { unfold write_travis_config. cbv zeta.
    rewrite (bind_ok _ _ wc wc boards) by (unfold lift; by rewrite Hboards).
    assert (open_w (RelP [TRAVIS_FILENAME]) wc
            = (Ok tf, set_fs (<[tf := NFile (CText EmptyString)]> (fs wc))
                        (record (FsOpenW tf) wc))) as Hopent.
    { rewrite (open_w_ok (RelP [TRAVIS_FILENAME]) d); cbn [resolve];
        rewrite ?Hcwdc; fold tf.
      - done.
      - rewrite Hother, Hb by done. done.
      - apply parent_snoc.
      - rewrite Hother, Hb by done. done. }
    rewrite (bind_ok _ _ _ _ _ Hopent).
    set (w1 := set_fs _ (record (FsOpenW tf) wc)).
    rewrite (bind_ok _ _ w1 w1 text); [done|].
    unfold lift. by rewrite (travis_config_text e lib_id version name). }
  rewrite (bind_ok _ _ _ _ _ Htravis).
  assert (∀ p, p ≠ tf → fs wd !! p = fs wc !! p) as Hdl.
  { intros p Hp. cbn. by rewrite !lookup_insert_ne. }
  (* the commit *)
  destruct (add_entries_publish d (fs wd) names (CJson version) (CText text)
              (index wd)) as (idx & Hidx & Hiv & Hit & Hin & Hkeep).
  { intros n Hn. rewrite Hdl, Hcopy.
    - apply Hnames in Hn as [[c|] Hn]; [by exists c|].
      rewrite Hb in Hn by apply Hchildvf. by destruct (Hfiles n).
    - intros Heq%(f_equal length). unfold tf in Heq.
      rewrite !length_app in Heq. cbn in Heq. lia. }
  { fold vf. rewrite Hdl, Hother, Hbvf by done. done. }
  { fold tf. cbn. by rewrite lookup_insert_eq. }
  exists names, idx.
  exists (set_remote (pushed (push_outcome e) branch idx (remote wd))
            (record (GitPush branch true)
               (set_head (Some idx)
                  (record (GitCommit ("Update library to version " +:+
                                      str_of_json e name))
                     (set_index idx
                        (record (GitAdd (path_str <$> (example_paths names ++
                                   [RelP [VERSION_FILENAME]; RelP [TRAVIS_FILENAME]])))
                           wd)))))).
  split.
  { unfold commit_and_push.
    assert (index_add e (Repo d)
              (example_paths names ++ [RelP [VERSION_FILENAME]; RelP [TRAVIS_FILENAME]])
              wd
            = (Ok (), set_index idx
                        (record (GitAdd (path_str <$> (example_paths names ++
                                   [RelP [VERSION_FILENAME]; RelP [TRAVIS_FILENAME]])))
                           wd))) as Hrunadd.
    { unfold index_add. cbn zeta. rewrite Hadd. cbn [working_tree_dir].
      by rewrite Hidx. }
    rewrite (bind_ok _ _ _ _ _ Hrunadd).
    rewrite (bind_ok _ _ _ _ name) by (unfold lift; by rewrite Hname).
    rewrite (bind_ok _ _ _ _ ("Update library to version " +:+ str_of_json e name))
      by (unfold lift; by rewrite format_commit_message).
    unfold bind, index_commit, remote_push. cbn zeta. rewrite Hcommit.
    destruct (push_outcome e) as [| |f] eqn:Ho; [done|done|by destruct (Hpush f)]. }
  assert (ex ≠ vf) as Hexne by (intros Heq; apply Hexvf; by rewrite Heq).
  split; [done|]. split.
  { intros n. by rewrite Hnames, Hb. }
  split; [cbn; by rewrite Hrc|]. split; [done|]. split; [done|]. split.
  { cbn. rewrite Htrc. unfold removal. rewrite Hb by done. cbn.
    unfold publish_events. fold vf ex tf. by rewrite <- !app_assoc. }
  split; [done|]. split; [done|]. split.
  - intros n Hn. rewrite Hin by done. rewrite Hdl, Hcopy.
    + apply Hb, Hchildvf.
    + intros Heq%(f_equal length). unfold tf in Heq.
      rewrite !length_app in Heq. cbn in Heq. lia.
  - intros p ????. rewrite Hkeep by done. cbn. by rewrite Hic.
Qed.

Lemma ends_line_snoc (s : string) : ends_line (s +:+ nl) = true.
Proof.
  induction s as [|c s IH]; [done|].
  change (String c s +:+ nl) with (String c (s +:+ nl)).
  destruct s as [|c' s]; [done|]. exact IH.
Qed.

(** The text that git leaves when the branch is missing is taken for what
    it is. *)
Lemma reports_missing_branch (d : path) (branch : string) :
  has_char "010" branch = false →
  reports_branch_not_found (Some (branch_not_found_stderr d branch)) branch
  = Ok true.
Proof.
  intros Hbranch.
  assert (branch_not_found_stderr d branch
          = (("Cloning into '" +:+ path_str (AbsP d) +:+ "'...") +:+ nl) +:+
            expected_message branch +:+ nl +:+ EmptyString) as ->.
  { unfold branch_not_found_stderr, expected_message.
    rewrite !string_app_assoc. reflexivity. }
  unfold reports_branch_not_found.
  rewrite second_to_last_line.
  - unfold rmap. cbn [rbind]. rewrite String.eqb_refl.
    match goal with
    | |- (if String.eqb ?s _ then _ else _) = _ =>
        destruct (String.eqb_spec s EmptyString) as [Heq|_]; [|done]
    end.
    apply (f_equal (has_char "010")) in Heq.
    rewrite !has_char_app in Heq. cbn in Heq.
    by rewrite !orb_true_r in Heq.
  - apply ends_line_snoc.
  - unfold expected_message. rewrite !has_char_app, Hbranch. reflexivity.
  - reflexivity.
Qed.

Lemma make_branch_ok (e : env) (branch : string) (d : path) (t : tree) (w : world) :
  clone_fault e "master" = None → checkout_fault e = None →
  remote w !! "master" = Some t →
  make_branch e branch d w
  = (Ok (Repo d),
     World (cwd w) (fs w ∪ place d t) (remote w) t None
       (trace w ++ [ LogDebug "Branch not found. Making one.";
                     GitClone (LIBBUILD_REPO_URI e) d "master" true 1;
                     GitCheckout branch true ])).
Proof.
  intros Hclone Horphan Hmaster. unfold make_branch.
  set (w2 := record (LogDebug "Branch not found. Making one.") w).
  rewrite (bind_ok _ _ w w2 ()) by done.
  set (w3 := set_head (Some t) (set_index t (set_fs (fs w2 ∪ place d t)
               (record (GitClone (LIBBUILD_REPO_URI e) d "master" true 1) w2)))).
  assert (shallow_clone_branch e "master" (AbsP d) (LIBBUILD_REPO_URI e) w2
          = (Ok (Repo d), w3)) as Hshallow.
  { unfold shallow_clone_branch, try_except, clone_from. cbn zeta.
    cbn [opt_branch opt_single_branch opt_depth resolve]. rewrite Hclone.
    replace (remote w2 !! "master") with (Some t). reflexivity. }
  rewrite (bind_ok _ _ _ _ _ Hshallow).
  set (w4 := set_head None (record (GitCheckout branch true) w3)).
  assert (git_checkout_orphan e branch w3 = (Ok (), w4)) as Hcheckout.
  { unfold git_checkout_orphan. cbn zeta. by rewrite Horphan. }
  rewrite (bind_ok _ _ _ _ _ Hcheckout). unfold ret. f_equal.
  apply world_eq; cbn; try done. by rewrite <- !app_assoc.
Qed.

Lemma clone_library_branch_succeeds (e : env) (lib_id : libid) (t : tree)
    (w : world) :
  git_works e →
  (remote w !! branch_of lib_id = None → has_char "010" (branch_of lib_id) = false) →
  cloned_tree (remote w) (branch_of lib_id) = Some t →
  ∃ h,
    clone_library_branch e (branch_of lib_id) (AbsP (checkout_dir e lib_id)) w
    = (Ok (Repo (checkout_dir e lib_id)),
       World (cwd w) (fs w ∪ place (checkout_dir e lib_id) t) (remote w) t h
         (trace w ++ clone_events e lib_id (remote w))).
Proof.
  intros (Hclone & Horphan & _) Hline Htree.
  set (d := checkout_dir e lib_id). set (branch := branch_of lib_id) in *.
  unfold cloned_tree in Htree. unfold clone_events. fold branch d.
  destruct (remote w !! branch) as [t'|] eqn:Hbranch.
  - injection Htree as ->. exists (Some t).
    by apply clone_existing_branch.
  - exists None.
    destruct (clone_library_branch_cases e branch d w) as (_ & _ & Hmissing & _).
    set (w1 := record (GitClone (LIBBUILD_REPO_URI e) d branch true 1)
                 (record (LogDebug ("Cloning branch " +:+ branch)) w)).
    specialize (Hmissing 128 (Some (branch_not_found_stderr d branch)) w1).
    rewrite reports_missing_branch in Hmissing by (by apply Hline).
    rewrite Hmissing.
    + rewrite (bind_ok _ _ _ _ _ (make_branch_ok e branch d t w1
                                    (Hclone _) Horphan Htree)).
      unfold cloned_into, bind, logger_info, ret. f_equal.
      apply world_eq; cbn; try done. by rewrite <- !app_assoc.
    + unfold first_clone, clone_from. cbn zeta. cbn [opt_branch resolve].
      rewrite Hclone. fold w1. replace (remote _ !! branch) with (@None tree).
      reflexivity.
Qed.

Lemma update_checkout_proceeds (d : path) (e : env) (lib_id : libid)
    (branch : string) (version platforms : json)
    (kwargs : list (string * json)) (w : world) :
  fs w !! d = Some NDir →
  match fs w !! (d ++ [VERSION_FILENAME]) with
  | None => true
  | Some (NFile (CJson staged)) =>
      negb (py_eq version staged && negb (force_flag kwargs))
  | Some _ => false
  end = true →
  update_checkout e (Repo d) lib_id branch (AbsP d) version platforms kwargs w
  = stage_and_push e (Repo d) lib_id branch (AbsP (d ++ [VERSION_FILENAME]))
      version platforms (set_cwd d w).
Proof.
  intros Hd Hgate.
  unfold update_checkout, bind at 1, chdir.
  cbv beta iota zeta. cbn [working_tree_dir join resolve app]. rewrite Hd.
  unfold staged_version_gate, bind at 1 2, exists_, json_load.
  cbv beta iota zeta. cbn [fs set_cwd cwd resolve].
  destruct (fs w !! (d ++ [VERSION_FILENAME])) as [[[staged|s]|]|] eqn:Hfile;
    try done.
  rewrite bool_decide_eq_true_2 by done. cbv beta iota zeta.
  unfold bind at 1. cbn [fs set_cwd cwd resolve]. rewrite Hfile.
  apply negb_true_iff in Hgate. by rewrite Hgate.
Qed.

(** A call that runs to its end: the update passes the comparison of
    versions and nothing fails, whether the remote then accepts the push or
    rejects it. *)
Lemma think_of_name_later_runs (e : env) (lib_id : libid)
    (version platforms name : json) (boards : string)
    (kwargs : list (string * json)) (t : tree) (w : world) :
  fs_wf (fs w) → entry_ok e lib_id w →
  git_works e → (∀ f, push_outcome e ≠ PushRaises f) →
  (remote w !! branch_of lib_id = None →
   has_char "010" (branch_of lib_id) = false) →
  cloned_tree (remote w) (branch_of lib_id) = Some t → tree_wf t →
  must_update t version kwargs = true →
  is_file (t !! ["examples"]) = false →
  is_dir (t !! [TRAVIS_FILENAME]) = false →
  is_dir (fs w !! get_libexample_dir e lib_id) = true →
  get_libexample_dir e lib_id ≠ tempdir e →
  only_files (fs w) (get_libexample_dir e lib_id) →
  py_getitem version "name" = Ok name → board_flags platforms = Ok boards →
  ∃ names idx,
    think_of_name_later e lib_id version platforms kwargs w
    = (Ok (),
       World (cwd w) (fs w)
         (pushed (push_outcome e) (branch_of lib_id) idx (remote w)) idx (Some idx)
         (trace w ++ [FsMkdtemp (checkout_dir e lib_id)] ++
          clone_events e lib_id (remote w) ++
          publish_events (checkout_dir e lib_id)
            (cleared (checkout_dir e lib_id) t) names (branch_of lib_id)
            ("Update library to version " +:+ str_of_json e name) ++
          [FsRmtree (checkout_dir e lib_id)])) ∧
    NoDup names ∧
    (∀ n, n ∈ names ↔ is_Some (fs w !! (get_libexample_dir e lib_id ++ [n]))) ∧
    idx !! [VERSION_FILENAME] = Some (NFile (CJson version)) ∧
    idx !! [TRAVIS_FILENAME]
    = Some (NFile (CText (travis_text (env_lines (example_paths names))
                            (str_of_json e name) (str_of_id lib_id) boards))) ∧
    (∀ n, n ∈ names →
       idx !! ["examples"; n] = fs w !! (get_libexample_dir e lib_id ++ [n])) ∧
    (∀ p, p ≠ [VERSION_FILENAME] → p ≠ [TRAVIS_FILENAME] → p ≠ ["examples"] →
       (∀ n, n ∈ names → p ≠ ["examples"; n]) → idx !! p = t !! p).
Proof.
  intros Hwf Hentry Hrel Hpush Hline Htree Htwf Hgate Hex Htf Hsrc0 Htmpsrc Hfiles0
    Hname Hboards.
  pose proof Hentry as (Hcwd & Htmp & Hfresh).
  pose proof Hrel as (_ & _ & Hadd & Hcommit).
  set (d := checkout_dir e lib_id) in *. set (branch := branch_of lib_id) in *.
  set (src := get_libexample_dir e lib_id) in *.
  assert (fs w !! src = Some NDir) as Hsrc.
  { by destruct (fs w !! src) as [[|]|]. }
  assert (∀ n, fs w !! (src ++ [n]) ≠ Some NDir) as Hfiles.
  { intros n Hn. unfold only_files in Hfiles0.
    rewrite Forall_forall in Hfiles0. specialize (Hfiles0 n).
    rewrite Hn in Hfiles0. cbn in Hfiles0.
    assert (true = false) as Habs; [|done].
    apply Hfiles0, elem_of_children. by rewrite Hn. }
  assert (parent d = Some (tempdir e)) as Hparent by apply parent_snoc.
  assert (¬ d `prefix_of` src) as Hout.
  { intros Hpre. by rewrite (fs_wf_absent_below _ d src) in Hsrc. }
  assert (∀ n, ¬ d `prefix_of` src ++ [n]) as Houtchild.
  { intros n [Hpre|Heq]%prefix_snoc_inv; [done|].
    rewrite Heq, parent_snoc in Hparent. by injection Hparent. }
  (* the checkout *)
  set (w0 := at_entry e lib_id w).
  destruct (clone_library_branch_succeeds e lib_id t w0 Hrel Hline Htree)
    as [h Hclone].
  fold d branch in Hclone.
  set (wc := World (cwd w0) (fs w0 ∪ place d t) (remote w0) t h
               (trace w0 ++ clone_events e lib_id (remote w0))) in *.
  assert (fs wc = <[d := NDir]> (fs w) ∪ place d t) as Hfsc by done.
  assert (∀ q, q ≠ [] → fs wc !! (d ++ q) = t !! q) as Hunder.
  { intros q Hq. rewrite Hfsc. by apply checkout_lookup. }
  assert (fs wc !! d = Some NDir) as Hroot.
  { rewrite Hfsc. apply checkout_root. }
  assert (∀ p, ¬ d `prefix_of` p → fs wc !! p = fs w !! p) as Houtside.
  { intros p Hp. rewrite Hfsc.
    rewrite lookup_union_l by (by apply lookup_place_outside).
    apply lookup_insert_ne. by intros ->. }
  assert (fs_wf (fs wc)) as Hwfc.
  { rewrite Hfsc. by apply (fs_wf_checkout _ _ _ (tempdir e)). }
  (* the update *)
  assert (publish_body e lib_id branch (AbsP d) version platforms kwargs w0
          = stage_and_push e (Repo d) lib_id branch (AbsP (d ++ [VERSION_FILENAME]))
              version platforms (set_cwd d wc)) as Hbody.
  { unfold publish_body. rewrite (bind_ok _ _ _ _ _ Hclone).
    apply update_checkout_proceeds; [done|].
    rewrite Hunder by done. exact Hgate. }
  destruct (stage_and_push_ok e lib_id branch d version platforms name boards
              (set_cwd d wc))
    as (names & idx & w' & Hrun & Hnodup & Hnames & Hr & Hi & Hh & Htr
        & Hiv & Hit & Hin & Hkeep); try done.
  { change (is_dir (fs wc !! (d ++ [VERSION_FILENAME])) = false).
    rewrite Hunder by done. unfold must_update in Hgate.
    by destruct (t !! [VERSION_FILENAME]) as [[|]|]. }
  { change (is_file (fs wc !! (d ++ ["examples"])) = false).
    by rewrite Hunder. }
  { change (is_dir (fs wc !! (d ++ [TRAVIS_FILENAME])) = false).
    by rewrite Hunder. }
  { change (fs wc !! src = Some NDir). by rewrite Houtside. }
  { intros n. change (fs wc !! (src ++ [n]) ≠ Some NDir).
    rewrite Houtside; [apply Hfiles|apply Houtchild]. }
  rewrite Hrun in Hbody.
  rewrite (think_of_name_later_spec e lib_id version platforms kwargs w Hwf Hentry
             (Ok ()) w' Hbody).
  exists names, idx.
  split; [|split; [done|split; [|split; [done|split; [done|split]]]]].
  - rewrite Hr, Hi, Hh, Htr. f_equal. f_equal.
    + unfold removal, cleared.
      change (fs (set_cwd d wc) !! (d ++ ["examples"]))
        with (fs wc !! (d ++ ["examples"])).
      rewrite Hunder by done.
      change (trace (set_cwd d wc))
        with ((trace w ++ [FsMkdtemp d]) ++ clone_events e lib_id (remote w)).
      cbn [logged]. by rewrite <- !app_assoc.
  - intros n. rewrite Hnames.
    change (fs (set_cwd d wc) !! (src ++ [n])) with (fs wc !! (src ++ [n])).
    by rewrite Houtside.
  - intros n Hn. rewrite Hin by done.
    change (fs (set_cwd d wc) !! (src ++ [n])) with (fs wc !! (src ++ [n])).
    by rewrite Houtside.
  - intros p ????. by rewrite Hkeep.
Qed.

(** X14: a call that publishes.  Git does what it is asked; the tree
    cloned (that of the branch of the library, or of [master] when the
    branch is missing) is a tree in which [examples] is not a file and
    [.travis.yml] not a directory; the comparison of versions lets the
    update through; the saved examples are a directory of files; the
    version has a name and the platforms give board flags.  Then the call
    returns, the file system and the working directory are as before, and
    the branch of the library on the remote holds the tree that was
    cloned with, over it, [_version.json] holding the version,
    [.travis.yml] holding the text made from the template, and each saved
    example under [examples/].  Every other path of the tree cloned is in
    the tree pushed as it was: an example that is no longer saved stays on
    the branch.  One commit is made, with the message
    [Update library to version <name>], and one push. *)
Theorem think_of_name_later_publishes (e : env) (lib_id : libid)
    (version platforms name : json) (boards : string)
    (kwargs : list (string * json)) (t : tree) (w : world) :
  fs_wf (fs w) → entry_ok e lib_id w → reliable e →
  has_char "010" (branch_of lib_id) = false →
  cloned_tree (remote w) (branch_of lib_id) = Some t → tree_wf t →
  must_update t version kwargs = true →
  is_file (t !! ["examples"]) = false →
  is_dir (t !! [TRAVIS_FILENAME]) = false →
  is_dir (fs w !! get_libexample_dir e lib_id) = true →
  get_libexample_dir e lib_id ≠ tempdir e →
  only_files (fs w) (get_libexample_dir e lib_id) →
  py_getitem version "name" = Ok name → board_flags platforms = Ok boards →
  ∃ names idx,
    think_of_name_later e lib_id version platforms kwargs w
    = (Ok (),
       World (cwd w) (fs w) (<[branch_of lib_id := idx]> (remote w)) idx (Some idx)
         (trace w ++ [FsMkdtemp (checkout_dir e lib_id)] ++
          clone_events e lib_id (remote w) ++
          publish_events (checkout_dir e lib_id)
            (cleared (checkout_dir e lib_id) t) names (branch_of lib_id)
            ("Update library to version " +:+ str_of_json e name) ++
          [FsRmtree (checkout_dir e lib_id)])) ∧
    NoDup names ∧
    (∀ n, n ∈ names ↔ is_Some (fs w !! (get_libexample_dir e lib_id ++ [n]))) ∧
    idx !! [VERSION_FILENAME] = Some (NFile (CJson version)) ∧
    idx !! [TRAVIS_FILENAME]
    = Some (NFile (CText (travis_text (env_lines (example_paths names))
                            (str_of_json e name) (str_of_id lib_id) boards))) ∧
    (∀ n, n ∈ names →
       idx !! ["examples"; n] = fs w !! (get_libexample_dir e lib_id ++ [n])) ∧
    (∀ p, p ≠ [VERSION_FILENAME] → p ≠ [TRAVIS_FILENAME] → p ≠ ["examples"] →
       (∀ n, n ∈ names → p ≠ ["examples"; n]) → idx !! p = t !! p).
Proof.
  intros Hwf Hentry [Hworks Hpush] Hline Htree Htwf Hgate Hex Htf Hsrc Htmpsrc
    Hfiles Hname Hboards.
  destruct (think_of_name_later_runs e lib_id version platforms name boards
              kwargs t w Hwf Hentry Hworks) as (names & idx & Hrun & Hrest);
    try done.
  { intros f. by rewrite Hpush. }
  exists names, idx. split; [|exact Hrest].
  rewrite Hrun. unfold pushed. by rewrite Hpush.
Qed.

Lemma think_of_name_later_publishes_witness :
  (∃ idx,
     (think_of_name_later sample_env (IdInt 75) (sample_version "1.0")
        (JArr [JStr "atmelavr"]) [] staged_world).1 = Ok () ∧
     remote (think_of_name_later sample_env (IdInt 75) (sample_version "1.0")
               (JArr [JStr "atmelavr"]) [] staged_world).2 !! "library-75"
     = Some idx ∧
     idx !! [VERSION_FILENAME] = Some (NFile (CJson (sample_version "1.0"))) ∧
     idx !! ["examples"; "Blink.ino"] = Some (NFile (CText "void setup() {}")) ∧
     idx !! ["examples"; "old.ino"] = Some (NFile (CText "old"))) ∧
  (∃ idx,
     (think_of_name_later sample_env (IdInt 75) (sample_version "1.0")
        (JArr [JStr "atmelavr"]) [] sample_world).1 = Ok () ∧
     remote (think_of_name_later sample_env (IdInt 75) (sample_version "1.0")
               (JArr [JStr "atmelavr"]) [] sample_world).2 !! "library-75"
     = Some idx ∧
     idx !! [VERSION_FILENAME] = Some (NFile (CJson (sample_version "1.0"))) ∧
     idx !! ["README.md"] = Some (NFile (CText "ci"))).
Proof.
  assert (reliable sample_env) as Hrel by (by repeat split).
  assert (get_libexample_dir sample_env (IdInt 75) ≠ tempdir sample_env)
    as Hne by (vm_compute; discriminate).
  split.
  - assert (fs_wf (fs staged_world)) as Hwf by sample_wf.
    assert (entry_ok sample_env (IdInt 75) staged_world) as Hentry by sample_entry.
    assert (remote staged_world !! branch_of (IdInt 75) = Some sample_staged)
      as Hbranch by apply lookup_insert_eq.
    assert (cloned_tree (remote staged_world) (branch_of (IdInt 75))
            = Some sample_staged) as Htree.
    { unfold cloned_tree. by rewrite Hbranch. }
    assert (tree_wf sample_staged) as Htwf
      by (apply (bool_decide_unpack (tree_wf _)); vm_compute; exact I).
    assert (only_files (fs staged_world) (get_libexample_dir sample_env (IdInt 75)))
      as Hfiles by (apply (bool_decide_unpack (Forall _ _)); vm_compute; exact I).
    destruct (think_of_name_later_publishes sample_env (IdInt 75)
                (sample_version "1.0") (JArr [JStr "atmelavr"]) (JStr "1.0")
                "--board=uno --board=leonardo --board=megaatmega2560" []
                sample_staged staged_world
                Hwf Hentry Hrel eq_refl Htree Htwf eq_refl eq_refl eq_refl eq_refl
                Hne Hfiles eq_refl eq_refl)
      as (names & idx & Hrun & _ & Hnames & Hiv & _ & Hin & Hkeep).
    exists idx. rewrite Hrun. split; [reflexivity|].
    split; [apply lookup_insert_eq|]. split; [exact Hiv|]. split.
    + rewrite Hin; [vm_compute; reflexivity|].
      apply Hnames. vm_compute. by eexists.
    + rewrite Hkeep; [vm_compute; reflexivity|discriminate..|].
      intros n Hn [= <-]. apply Hnames in Hn as [x Hx].
      vm_compute in Hx. discriminate.
  - assert (fs_wf (fs sample_world)) as Hwf by sample_wf.
    assert (entry_ok sample_env (IdInt 75) sample_world) as Hentry by sample_entry.
    assert (cloned_tree (remote sample_world) (branch_of (IdInt 75))
            = Some sample_master) as Htree.
    { unfold cloned_tree.
      replace (remote sample_world !! branch_of (IdInt 75)) with (@None tree)
        by (symmetry; by apply lookup_singleton_ne).
      apply lookup_singleton_eq. }
    assert (tree_wf sample_master) as Htwf
      by (apply (bool_decide_unpack (tree_wf _)); vm_compute; exact I).
    assert (only_files (fs sample_world) (get_libexample_dir sample_env (IdInt 75)))
      as Hfiles by (apply (bool_decide_unpack (Forall _ _)); vm_compute; exact I).
    destruct (think_of_name_later_publishes sample_env (IdInt 75)
                (sample_version "1.0") (JArr [JStr "atmelavr"]) (JStr "1.0")
                "--board=uno --board=leonardo --board=megaatmega2560" []
                sample_master sample_world
                Hwf Hentry Hrel eq_refl Htree Htwf eq_refl eq_refl eq_refl eq_refl
                Hne Hfiles eq_refl eq_refl)
      as (names & idx & Hrun & _ & Hnames & Hiv & _ & Hin & Hkeep).
    exists idx. rewrite Hrun. split; [reflexivity|].
    split; [apply lookup_insert_eq|]. split; [exact Hiv|].
    rewrite Hkeep; [vm_compute; reflexivity|discriminate..|].
    intros n Hn. discriminate.
Defined.

(** X15: the answer of the remote to the push is not looked at.  When
    everything goes as in a call that publishes but the remote rejects the
    push, [think_of_name_later] returns like after a successful update:
    the same calls are recorded, the commit and the push among them, no
    exception is logged, and the branches of the remote are as they were
    before the call. *)
Theorem think_of_name_later_rejected_push (e : env) (lib_id : libid)
    (version platforms name : json) (boards : string)
    (kwargs : list (string * json)) (t : tree) (w : world) :
  fs_wf (fs w) → entry_ok e lib_id w →
  git_works e → push_outcome e = PushRejected →
  has_char "010" (branch_of lib_id) = false →
  cloned_tree (remote w) (branch_of lib_id) = Some t → tree_wf t →
  must_update t version kwargs = true →
  is_file (t !! ["examples"]) = false →
  is_dir (t !! [TRAVIS_FILENAME]) = false →
  is_dir (fs w !! get_libexample_dir e lib_id) = true →
  get_libexample_dir e lib_id ≠ tempdir e →
  only_files (fs w) (get_libexample_dir e lib_id) →
  py_getitem version "name" = Ok name → board_flags platforms = Ok boards →
  ∃ names idx,
    think_of_name_later e lib_id version platforms kwargs w
    = (Ok (),
       World (cwd w) (fs w) (remote w) idx (Some idx)
         (trace w ++ [FsMkdtemp (checkout_dir e lib_id)] ++
          clone_events e lib_id (remote w) ++
          publish_events (checkout_dir e lib_id)
            (cleared (checkout_dir e lib_id) t) names (branch_of lib_id)
            ("Update library to version " +:+ str_of_json e name) ++
          [FsRmtree (checkout_dir e lib_id)])) ∧
    idx !! [VERSION_FILENAME] = Some (NFile (CJson version)).
Proof.
  intros Hwf Hentry Hworks Hpush Hline Htree Htwf Hgate Hex Htf Hsrc Htmpsrc
    Hfiles Hname Hboards.
  destruct (think_of_name_later_runs e lib_id version platforms name boards
              kwargs t w Hwf Hentry Hworks)
    as (names & idx & Hrun & _ & _ & Hiv & _); try done.
  { intros f. by rewrite Hpush. }
  exists names, idx. split; [|exact Hiv].
  rewrite Hrun. unfold pushed. by rewrite Hpush.
Qed.

Lemma think_of_name_later_rejected_push_witness :
  (think_of_name_later rejecting_env (IdInt 75) (sample_version "1.0")
     (JArr [JStr "atmelavr"]) [] staged_world).1 = Ok () ∧
  remote (think_of_name_later rejecting_env (IdInt 75) (sample_version "1.0")
            (JArr [JStr "atmelavr"]) [] staged_world).2
  = remote staged_world.
Proof.
  assert (fs_wf (fs staged_world)) as Hwf by sample_wf.
  assert (entry_ok rejecting_env (IdInt 75) staged_world) as Hentry by sample_entry.
  assert (git_works rejecting_env) as Hworks by (by repeat split).
  assert (remote staged_world !! branch_of (IdInt 75) = Some sample_staged)
    as Hbranch by apply lookup_insert_eq.
  assert (cloned_tree (remote staged_world) (branch_of (IdInt 75))
          = Some sample_staged) as Htree.
  { unfold cloned_tree. by rewrite Hbranch. }
  assert (tree_wf sample_staged) as Htwf
    by (apply (bool_decide_unpack (tree_wf _)); vm_compute; exact I).
  assert (only_files (fs staged_world) (get_libexample_dir rejecting_env (IdInt 75)))
    as Hfiles by (apply (bool_decide_unpack (Forall _ _)); vm_compute; exact I).
  assert (get_libexample_dir rejecting_env (IdInt 75) ≠ tempdir rejecting_env)
    as Hne by (vm_compute; discriminate).
  destruct (think_of_name_later_rejected_push rejecting_env (IdInt 75)
              (sample_version "1.0") (JArr [JStr "atmelavr"]) (JStr "1.0")
              "--board=uno --board=leonardo --board=megaatmega2560" []
              sample_staged staged_world
              Hwf Hentry Hworks eq_refl eq_refl Htree Htwf eq_refl eq_refl
              eq_refl eq_refl Hne Hfiles eq_refl eq_refl)
    as (names & idx & Hrun & _).
  rewrite Hrun. split; reflexivity.
Defined.

(** ** A repository without [master] *)

Lemma shallow_clone_branch_missing (e : env) (branch : string) (d : path)
    (w : world) :
  clone_fault e branch = None → has_char "010" branch = false →
  remote w !! branch = None →
  shallow_clone_branch e branch (AbsP d) (LIBBUILD_REPO_URI e) w
  = (Raise (RemoteBranchNotFound branch),
     record (GitClone (LIBBUILD_REPO_URI e) d branch true 1) w).
Proof.
  intros Hfault Hline Hbranch.
  unfold shallow_clone_branch, try_except, clone_from. cbn zeta.
  cbn [opt_branch opt_single_branch opt_depth resolve].
  rewrite Hfault, Hbranch. unfold bind, lift.
  by rewrite reports_missing_branch.
Qed.

(** X16: the branch of the library is made from [master]; when the remote
    has neither, the second clone fails like the first, and this time
    [RemoteBranchNotFound] is not handled: the call logs
    [RemoteBranchNotFound("master")], makes no branch and returns, and the
    remote is as before. *)
Theorem think_of_name_later_without_master (e : env) (lib_id : libid)
    (version platforms : json) (kwargs : list (string * json)) (w : world) :
  fs_wf (fs w) → entry_ok e lib_id w →
  (∀ branch, clone_fault e branch = None) →
  has_char "010" (branch_of lib_id) = false →
  remote w !! branch_of lib_id = None → remote w !! "master" = None →
  think_of_name_later e lib_id version platforms kwargs w
  = (Ok (),
     World (cwd w) (fs w) (remote w) (index w) (head w)
       (trace w ++
        [ FsMkdtemp (checkout_dir e lib_id);
          LogDebug ("Cloning branch " +:+ branch_of lib_id);
          GitClone (LIBBUILD_REPO_URI e) (checkout_dir e lib_id)
            (branch_of lib_id) true 1;
          LogDebug "Branch not found. Making one.";
          GitClone (LIBBUILD_REPO_URI e) (checkout_dir e lib_id) "master" true 1;
          LogException (RemoteBranchNotFound "master");
          FsRmtree (checkout_dir e lib_id) ])).
Proof.
  intros Hwf Hentry Hfault Hline Hbranch Hmaster.
  set (d := checkout_dir e lib_id). set (branch := branch_of lib_id) in *.
  set (w0 := at_entry e lib_id w).
  set (w1 := record (GitClone (LIBBUILD_REPO_URI e) d branch true 1)
               (record (LogDebug ("Cloning branch " +:+ branch)) w0)).
  set (w2 := record (LogDebug "Branch not found. Making one.") w1).
  set (w3 := record (GitClone (LIBBUILD_REPO_URI e) d "master" true 1) w2).
  assert (clone_library_branch e branch (AbsP d) w0
          = (Raise (RemoteBranchNotFound "master"), w3)) as Hclone.
  { destruct (clone_library_branch_cases e branch d w0) as (_ & _ & Hmissing & _).
    specialize (Hmissing 128 (Some (branch_not_found_stderr d branch)) w1).
    rewrite reports_missing_branch in Hmissing by done.
    rewrite Hmissing.
    - apply bind_raise. unfold make_branch.
      rewrite (bind_ok _ _ w1 w2 ()) by done.
      apply bind_raise. by apply shallow_clone_branch_missing.
    - unfold first_clone, clone_from. cbn zeta. cbn [opt_branch resolve].
      rewrite Hfault. fold w1. replace (remote _ !! branch) with (@None tree).
      reflexivity. }
  assert (publish_body e lib_id branch (AbsP d) version platforms kwargs w0
          = (Raise (RemoteBranchNotFound "master"), w3)) as Hbody.
  { unfold publish_body. by apply bind_raise. }
  rewrite (think_of_name_later_spec e lib_id version platforms kwargs w Hwf Hentry
             _ _ Hbody).
  f_equal. apply world_eq; cbn; try done. by rewrite <- !app_assoc.
Qed.

Lemma think_of_name_later_without_master_witness :
  (think_of_name_later sample_env (IdInt 75) (sample_version "1.0")
     (JArr [JStr "atmelavr"]) [] bare_world).1 = Ok () ∧
  events_since bare_world
    (think_of_name_later sample_env (IdInt 75) (sample_version "1.0")
       (JArr [JStr "atmelavr"]) [] bare_world).2
  = [ FsMkdtemp ["tmp"; "pioapi-libbuild-75-a1b2"];
      LogDebug "Cloning branch library-75";
      GitClone "https://example.org/ci.git" ["tmp"; "pioapi-libbuild-75-a1b2"]
        "library-75" true 1;
      LogDebug "Branch not found. Making one.";
      GitClone "https://example.org/ci.git" ["tmp"; "pioapi-libbuild-75-a1b2"]
        "master" true 1;
      LogException (RemoteBranchNotFound "master");
      FsRmtree ["tmp"; "pioapi-libbuild-75-a1b2"] ].
Proof.
  assert (fs_wf (fs bare_world)) as Hwf by sample_wf.
  assert (entry_ok sample_env (IdInt 75) bare_world) as Hentry by sample_entry.
  rewrite (think_of_name_later_without_master sample_env (IdInt 75)
             (sample_version "1.0") (JArr [JStr "atmelavr"]) [] bare_world
             Hwf Hentry (λ _, eq_refl) eq_refl eq_refl eq_refl).
  split; [reflexivity|].
  unfold events_since. cbn [snd trace]. rewrite drop_app_length. reflexivity.
Defined.

(** * The gate, the clone and the examples, on whole calls *)

(** C2: when the branch of the library is on the remote with a
    [_version.json] whose document equals the version asked for, and
    [force] is not set, [think_of_name_later] clones, compares and cleans
    up, and does nothing else: no file is written, nothing is added to the
    index, committed or pushed, and the remote is as before.  Hence a
    second call with the same id and version, after a first call that did
    not fail and whose push was accepted, records no add, commit or push.
    With [force] set the comparison does not stop the update, whether the
    version staged equals the one asked for or not: after the clone the
    body is [stage_and_push], and when nothing fails in it the call stages
    the files, makes the commit and pushes it, so that the branch on the
    remote holds the new tree. *)
Theorem think_of_name_later_gate (e : env) (lib_id : libid)
    (version platforms : json) (kwargs : list (string * json)) (w : world) :
  fs_wf (fs w) → entry_ok e lib_id w →
  (∀ t staged,
     clone_fault e (branch_of lib_id) = None →
     remote w !! branch_of lib_id = Some t →
     t !! [VERSION_FILENAME] = Some (NFile (CJson staged)) →
     py_eq version staged = true → force_flag kwargs = false →
     think_of_name_later e lib_id version platforms kwargs w
     = (Ok (),
        World (cwd w) (fs w) (remote w) t (Some t)
          (trace w ++
           [ FsMkdtemp (checkout_dir e lib_id);
             LogDebug ("Cloning branch " +:+ branch_of lib_id);
             GitClone (LIBBUILD_REPO_URI e) (checkout_dir e lib_id)
               (branch_of lib_id) true 1;
             LogInfo ("Cloned into " +:+ path_str (AbsP (checkout_dir e lib_id)));
             LogInfo skip_message;
             FsRmtree (checkout_dir e lib_id) ]))) ∧
  (honest e → push_outcome e = PushAccepted → json_wf version = true →
   force_flag kwargs = false →
   (∀ exc, LogException exc ∉
      events_since w (think_of_name_later e lib_id version platforms kwargs w).2) →
   Forall (λ ev, changes_branch ev = false)
     (events_since (think_of_name_later e lib_id version platforms kwargs w).2
        (think_of_name_later e lib_id version platforms kwargs
           (think_of_name_later e lib_id version platforms kwargs w).2).2)) ∧
  (∀ t staged,
     clone_fault e (branch_of lib_id) = None →
     remote w !! branch_of lib_id = Some t →
     t !! [VERSION_FILENAME] = Some (NFile (CJson staged)) →
     force_flag kwargs = true →
     publish_body e lib_id (branch_of lib_id) (AbsP (checkout_dir e lib_id))
       version platforms kwargs (at_entry e lib_id w)
     = stage_and_push e (Repo (checkout_dir e lib_id)) lib_id (branch_of lib_id)
         (AbsP (checkout_dir e lib_id ++ [VERSION_FILENAME])) version platforms
         (set_cwd (checkout_dir e lib_id)
            (clone_library_branch e (branch_of lib_id)
               (AbsP (checkout_dir e lib_id)) (at_entry e lib_id w)).2)) ∧
  (∀ t staged name boards,
     reliable e →
     remote w !! branch_of lib_id = Some t → tree_wf t →
     t !! [VERSION_FILENAME] = Some (NFile (CJson staged)) →
     force_flag kwargs = true →
     is_file (t !! ["examples"]) = false →
     is_dir (t !! [TRAVIS_FILENAME]) = false →
     is_dir (fs w !! get_libexample_dir e lib_id) = true →
     get_libexample_dir e lib_id ≠ tempdir e →
     only_files (fs w) (get_libexample_dir e lib_id) →
     py_getitem version "name" = Ok name → board_flags platforms = Ok boards →
     ∃ names idx,
       think_of_name_later e lib_id version platforms kwargs w
       = (Ok (),
          World (cwd w) (fs w) (<[branch_of lib_id := idx]> (remote w))
            idx (Some idx)
            (trace w ++
             [ FsMkdtemp (checkout_dir e lib_id);
               LogDebug ("Cloning branch " +:+ branch_of lib_id);
               GitClone (LIBBUILD_REPO_URI e) (checkout_dir e lib_id)
                 (branch_of lib_id) true 1;
               LogInfo ("Cloned into " +:+
                        path_str (AbsP (checkout_dir e lib_id))) ] ++
             publish_events (checkout_dir e lib_id)
               (cleared (checkout_dir e lib_id) t) names (branch_of lib_id)
               ("Update library to version " +:+ str_of_json e name) ++
             [FsRmtree (checkout_dir e lib_id)])) ∧
       idx !! [VERSION_FILENAME] = Some (NFile (CJson version))).
Proof.
  intros Hwf Hentry. split; [|split; [|split]].
  - intros t staged. by apply think_of_name_later_skips.
  - intros Hhonest Hpush Hjson Hforce Hquiet.
    destruct (staged_after_publish e lib_id version platforms kwargs w
                Hwf Hentry Hhonest Hpush Hjson Hquiet)
      as (t & staged & Ht & Hfile & Heq).
    destruct (after_publish_entry_ok e lib_id version platforms kwargs w
                Hwf Hentry) as [Hwf1 Hentry1].
    by apply think_of_name_later_quiet with staged t.
  - intros t staged Hfault Hbranch Hfile Hforce.
    pose proof Hentry as (_ & _ & Hfresh).
    set (d := checkout_dir e lib_id) in *.
    pose proof (clone_existing_branch e (branch_of lib_id) d t
                  (at_entry e lib_id w) Hfault Hbranch) as Hclone.
    unfold publish_body. rewrite (bind_ok _ _ _ _ _ Hclone). rewrite Hclone.
    apply update_checkout_forced with staged; [| |done].
    + apply checkout_root.
    + rewrite <- Hfile.
      by apply (checkout_lookup (fs w) t d [VERSION_FILENAME]).
  - intros t staged name boards [Hworks Hpush] Hbranch Htwf Hfile Hforce Hex Htf
      Hsrc Htmpsrc Hfiles Hname Hboards.
    destruct (think_of_name_later_runs e lib_id version platforms name boards
                kwargs t w Hwf Hentry Hworks)
      as (names & idx & Hrun & _ & _ & Hiv & _); try done.
    + intros f. by rewrite Hpush.
    + intros Hnone. by rewrite Hbranch in Hnone.
    + unfold cloned_tree. by rewrite Hbranch.
    + unfold must_update. by rewrite Hfile, Hforce, andb_false_r.
    + exists names, idx. split; [|exact Hiv].
      rewrite Hrun. unfold pushed, clone_events. rewrite Hpush, Hbranch.
      reflexivity.
Qed.

Lemma think_of_name_later_gate_witness :
  events_since staged_world
    (think_of_name_later sample_env (IdInt 75) (sample_version "0.9")
       (JArr [JStr "atmelavr"]) [] staged_world).2
  = [ FsMkdtemp ["tmp"; "pioapi-libbuild-75-a1b2"];
      LogDebug "Cloning branch library-75";
      GitClone "https://example.org/ci.git" ["tmp"; "pioapi-libbuild-75-a1b2"]
        "library-75" true 1;
      LogInfo "Cloned into /tmp/pioapi-libbuild-75-a1b2";
      LogInfo skip_message;
      FsRmtree ["tmp"; "pioapi-libbuild-75-a1b2"] ] ∧
  Forall (λ ev, changes_branch ev = false)
    (events_since
       (think_of_name_later sample_env (IdInt 75) (sample_version "1.0")
          (JArr [JStr "atmelavr"]) [] sample_world).2
       (think_of_name_later sample_env (IdInt 75) (sample_version "1.0")
          (JArr [JStr "atmelavr"]) []
          (think_of_name_later sample_env (IdInt 75) (sample_version "1.0")
             (JArr [JStr "atmelavr"]) [] sample_world).2).2) ∧
  (∃ idx,
     (think_of_name_later sample_env (IdInt 75) (sample_version "0.9")
        (JArr [JStr "atmelavr"]) [("force", JBool true)] staged_world).1 = Ok () ∧
     remote (think_of_name_later sample_env (IdInt 75) (sample_version "0.9")
               (JArr [JStr "atmelavr"]) [("force", JBool true)] staged_world).2
       !! "library-75" = Some idx ∧
     idx !! [VERSION_FILENAME] = Some (NFile (CJson (sample_version "0.9"))) ∧
     GitCommit "Update library to version 0.9"
       ∈ events_since staged_world
           (think_of_name_later sample_env (IdInt 75) (sample_version "0.9")
              (JArr [JStr "atmelavr"]) [("force", JBool true)] staged_world).2 ∧
     GitPush "library-75" true
       ∈ events_since staged_world
           (think_of_name_later sample_env (IdInt 75) (sample_version "0.9")
              (JArr [JStr "atmelavr"]) [("force", JBool true)] staged_world).2).
Proof.
  assert (fs_wf (fs staged_world)) as Hwf by sample_wf.
  assert (entry_ok sample_env (IdInt 75) staged_world) as Hentry by sample_entry.
  assert (remote staged_world !! branch_of (IdInt 75) = Some sample_staged)
    as Hbranch by apply lookup_insert_eq.
  assert (sample_staged !! [VERSION_FILENAME]
          = Some (NFile (CJson (sample_version "0.9")))) as Hfile
    by apply lookup_insert_eq.
  split; [|split].
  - rewrite (proj1 (think_of_name_later_gate sample_env (IdInt 75)
                      (sample_version "0.9") (JArr [JStr "atmelavr"]) []
                      staged_world Hwf Hentry)
               sample_staged (sample_version "0.9") eq_refl Hbranch Hfile
               eq_refl eq_refl).
    vm_compute. reflexivity.
  - assert (fs_wf (fs sample_world)) as Hwf0 by sample_wf.
    assert (entry_ok sample_env (IdInt 75) sample_world) as Hentry0 by sample_entry.
    assert (honest sample_env) as Hhonest by (intros b status stderr; discriminate).
    apply (proj1 (proj2 (think_of_name_later_gate sample_env (IdInt 75)
                           (sample_version "1.0") (JArr [JStr "atmelavr"]) []
                           sample_world Hwf0 Hentry0)) Hhonest eq_refl eq_refl eq_refl).
    intros exc Hin. vm_compute in Hin.
    repeat (apply elem_of_cons in Hin as [Hin|Hin]; [discriminate|]).
    by apply elem_of_nil in Hin.
  - assert (reliable sample_env) as Hrel by (by repeat split).
    assert (tree_wf sample_staged) as Htwf
      by (apply (bool_decide_unpack (tree_wf _)); vm_compute; exact I).
    assert (only_files (fs staged_world) (get_libexample_dir sample_env (IdInt 75)))
      as Hfiles by (apply (bool_decide_unpack (Forall _ _)); vm_compute; exact I).
    assert (get_libexample_dir sample_env (IdInt 75) ≠ tempdir sample_env)
      as Hne by (vm_compute; discriminate).
    destruct (proj2 (proj2 (proj2
                (think_of_name_later_gate sample_env (IdInt 75)
                   (sample_version "0.9") (JArr [JStr "atmelavr"])
                   [("force", JBool true)] staged_world Hwf Hentry)))
                sample_staged (sample_version "0.9") (JStr "0.9")
                "--board=uno --board=leonardo --board=megaatmega2560"
                Hrel Hbranch Htwf Hfile eq_refl eq_refl eq_refl eq_refl Hne
                Hfiles eq_refl eq_refl)
      as (names & idx & Hrun & Hiv).
    exists idx. rewrite Hrun. split; [reflexivity|].
    split; [apply lookup_insert_eq|]. split; [exact Hiv|].
    unfold events_since. cbn [snd trace]. rewrite drop_app_length.
    unfold publish_events.
    split; (apply elem_of_app; right; apply elem_of_app; left;
            do 4 (apply elem_of_app; right); repeat first [by left | right]).
Defined.

(** ** The branch of the library *)

Lemma has_line_end_reports (stderr : option string) (branch : string) :
  has_line_end stderr = true →
  ∃ found, reports_branch_not_found stderr branch = Ok found.
Proof.
  intros Hend.
  destruct (reports_branch_not_found stderr branch) as [found|exc] eqn:Hrep;
    [by exists found|].
  apply reports_branch_not_found_raises in Hrep as Hexc. subst exc.
  apply reports_branch_not_found_index_error in Hrep as (s & -> & Hs & Hno).
  cbn in Hend. rewrite Hno, orb_false_r in Hend.
  by apply String.eqb_eq in Hend.
Qed.

Lemma branch_not_found_stderr_has_line_end (d : path) (branch : string) :
  has_line_end (Some (branch_not_found_stderr d branch)) = true.
Proof.
  cbn. unfold branch_not_found_stderr. rewrite !has_char_app. cbn.
  by rewrite !orb_true_r.
Qed.

(** C5: the checkout of the branch of a library starts with a shallow
    clone of [library-<id>]: one branch, depth 1.  When this clone succeeds
    nothing else is cloned.  When it fails with an error of git, the line
    before the last of git's error stream decides: if it is
    [fatal: Remote branch library-<id> not found in upstream origin], the
    error is recovered by a shallow clone of [master] and the making of
    the branch as an orphan; if it is not, git's error is raised again and
    leaves the checkout, and nothing else is done.  Any other error of the
    clone leaves the checkout as well.  This is for an error stream as git
    writes it: none, empty, or with a line end.  In a repository that has
    [master] and not the branch, and a git that works, the recovery gives
    the checkout of [master] with no commit checked out.  An error that
    leaves the checkout ends the call: it is logged, the directory is
    removed, and nothing is written, committed or pushed. *)
Theorem clone_library_branch_recovers_missing_branch (e : env) (lib_id : libid)
    (w : world) :
  (∀ status stderr,
     clone_fault e (branch_of lib_id) = Some (GitFails status stderr) →
     has_line_end stderr = true) →
  trace (first_clone e (branch_of lib_id) (checkout_dir e lib_id) w).2
  = trace w ++
    [ LogDebug ("Cloning branch " +:+ branch_of lib_id);
      GitClone (LIBBUILD_REPO_URI e) (checkout_dir e lib_id)
        (branch_of lib_id) true 1 ] ∧
  (∀ r w1,
     first_clone e (branch_of lib_id) (checkout_dir e lib_id) w = (Ok r, w1) →
     clone_library_branch e (branch_of lib_id) (AbsP (checkout_dir e lib_id)) w
     = cloned_into (checkout_dir e lib_id) r w1) ∧
  (∀ status stderr w1,
     first_clone e (branch_of lib_id) (checkout_dir e lib_id) w
     = (Raise (GitCommandError status stderr), w1) →
     (reports_branch_not_found stderr (branch_of lib_id) = Ok true ∧
      clone_library_branch e (branch_of lib_id) (AbsP (checkout_dir e lib_id)) w
      = (r <- make_branch e (branch_of lib_id) (checkout_dir e lib_id) ;;
         cloned_into (checkout_dir e lib_id) r) w1) ∨
     (reports_branch_not_found stderr (branch_of lib_id) = Ok false ∧
      clone_library_branch e (branch_of lib_id) (AbsP (checkout_dir e lib_id)) w
      = (Raise (GitCommandError status stderr), w1))) ∧
  (∀ exc w1,
     first_clone e (branch_of lib_id) (checkout_dir e lib_id) w = (Raise exc, w1) →
     (∀ status stderr, exc ≠ GitCommandError status stderr) →
     clone_library_branch e (branch_of lib_id) (AbsP (checkout_dir e lib_id)) w
     = (Raise exc, w1)) ∧
  (∀ t,
     clone_fault e (branch_of lib_id) = None →
     remote w !! branch_of lib_id = None →
     has_char "010" (branch_of lib_id) = false →
     clone_fault e "master" = None → checkout_fault e = None →
     remote w !! "master" = Some t →
     clone_library_branch e (branch_of lib_id) (AbsP (checkout_dir e lib_id)) w
     = (Ok (Repo (checkout_dir e lib_id)),
        World (cwd w) (fs w ∪ place (checkout_dir e lib_id) t) (remote w) t None
          (trace w ++
           [ LogDebug ("Cloning branch " +:+ branch_of lib_id);
             GitClone (LIBBUILD_REPO_URI e) (checkout_dir e lib_id)
               (branch_of lib_id) true 1;
             LogDebug "Branch not found. Making one.";
             GitClone (LIBBUILD_REPO_URI e) (checkout_dir e lib_id) "master" true 1;
             GitCheckout (branch_of lib_id) true;
             LogInfo ("Cloned into " +:+
                      path_str (AbsP (checkout_dir e lib_id))) ]))) ∧
  (∀ version platforms kwargs exc wb,
     fs_wf (fs w) → entry_ok e lib_id w →
     clone_library_branch e (branch_of lib_id) (AbsP (checkout_dir e lib_id))
       (at_entry e lib_id w) = (Raise exc, wb) →
     think_of_name_later e lib_id version platforms kwargs w
     = (Ok (),
        World (cwd w) (fs w) (remote wb) (index wb) (head wb)
          (trace wb ++ [LogException exc; FsRmtree (checkout_dir e lib_id)]))).
Proof.
  intros Hterm.
  set (d := checkout_dir e lib_id). set (branch := branch_of lib_id) in *.
  destruct (clone_library_branch_cases e branch d w) as (Htr & Hok & Hgit & Hother).
  split; [exact Htr|]. split; [exact Hok|].
  split; [|split; [exact Hother|split]].
  - intros status stderr w1 Hfirst. specialize (Hgit status stderr w1 Hfirst).
    assert (has_line_end stderr = true) as Hend.
    { unfold first_clone, clone_from in Hfirst. cbn zeta in Hfirst.
      cbn [opt_branch resolve] in Hfirst.
      destruct (clone_fault e branch) as [[status' stderr'|]|] eqn:Hfault;
        rewrite ?Hfault in Hfirst; cbn [exn_of_git_failure] in Hfirst.
      - injection Hfirst as Hstatus Hstderr _. subst status' stderr'.
        by apply (Hterm status).
      - done.
      - destruct (remote _ !! branch); [done|].
        injection Hfirst as _ Hstderr _. subst stderr.
        apply branch_not_found_stderr_has_line_end. }
    destruct (has_line_end_reports stderr branch Hend) as [found Hrep].
    rewrite Hrep in Hgit. destruct found; [by left|by right].
  - intros t Hfault Hbranch Hline Hmaster Horphan Ht.
    set (w1 := record (GitClone (LIBBUILD_REPO_URI e) d branch true 1)
                 (record (LogDebug ("Cloning branch " +:+ branch)) w)).
    specialize (Hgit 128 (Some (branch_not_found_stderr d branch)) w1).
    rewrite reports_missing_branch in Hgit by done.
    rewrite Hgit.
    + rewrite (bind_ok _ _ _ _ _ (make_branch_ok e branch d t w1
                                    Hmaster Horphan Ht)).
      unfold cloned_into, bind, logger_info, ret. f_equal.
      apply world_eq; cbn; try done. by rewrite <- !app_assoc.
    + unfold first_clone, clone_from. cbn zeta. cbn [opt_branch resolve].
      rewrite Hfault. fold w1. replace (remote _ !! branch) with (@None tree).
      reflexivity.
  - intros version platforms kwargs exc wb Hwf Hentry Hclone.
    apply (think_of_name_later_spec e lib_id version platforms kwargs w Hwf Hentry
             (Raise exc) wb).
    unfold publish_body. by apply bind_raise.
Qed.

Lemma clone_library_branch_recovers_missing_branch_witness :
  (clone_library_branch offline_env "library-75"
     (AbsP ["tmp"; "pioapi-libbuild-75-a1b2"]) sample_world).1
  = Raise (GitCommandError 128 (Some ("fatal: unable to access the remote" +:+ nl))) ∧
  events_since sample_world
    (clone_library_branch offline_env "library-75"
       (AbsP ["tmp"; "pioapi-libbuild-75-a1b2"]) sample_world).2
  = [ LogDebug "Cloning branch library-75";
      GitClone "https://example.org/ci.git" ["tmp"; "pioapi-libbuild-75-a1b2"]
        "library-75" true 1 ] ∧
  (clone_library_branch sample_env "library-75"
     (AbsP ["tmp"; "pioapi-libbuild-75-a1b2"]) sample_world).1
  = Ok (Repo ["tmp"; "pioapi-libbuild-75-a1b2"]) ∧
  events_since sample_world
    (clone_library_branch sample_env "library-75"
       (AbsP ["tmp"; "pioapi-libbuild-75-a1b2"]) sample_world).2
  = [ LogDebug "Cloning branch library-75";
      GitClone "https://example.org/ci.git" ["tmp"; "pioapi-libbuild-75-a1b2"]
        "library-75" true 1;
      LogDebug "Branch not found. Making one.";
      GitClone "https://example.org/ci.git" ["tmp"; "pioapi-libbuild-75-a1b2"]
        "master" true 1;
      GitCheckout "library-75" true;
      LogInfo "Cloned into /tmp/pioapi-libbuild-75-a1b2" ] ∧
  events_since sample_world
    (think_of_name_later offline_env (IdInt 75) (sample_version "1.0")
       (JArr [JStr "atmelavr"]) [] sample_world).2
  = [ FsMkdtemp ["tmp"; "pioapi-libbuild-75-a1b2"];
      LogDebug "Cloning branch library-75";
      GitClone "https://example.org/ci.git" ["tmp"; "pioapi-libbuild-75-a1b2"]
        "library-75" true 1;
      LogException
        (GitCommandError 128 (Some ("fatal: unable to access the remote" +:+ nl)));
      FsRmtree ["tmp"; "pioapi-libbuild-75-a1b2"] ].
Proof.
  assert (∀ status stderr,
            clone_fault offline_env (branch_of (IdInt 75))
            = Some (GitFails status stderr) → has_line_end stderr = true)
    as Hoffline by (by intros status stderr [= <- <-]).
  assert (∀ status stderr,
            clone_fault sample_env (branch_of (IdInt 75))
            = Some (GitFails status stderr) → has_line_end stderr = true)
    as Hsample by (intros status stderr; discriminate).
  destruct (clone_library_branch_recovers_missing_branch offline_env (IdInt 75)
              sample_world Hoffline) as (_ & _ & Hfails & _ & _ & Hfatal).
  destruct (clone_library_branch_recovers_missing_branch offline_env (IdInt 75)
              (at_entry offline_env (IdInt 75) sample_world) Hoffline)
    as (_ & _ & Hentered & _).
  destruct (Hentered 128 (Some ("fatal: unable to access the remote" +:+ nl))
              (first_clone offline_env (branch_of (IdInt 75))
                 (checkout_dir offline_env (IdInt 75))
                 (at_entry offline_env (IdInt 75) sample_world)).2 eq_refl)
    as [[Hrep _]|[_ Hlogged]]; [vm_compute in Hrep; discriminate|].
  assert (fs_wf (fs sample_world)) as Hwf by sample_wf.
  assert (entry_ok offline_env (IdInt 75) sample_world) as Hentry by sample_entry.
  specialize (Hfatal (sample_version "1.0") (JArr [JStr "atmelavr"]) [] _ _
                Hwf Hentry Hlogged).
  destruct (clone_library_branch_recovers_missing_branch sample_env (IdInt 75)
              sample_world Hsample) as (_ & _ & _ & _ & Hmade & _).
  assert (remote sample_world !! branch_of (IdInt 75) = None) as Hbranch
    by (by apply lookup_singleton_ne).
  assert (remote sample_world !! "master" = Some sample_master) as Hmaster
    by apply lookup_singleton_eq.
  specialize (Hmade sample_master eq_refl Hbranch eq_refl eq_refl eq_refl Hmaster).
  destruct (Hfails 128 (Some ("fatal: unable to access the remote" +:+ nl))
              (first_clone offline_env (branch_of (IdInt 75))
                 (checkout_dir offline_env (IdInt 75)) sample_world).2 eq_refl)
    as [[Hrep _]|[_ Hraised]]; [vm_compute in Hrep; discriminate|].
  change (branch_of (IdInt 75)) with "library-75" in Hraised, Hmade.
  change (checkout_dir offline_env (IdInt 75))
    with ["tmp"; "pioapi-libbuild-75-a1b2"] in Hraised.
  change (checkout_dir sample_env (IdInt 75))
    with ["tmp"; "pioapi-libbuild-75-a1b2"] in Hmade.
  rewrite Hraised, Hmade, Hfatal.
  split; [reflexivity|]. split; [vm_compute; reflexivity|].
  split; [reflexivity|]. split.
  - unfold events_since. cbn [snd trace]. rewrite drop_app_length. reflexivity.
  - vm_compute. reflexivity.
Defined.

(** ** The examples on the branch *)

(** C6, where the code departs from it: the examples of the checkout are
    replaced, the examples of the branch are not.  [examples/] is cleared
    and filled again in the working tree, and the new files are given to
    [index.add]; nothing takes the old ones out of the index, which holds
    the tree that was cloned.  So after a call that publishes, the branch
    of the library holds every saved example, and with them every example
    file that an earlier publish staged and that is no longer among the
    saved ones; [.travis.yml] names the saved examples only. *)
Theorem think_of_name_later_keeps_stale_example (e : env) (lib_id : libid)
    (version platforms name : json) (boards : string)
    (kwargs : list (string * json)) (t : tree) (w : world)
    (old : string) (c : content) :
  fs_wf (fs w) → entry_ok e lib_id w → reliable e →
  remote w !! branch_of lib_id = Some t → tree_wf t →
  must_update t version kwargs = true →
  is_file (t !! ["examples"]) = false →
  is_dir (t !! [TRAVIS_FILENAME]) = false →
  is_dir (fs w !! get_libexample_dir e lib_id) = true →
  get_libexample_dir e lib_id ≠ tempdir e →
  only_files (fs w) (get_libexample_dir e lib_id) →
  py_getitem version "name" = Ok name → board_flags platforms = Ok boards →
  t !! ["examples"; old] = Some (NFile c) →
  fs w !! (get_libexample_dir e lib_id ++ [old]) = None →
  ∃ names idx,
    (think_of_name_later e lib_id version platforms kwargs w).1 = Ok () ∧
    remote (think_of_name_later e lib_id version platforms kwargs w).2
      !! branch_of lib_id = Some idx ∧
    (∀ n, n ∈ names ↔ is_Some (fs w !! (get_libexample_dir e lib_id ++ [n]))) ∧
    (old ∉ names) ∧
    (∀ n, n ∈ names →
       idx !! ["examples"; n] = fs w !! (get_libexample_dir e lib_id ++ [n])) ∧
    idx !! ["examples"; old] = Some (NFile c) ∧
    idx !! [TRAVIS_FILENAME]
    = Some (NFile (CText (travis_text (env_lines (example_paths names))
                            (str_of_json e name) (str_of_id lib_id) boards))).
Proof.
  intros Hwf Hentry [Hworks Hpush] Hbranch Htwf Hgate Hex Htf Hsrc Htmpsrc
    Hfiles Hname Hboards Hold Hgone.
  destruct (think_of_name_later_runs e lib_id version platforms name boards
              kwargs t w Hwf Hentry Hworks)
    as (names & idx & Hrun & _ & Hnames & _ & Hit & Hin & Hkeep); try done.
  { intros f. by rewrite Hpush. }
  { intros Hnone. by rewrite Hbranch in Hnone. }
  { unfold cloned_tree. by rewrite Hbranch. }
  assert (old ∉ names) as Hnot.
  { intros [x Hx]%Hnames. by rewrite Hgone in Hx. }
  exists names, idx. rewrite Hrun. unfold pushed. rewrite Hpush.
  split; [done|]. split; [apply lookup_insert_eq|]. split; [done|].
  split; [done|]. split; [done|]. split; [|done].
  rewrite Hkeep; [done|done|done|done|].
  intros n Hn [= ->]. done.
Qed.

Lemma think_of_name_later_keeps_stale_example_witness :
  ∃ idx,
    (think_of_name_later sample_env (IdInt 75) (sample_version "1.0")
       (JArr [JStr "atmelavr"]) [] staged_world).1 = Ok () ∧
    remote (think_of_name_later sample_env (IdInt 75) (sample_version "1.0")
              (JArr [JStr "atmelavr"]) [] staged_world).2 !! "library-75"
    = Some idx ∧
    idx !! ["examples"; "Blink.ino"] = Some (NFile (CText "void setup() {}")) ∧
    idx !! ["examples"; "old.ino"] = Some (NFile (CText "old")) ∧
    fs staged_world !! ["data"; "75"; "old.ino"] = None.
Proof.
  assert (fs_wf (fs staged_world)) as Hwf by sample_wf.
  assert (entry_ok sample_env (IdInt 75) staged_world) as Hentry by sample_entry.
  assert (reliable sample_env) as Hrel by (by repeat split).
  assert (remote staged_world !! branch_of (IdInt 75) = Some sample_staged)
    as Hbranch by apply lookup_insert_eq.
  assert (tree_wf sample_staged) as Htwf
    by (apply (bool_decide_unpack (tree_wf _)); vm_compute; exact I).
  assert (only_files (fs staged_world) (get_libexample_dir sample_env (IdInt 75)))
    as Hfiles by (apply (bool_decide_unpack (Forall _ _)); vm_compute; exact I).
  assert (get_libexample_dir sample_env (IdInt 75) ≠ tempdir sample_env)
    as Hne by (vm_compute; discriminate).
  assert (sample_staged !! ["examples"; "old.ino"] = Some (NFile (CText "old")))
    as Hold by (vm_compute; reflexivity).
  assert (fs staged_world !! (get_libexample_dir sample_env (IdInt 75) ++ ["old.ino"])
          = None) as Hgone by (vm_compute; reflexivity).
  destruct (think_of_name_later_keeps_stale_example sample_env (IdInt 75)
              (sample_version "1.0") (JArr [JStr "atmelavr"]) (JStr "1.0")
              "--board=uno --board=leonardo --board=megaatmega2560" []
              sample_staged staged_world "old.ino" (CText "old")
              Hwf Hentry Hrel Hbranch Htwf eq_refl eq_refl eq_refl eq_refl
              Hne Hfiles eq_refl eq_refl Hold Hgone)
    as (names & idx & Hok & Hremote & Hnames & _ & Hin & Hstale & _).
  exists idx. split; [exact Hok|]. split; [exact Hremote|].
  split; [|split; [exact Hstale|exact Hgone]].
  rewrite Hin; [vm_compute; reflexivity|].
  apply Hnames. vm_compute. by eexists.
Defined.
